(** * Photos widget: acquisition workflow and widget rotation state

    A shallow embedding of the TypeScript sources of the photos-widget
    application, and the properties of its picker workflow, its rotation
    state and its rotation triggers.

    Asynchronous functions are run-to-completion computations in a small
    state-and-exception monad: an [await] is a bind, a [throw] keeps every
    side effect performed before it, a [try]/[catch] is [tryCatch].  A call
    made without [await] whose work goes on after the caller has returned
    is handed back to the caller's caller as a detached call, to be run
    afterwards.  The outside world (platform, clock, durable widget record,
    file reads, remote picker service, native modules) is explicit state or
    an explicit oracle. *)

From Stdlib Require Import ZArith List String Ascii Bool Lia DecimalString
  DecimalPos.
Import ListNotations.
Local Open Scope string_scope.
Local Open Scope Z_scope.

Set Implicit Arguments.

(** ** JavaScript helpers *)

(** [a || b] on strings: the empty string is falsy. *)
Definition jsOr (a b : string) : string :=
  if String.eqb a EmptyString then b else a.

(** [a || b] where [a] may be [undefined]. *)
Definition jsOrOpt (a : option string) (b : string) : string :=
  match a with
  | Some x => jsOr x b
  | None => b
  end.

(** [arr[i]]: [undefined] outside [0 .. length-1]. *)
Definition jsIndex {A : Type} (arr : list A) (i : Z) : option A :=
  if i <? 0 then None else nth_error arr (Z.to_nat i).

(** [arr.length] as a JavaScript number. *)
Definition jsLength {A : Type} (arr : list A) : Z := Z.of_nat (List.length arr).

(** [a % b] on integers: the remainder takes the sign of the dividend.
    JavaScript computes on doubles, which hold every integer up to 2^53:
    the properties that go through [currentIndex + 1] outside the range of
    the photos carry that bound. *)
Definition jsRem (a b : Z) : Z := Z.rem a b.

(** ** The state-and-exception monad *)

Inductive outcome (A : Type) : Type :=
| Ok (a : A)
| Throw (message : string).

Arguments Ok {A} a.
Arguments Throw {A} message.

Definition M (S A : Type) : Type := S -> outcome A * S.

Definition ret {S A : Type} (a : A) : M S A := fun s => (Ok a, s).

Definition bind {S A B : Type} (m : M S A) (k : A -> M S B) : M S B :=
  fun s =>
    match m s with
    | (Ok a, s') => k a s'
    | (Throw e, s') => (Throw e, s')
    end.

Definition throw {S A : Type} (e : string) : M S A := fun s => (Throw e, s).

Definition tryCatch {S A : Type} (m : M S A) (handler : string -> M S A) : M S A :=
  fun s =>
    match m s with
    | (Ok a, s') => (Ok a, s')
    | (Throw e, s') => handler e s'
    end.

Definition gets {S A : Type} (f : S -> A) : M S A := fun s => (Ok (f s), s).

Definition modify {S : Type} (f : S -> S) : M S unit := fun s => (Ok tt, f s).

Declare Scope monad_scope.
Delimit Scope monad_scope with monad.
Notation "x <- m ;; k" := (bind m (fun x => k))
  (at level 61, m at next level, right associativity) : monad_scope.
Notation "m ;; k" := (bind m (fun _ => k))
  (at level 61, right associativity) : monad_scope.
Local Open Scope monad_scope.

(** Final state and result of a run. *)
Definition exec {S A : Type} (m : M S A) (s : S) : S := snd (m s).
Definition result {S A : Type} (m : M S A) (s : S) : outcome A := fst (m s).

(** ** Data model (services/widget-storage, in src/unnamed/part_001) *)

Inductive DisplayMode : Type := single | slideshow.

Definition DisplayMode_eqb (a b : DisplayMode) : bool :=
  match a, b with
  | single, single | slideshow, slideshow => true
  | _, _ => false
  end.

Record WidgetPhoto : Type := {
  wp_id : string;
  wp_url : string;
  wp_localPath : option string;
  wp_baseUrl : option string;
  wp_width : Z;
  wp_height : Z
}.

(** [rotationIntervalSeconds] is read by services/background-fetch and by the
    settings screen ([widgetData?.rotationIntervalSeconds ?? 1800]); it is
    optional because [saveWidgetPhotos] builds the record without it. *)
Record WidgetData : Type := {
  photos : list WidgetPhoto;
  currentIndex : Z;
  displayMode : DisplayMode;
  lastUpdated : Z;
  albumId : option string;
  rotationIntervalSeconds : option Z
}.

Definition withIndex (d : WidgetData) (index now : Z) : WidgetData :=
  {| photos := photos d;
     currentIndex := index;
     displayMode := displayMode d;
     lastUpdated := now;
     albumId := albumId d;
     rotationIntervalSeconds := rotationIntervalSeconds d |}.

(** ** What a widget render produces (widgets/photo-widget) *)

Inductive Widget : Type :=
| TapToAddPhotos                                   (* empty placeholder, OPEN_APP *)
| PhotoImage (image : string) (clickAction : string)
| UnableToLoad (text : string).                    (* error placeholder, OPEN_APP *)

(** ** Observable events

    Calls to collaborators and to the operations the properties count are
    recorded, oldest first, in the world's [trace]. *)

Inductive Event : Type :=
| EvCreateSession
| EvOpenBrowser (pickerUri : string)
| EvGetSession (sessionId : string)
| EvSleep (ms : Z)
| EvFetchMediaItems (sessionId : string)
| EvDownload (itemId : string)
| EvDeleteSession (sessionId : string)
| EvSaveWidgetPhotos (photos : list WidgetPhoto) (mode : DisplayMode)
| EvWrite (record : WidgetData)
| EvRotateToNextPhoto
| EvRotatePhoto
| EvRequestWidgetUpdate
| EvRenderWidget (w : Widget)
| EvCopy (fromUri : string)
| EvUpdateRotationInterval (seconds : Z)
| EvRegisterBackgroundFetch (seconds : Z)
| EvStartRotationService (seconds : Z)
| EvStopRotationService
| EvAlert (title message : string).

Inductive OS : Type := android | ios.

Definition isAndroid (o : OS) : bool :=
  match o with android => true | ios => false end.

(** The world outside the JavaScript heap.
    - [now] is [Date.now()], in milliseconds; awaiting a [setTimeout] of
      [ms] advances it by [ms].
    - [store] is the durable widget record as the code under study reads
      and writes it: [None] when it was never written.  A read that fails
      is indistinguishable from an absent record, because both readers
      catch the failure and return [null].  The widget keeps the record in
      [widget-data.json]; the application keeps it in the shared
      preferences entry when the native module is present and in that file
      otherwise.  A property therefore speaks of the calls of one side
      only, the application or the widget, never of one side reading what
      the other wrote.
    - [writeFails] makes every durable write fail.
    - [readBase64 path] is the content of an image file, [None] when the
      read throws.
    - [polls] counts the session-status requests sent so far. *)
Record World : Type := {
  platformOS : OS;
  now : Z;
  store : option WidgetData;
  writeFails : bool;
  readBase64 : string -> option string;
  polls : nat;
  trace : list Event
}.

Definition setStore (o : option WidgetData) (w : World) : World :=
  {| platformOS := platformOS w; now := now w; store := o;
     writeFails := writeFails w; readBase64 := readBase64 w;
     polls := polls w; trace := trace w |}.

Definition log (e : Event) (w : World) : World :=
  {| platformOS := platformOS w; now := now w; store := store w;
     writeFails := writeFails w; readBase64 := readBase64 w;
     polls := polls w; trace := (trace w ++ [e])%list |}.

Definition tick (ms : Z) (w : World) : World :=
  {| platformOS := platformOS w; now := now w + ms; store := store w;
     writeFails := writeFails w; readBase64 := readBase64 w;
     polls := polls w; trace := trace w |}.

Definition countPoll (w : World) : World :=
  {| platformOS := platformOS w; now := now w; store := store w;
     writeFails := writeFails w; readBase64 := readBase64 w;
     polls := S (polls w); trace := trace w |}.

Definition emit (e : Event) : M World unit := modify (log e).

(** [await new Promise(resolve => setTimeout(resolve, ms))] *)
Definition sleep (ms : Z) : M World unit :=
  modify (fun w => tick ms (log (EvSleep ms) w)).

(** ** services/widget-storage (src/unnamed/part_001) *)

Module WidgetStorage.

(** [getWidgetData]: [null] off Android, and on any read failure.  The
    record is read where the application keeps it: through the shared
    preferences module when it is present, from [widget-data.json]
    otherwise. *)
Definition getWidgetData : M World (option WidgetData) :=
  fun w => if isAndroid (platformOS w) then (Ok (store w), w) else (Ok None, w).

(** [saveWidgetData]: one durable write, to the place [getWidgetData]
    reads; a failure is logged and rethrown.  The message of a failed
    write stands for the error of the underlying call. *)
Definition saveWidgetData (widgetData : WidgetData) : M World unit :=
  fun w =>
    let w1 := log (EvWrite widgetData) w in
    if writeFails w then (Throw "Failed to save widget data", w1)
    else (Ok tt, setStore (Some widgetData) w1).

(** [saveWidgetPhotos(photos, displayMode = "single", albumId?)] *)
Definition saveWidgetPhotos (ps : list WidgetPhoto) (mode : DisplayMode)
    (album : option string) : M World unit :=
  emit (EvSaveWidgetPhotos ps mode) ;;
  os <- gets platformOS ;;
  if negb (isAndroid os) then ret tt
  else
    t <- gets now ;;
    saveWidgetData {| photos := ps;
                      currentIndex := 0;
                      displayMode := mode;
                      lastUpdated := t;
                      albumId := album;
                      rotationIntervalSeconds := None |}.

(** [updateCurrentPhotoIndex(index)] *)
Definition updateCurrentPhotoIndex (index : Z) : M World unit :=
  os <- gets platformOS ;;
  if negb (isAndroid os) then ret tt
  else
    widgetData <- getWidgetData ;;
    match widgetData with
    | None => ret tt
    | Some d =>
        t <- gets now ;;
        saveWidgetData (withIndex d index t)
    end.

(** [rotateToNextPhoto()] *)
Definition rotateToNextPhoto : M World unit :=
  emit EvRotateToNextPhoto ;;
  widgetData <- getWidgetData ;;
  match widgetData with
  | None => ret tt
  | Some d =>
      if jsLength (photos d) =? 0 then ret tt
      else
        let nextIndex := jsRem (currentIndex d + 1) (jsLength (photos d)) in
        updateCurrentPhotoIndex nextIndex
  end.

(** [requestWidgetUpdate()]: asks the widget host for a redraw; every
    failure is caught and logged.  The request is made in the synchronous
    part of the call, so it is made at the point of call whether or not
    the caller awaits the promise. *)
Definition requestWidgetUpdate : M World unit :=
  os <- gets platformOS ;;
  if negb (isAndroid os) then ret tt
  else emit EvRequestWidgetUpdate.

End WidgetStorage.

(** ** widgets/photo-widget (src/widgets/photo-widget.tsx), second version *)

Module PhotoWidget.

(** The widget reads the record file [widget-data.json] directly, on any
    platform; [store] is that file in the properties of the widget. *)
Definition getWidgetData : M World (option WidgetData) := gets store.

(** [saveWidgetData]: a failed write is logged and swallowed. *)
Definition saveWidgetData (widgetData : WidgetData) : M World unit :=
  fun w =>
    let w1 := log (EvWrite widgetData) w in
    if writeFails w then (Ok tt, w1)
    else (Ok tt, setStore (Some widgetData) w1).

(** [rotatePhoto()] *)
Definition rotatePhoto : M World unit :=
  emit EvRotatePhoto ;;
  widgetData <- getWidgetData ;;
  match widgetData with
  | None => ret tt
  | Some d =>
      if jsLength (photos d) <=? 1 then ret tt
      else
        t <- gets now ;;
        saveWidgetData
          (withIndex d (jsRem (currentIndex d + 1) (jsLength (photos d))) t)
  end.

(** [String.prototype.startsWith] *)
Definition startsWith (s pre : string) : bool := String.prefix pre s.

(** [getImageAsBase64(imagePath)]: [null] when the file cannot be read. *)
Definition getImageAsBase64 (imagePath : string) : M World (option string) :=
  if startsWith imagePath "data:image" then ret (Some imagePath)
  else
    content <- gets (fun w => readBase64 w imagePath) ;;
    match content with
    | Some base64 => ret (Some ("data:image/jpeg;base64," ++ base64)%string)
    | None => ret None
    end.

(** [widgetData.photos[widgetData.currentIndex] || widgetData.photos[0]]:
    a photo object is always truthy, so the fallback is taken exactly when
    the first lookup is [undefined]. *)
Definition currentPhoto (d : WidgetData) : option WidgetPhoto :=
  match jsIndex (photos d) (currentIndex d) with
  | Some p => Some p
  | None => jsIndex (photos d) 0
  end.

(** [currentPhoto.localPath || currentPhoto.url] *)
Definition imagePath (p : WidgetPhoto) : string :=
  jsOrOpt (wp_localPath p) (wp_url p).

(** [if (base64Image)]: [null] and the empty string are falsy. *)
Definition truthy (o : option string) : option string :=
  match o with
  | Some s => if String.eqb s EmptyString then None else Some s
  | None => None
  end.

(** The [renderWidget] callback: hands one element to the widget host. *)
Definition renderWidget (element : Widget) : M World unit :=
  emit (EvRenderWidget element).

(** [renderPhotoWidget(widgetInfo, renderWidget)]; reading a property of
    [undefined] throws a [TypeError]. *)
Definition renderPhotoWidget : M World unit :=
  widgetData <- getWidgetData ;;
  match widgetData with
  | None => renderWidget TapToAddPhotos
  | Some d =>
      if jsLength (photos d) =? 0 then renderWidget TapToAddPhotos
      else
        match currentPhoto d with
        | None => throw "TypeError: Cannot read properties of undefined"
        | Some p =>
            base64Image <- getImageAsBase64 (imagePath p) ;;
            match truthy base64Image with
            | Some image => renderWidget (PhotoImage image "ROTATE_PHOTO")
            | None => renderWidget (UnableToLoad "Unable to load photo")
            end
        end
  end.

(** [renderWidgetForUpdate(widgetInfo)]: the element is returned instead. *)
Definition renderWidgetForUpdate : M World Widget :=
  widgetData <- getWidgetData ;;
  match widgetData with
  | None => ret TapToAddPhotos
  | Some d =>
      if jsLength (photos d) =? 0 then ret TapToAddPhotos
      else
        match currentPhoto d with
        | None => throw "TypeError: Cannot read properties of undefined"
        | Some p =>
            base64Image <- getImageAsBase64 (imagePath p) ;;
            match truthy base64Image with
            | Some image => ret (PhotoImage image "ROTATE_PHOTO")
            | None => ret (UnableToLoad "Unable to load")
            end
        end
  end.

Inductive WidgetAction : Type :=
| WIDGET_ADDED | WIDGET_UPDATE | WIDGET_RESIZED | WIDGET_CLICK
| WIDGET_DELETED | WIDGET_OTHER.

(** [widgetTaskHandler(props)] *)
Definition widgetTaskHandler (widgetAction : WidgetAction)
    (clickAction : option string) : M World unit :=
  match widgetAction with
  | WIDGET_ADDED | WIDGET_UPDATE | WIDGET_RESIZED => renderPhotoWidget
  | WIDGET_CLICK =>
      match clickAction with
      | Some "ROTATE_PHOTO" => rotatePhoto ;; renderPhotoWidget
      | _ => rotatePhoto ;; renderPhotoWidget
      end
  | WIDGET_DELETED => ret tt
  | WIDGET_OTHER => ret tt
  end.

End PhotoWidget.

(** ** widgets/photo-widget, first version

    src/widgets/photo-widget.tsx holds two versions of the file, one after
    the other.  [getWidgetData], [saveWidgetData], [rotatePhoto] and the
    choice of the photo to show are the same text in both.  The first
    version (lines 1 to 375) differs from the second (module [PhotoWidget],
    lines 379 to 773) in the prefix that [getImageAsBase64] tests and in
    the click action of the rendered image. *)

Module PhotoWidgetFirst.

(** [getImageAsBase64(imagePath)]: [null] when the file cannot be read. *)
Definition getImageAsBase64 (imagePath : string) : M World (option string) :=
  if PhotoWidget.startsWith imagePath "data:" then ret (Some imagePath)
  else
    content <- gets (fun w => readBase64 w imagePath) ;;
    match content with
    | Some base64 => ret (Some ("data:image/jpeg;base64," ++ base64)%string)
    | None => ret None
    end.

(** [widgetData.displayMode === "slideshow" && widgetData.photos.length > 1
       ? "NEXT_PHOTO" : "OPEN_APP"] *)
Definition clickActionFor (d : WidgetData) : string :=
  if (DisplayMode_eqb (displayMode d) slideshow && (1 <? jsLength (photos d)))%bool
  then "NEXT_PHOTO" else "OPEN_APP".

(** [renderPhotoWidget(widgetInfo, renderWidget)] *)
Definition renderPhotoWidget : M World unit :=
  widgetData <- PhotoWidget.getWidgetData ;;
  match widgetData with
  | None => PhotoWidget.renderWidget TapToAddPhotos
  | Some d =>
      if jsLength (photos d) =? 0 then PhotoWidget.renderWidget TapToAddPhotos
      else
        match PhotoWidget.currentPhoto d with
        | None => throw "TypeError: Cannot read properties of undefined"
        | Some p =>
            base64Image <- getImageAsBase64 (PhotoWidget.imagePath p) ;;
            match PhotoWidget.truthy base64Image with
            | Some image =>
                PhotoWidget.renderWidget (PhotoImage image (clickActionFor d))
            | None =>
                PhotoWidget.renderWidget (UnableToLoad "Unable to load photo")
            end
        end
  end.

(** [renderWidgetForUpdate(widgetInfo)]: the element is returned instead,
    and a tap on the image opens the application. *)
Definition renderWidgetForUpdate : M World Widget :=
  widgetData <- PhotoWidget.getWidgetData ;;
  match widgetData with
  | None => ret TapToAddPhotos
  | Some d =>
      if jsLength (photos d) =? 0 then ret TapToAddPhotos
      else
        match PhotoWidget.currentPhoto d with
        | None => throw "TypeError: Cannot read properties of undefined"
        | Some p =>
            base64Image <- getImageAsBase64 (PhotoWidget.imagePath p) ;;
            match PhotoWidget.truthy base64Image with
            | Some image => ret (PhotoImage image "OPEN_APP")
            | None => ret (UnableToLoad "Unable to load")
            end
        end
  end.

End PhotoWidgetFirst.

(** ** services/background-fetch (src/services/background-fetch.ts) *)

Module BackgroundFetch.

Inductive BackgroundFetchResult : Type := NoData | NewData | Failed.

(** The task registered under [BACKGROUND_FETCH_TASK]. *)
Definition backgroundFetchTask : M World BackgroundFetchResult :=
  tryCatch
    (widgetData <- WidgetStorage.getWidgetData ;;
     match widgetData with
     | None => ret NoData
     | Some d =>
         if jsLength (photos d) =? 0 then ret NoData
         else if DisplayMode_eqb (displayMode d) slideshow
                 && (1 <? jsLength (photos d))
         then
           WidgetStorage.rotateToNextPhoto ;;
           WidgetStorage.requestWidgetUpdate ;;
           ret NewData
         else ret NoData
     end)
    (fun _ => ret Failed).

End BackgroundFetch.

(** ** services/widget-updater (src/unnamed/part_002) *)

Module WidgetUpdater.

(** The task registered under [WIDGET_UPDATE_TASK]. *)
Definition widgetUpdateTask : M World unit :=
  tryCatch
    (widgetData <- WidgetStorage.getWidgetData ;;
     match widgetData with
     | None => ret tt
     | Some d =>
         if jsLength (photos d) =? 0 then ret tt
         else if DisplayMode_eqb (displayMode d) slideshow
                 && (1 <? jsLength (photos d))
         then
           WidgetStorage.rotateToNextPhoto ;;
           WidgetStorage.requestWidgetUpdate
         else WidgetStorage.requestWidgetUpdate
     end)
    (fun _ => ret tt).

(** [triggerWidgetUpdate()] *)
Definition triggerWidgetUpdate : M World unit :=
  os <- gets platformOS ;;
  if negb (isAndroid os) then ret tt
  else tryCatch WidgetStorage.requestWidgetUpdate (fun _ => ret tt).

(** [rotateAndUpdate()]: the error is logged and rethrown. *)
Definition rotateAndUpdate : M World unit :=
  os <- gets platformOS ;;
  if negb (isAndroid os) then ret tt
  else
    tryCatch
      (widgetData <- WidgetStorage.getWidgetData ;;
       match widgetData with
       | None => ret tt
       | Some d =>
           if jsLength (photos d) <=? 1 then ret tt
           else
             WidgetStorage.rotateToNextPhoto ;;
             WidgetStorage.requestWidgetUpdate
       end)
      (fun e => throw e).

End WidgetUpdater.

(** ** services/photos-picker-api (src/unnamed/part_001) *)

Record MediaFile : Type := {
  mf_baseUrl : option string;
  mf_mimeType : string;
  mf_filename : string
}.

Record MediaItem : Type := {
  mi_id : string;
  mi_baseUrl : option string;
  mi_mimeType : string;
  mi_mediaFile : option MediaFile
}.

Record PickerSession : Type := {
  ps_id : string;
  pickerUri : string;
  expireTime : string;
  mediaItemsSet : bool
}.

(** The remote picker service, the browser, the credential provider and the
    download transport, as seen by one run of the workflow.  A [Throw] stands
    for every way the call can reject: no valid access token, a transport
    error, a non-2xx answer where the wrapper checks [response.ok].
    - [getSessionResp n] answers the status request sent after [n] earlier
      ones.
    - [mediaItemsResp] is [response.mediaItems], which may be absent.
    - [downloadResp i p] is the outcome of the [try] block of iteration [i]
      for item [p]: the HTTP status of [downloadAsync], or a throw of any of
      its awaits (directory check, token refresh, download). *)
Record Remote : Type := {
  createSessionResp : outcome PickerSession;
  openBrowserResp : outcome unit;
  getSessionResp : nat -> outcome PickerSession;
  mediaItemsResp : outcome (option (list MediaItem));
  downloadResp : nat -> MediaItem -> outcome Z;
  deleteSessionResp : outcome unit;
  cacheDirectory : string
}.

(** The collaborator's answer becomes the result of the call. *)
Definition fromOutcome {S A : Type} (o : outcome A) : M S A := fun s => (o, s).

Module PhotosPickerApi.
Section WithRemote.

Variable R : Remote.

(** [createPickerSession()] *)
Definition createPickerSession : M World PickerSession :=
  emit EvCreateSession ;; fromOutcome (createSessionResp R).

(** [getPickerSession(sessionId)]: one status request. *)
Definition getPickerSession (sessionId : string) : M World PickerSession :=
  emit (EvGetSession sessionId) ;;
  n <- gets polls ;;
  modify countPoll ;;
  fromOutcome (getSessionResp R n).

(** [deletePickerSession(sessionId)]: the answer's status is not checked. *)
Definition deletePickerSession (sessionId : string) : M World unit :=
  emit (EvDeleteSession sessionId) ;; fromOutcome (deleteSessionResp R).

(** [fetchPickerMediaItems(sessionId)], first page. *)
Definition fetchPickerMediaItems (sessionId : string)
  : M World (option (list MediaItem)) :=
  emit (EvFetchMediaItems sessionId) ;; fromOutcome (mediaItemsResp R).

(** [WebBrowser.openBrowserAsync(uri, ...)]: returns when the browser is
    dismissed. *)
Definition openBrowserAsync (uri : string) : M World unit :=
  emit (EvOpenBrowser uri) ;; fromOutcome (openBrowserResp R).

(** [openPhotoPicker()]: the catch block logs and rethrows. *)
Definition openPhotoPicker : M World string :=
  tryCatch
    (session <- createPickerSession ;;
     openBrowserAsync (pickerUri session) ;;
     ret (ps_id session))
    (fun e => throw e).

(** [const maxAttempts = 60] *)
Definition maxAttempts : nat := 60.

(** The [while (attempts < maxAttempts)] loop of [waitForPhotoSelection],
    by recursion on [maxAttempts - attempts]. *)
Fixpoint waitLoop (sessionId : string) (remaining : nat) : M World bool :=
  match remaining with
  | O => ret false
  | S remaining' =>
      returned <-
        tryCatch
          (session <- getPickerSession sessionId ;;
           if mediaItemsSet session then ret (Some true)
           else sleep 5000 ;; ret None)
          (fun _ => ret (Some false)) ;;
      match returned with
      | Some b => ret b
      | None => waitLoop sessionId remaining'
      end
  end.

(** [waitForPhotoSelection(sessionId)] *)
Definition waitForPhotoSelection (sessionId : string) : M World bool :=
  waitLoop sessionId maxAttempts.

(** [pickPhotos()] *)
Definition pickPhotos : M World (list MediaItem) :=
  sessionId <- openPhotoPicker ;;
  if String.eqb sessionId EmptyString then throw "Failed to create picker session"
  else
    sleep 2000 ;;
    hasSelection <- waitForPhotoSelection sessionId ;;
    if negb hasSelection then
      deletePickerSession sessionId ;; ret []
    else
      response <- fetchPickerMediaItems sessionId ;;
      deletePickerSession sessionId ;;
      ret (match response with Some items => items | None => [] end).

End WithRemote.
End PhotosPickerApi.

(** Rendering of an integer inside a template literal or by [toString()]:
    decimal notation, which is what JavaScript prints below 10^21 in
    magnitude.  The properties that print a number of unknown size carry
    that bound. *)
Definition jsNumberToString (z : Z) : string :=
  NilZero.string_of_int (Z.to_int z).

(** A display mode inside a template literal. *)
Definition displayModeToString (m : DisplayMode) : string :=
  match m with single => "single" | slideshow => "slideshow" end.

(** ** The photo picker screen (in src/app/oauth.tsx): the acquisition
    workflow *)

Module PhotoPickerScreen.

(** [type PickerState] *)
Inductive PickerState : Type :=
| StIdle | StCreatingSession | StPickerOpen | StPolling | StFetchingPhotos
| StDownloading | StSaving | StDone | StError.

(** The component state of the screen, together with the world it runs in. *)
Record Picker : Type := {
  world : World;
  state : PickerState;
  sessionId : option string;
  selectedPhotos : list MediaItem;
  error : option string;
  downloadProgress : Z * Z;
  pickerDisplayMode : DisplayMode
}.

Definition setWorld (w : World) (s : Picker) : Picker :=
  {| world := w; state := state s; sessionId := sessionId s;
     selectedPhotos := selectedPhotos s; error := error s;
     downloadProgress := downloadProgress s;
     pickerDisplayMode := pickerDisplayMode s |}.

Definition setState (st : PickerState) : M Picker unit :=
  modify (fun s =>
    {| world := world s; state := st; sessionId := sessionId s;
       selectedPhotos := selectedPhotos s; error := error s;
       downloadProgress := downloadProgress s;
       pickerDisplayMode := pickerDisplayMode s |}).

Definition setSessionId (i : option string) : M Picker unit :=
  modify (fun s =>
    {| world := world s; state := state s; sessionId := i;
       selectedPhotos := selectedPhotos s; error := error s;
       downloadProgress := downloadProgress s;
       pickerDisplayMode := pickerDisplayMode s |}).

Definition setSelectedPhotos (ps : list MediaItem) : M Picker unit :=
  modify (fun s =>
    {| world := world s; state := state s; sessionId := sessionId s;
       selectedPhotos := ps; error := error s;
       downloadProgress := downloadProgress s;
       pickerDisplayMode := pickerDisplayMode s |}).

Definition setError (e : option string) : M Picker unit :=
  modify (fun s =>
    {| world := world s; state := state s; sessionId := sessionId s;
       selectedPhotos := selectedPhotos s; error := e;
       downloadProgress := downloadProgress s;
       pickerDisplayMode := pickerDisplayMode s |}).

Definition setDownloadProgress (current total : Z) : M Picker unit :=
  modify (fun s =>
    {| world := world s; state := state s; sessionId := sessionId s;
       selectedPhotos := selectedPhotos s; error := error s;
       downloadProgress := (current, total);
       pickerDisplayMode := pickerDisplayMode s |}).

(** Run a service call in the screen's world. *)
Definition liftW {A : Type} (m : M World A) : M Picker A :=
  fun s =>
    match m (world s) with
    | (r, w') => (r, setWorld w' s)
    end.

Section WithRemote.

Variable R : Remote.

(** [p.mediaFile?.baseUrl || p.baseUrl || (empty string)] *)
Definition itemBaseUrl (p : MediaItem) : string :=
  jsOrOpt (match mi_mediaFile p with
           | Some f => mf_baseUrl f
           | None => None
           end)
          (jsOrOpt (mi_baseUrl p) EmptyString).

(** [`${FileSystem.cacheDirectory}widget-photos/${p.id}.jpg`] *)
Definition itemLocalPath (p : MediaItem) : string :=
  (cacheDirectory R ++ "widget-photos/" ++ mi_id p ++ ".jpg")%string.

(** The object pushed for a downloaded item. *)
Definition toWidgetPhoto (p : MediaItem) : WidgetPhoto :=
  {| wp_id := mi_id p;
     wp_url := itemLocalPath p;
     wp_localPath := Some (itemLocalPath p);
     wp_baseUrl := Some (itemBaseUrl p);
     wp_width := 512;
     wp_height := 512 |}.

(** The [try] block of one iteration of the download loop. *)
Definition downloadOne (i : nat) (p : MediaItem)
    (widgetPhotos : list WidgetPhoto) : M Picker (list WidgetPhoto) :=
  liftW (emit (EvDownload (mi_id p))) ;;
  status <- fromOutcome (downloadResp R i p) ;;
  if status =? 200 then ret (widgetPhotos ++ [toWidgetPhoto p])%list
  else ret widgetPhotos.

(** [for (let i = 0; i < photos.length; i++)], from index [i] on, with
    [rest] the items not yet visited. *)
Fixpoint downloadLoop (i : nat) (total : Z) (rest : list MediaItem)
    (widgetPhotos : list WidgetPhoto) : M Picker (list WidgetPhoto) :=
  match rest with
  | [] => ret widgetPhotos
  | p :: rest' =>
      setDownloadProgress (Z.of_nat i + 1) total ;;
      widgetPhotos' <-
        tryCatch (downloadOne i p widgetPhotos)
                 (fun _ => ret widgetPhotos) ;;
      downloadLoop (S i) total rest' widgetPhotos'
  end.

(** The text of the success alert. *)
Definition savedMessage (n : Z) (mode : DisplayMode) : string :=
  let plural := if (1 <? n)%Z then "s" else EmptyString in
  (jsNumberToString n ++ " photo" ++ plural
   ++ " saved for your widget in " ++ displayModeToString mode
   ++ " mode.")%string.

(** [fetchSelectedPhotos(sessId)] *)
Definition fetchSelectedPhotos (sessId : string) : M Picker unit :=
  tryCatch
    (setState StFetchingPhotos ;;
     response <- liftW (PhotosPickerApi.fetchPickerMediaItems R sessId) ;;
     let photos := match response with Some items => items | None => [] end in
     setSelectedPhotos photos ;;
     (if 0 <? jsLength photos then
        setState StDownloading ;;
        setDownloadProgress 0 (jsLength photos) ;;
        widgetPhotos <- downloadLoop 0 (jsLength photos) photos [] ;;
        if 0 <? jsLength widgetPhotos then
          setState StSaving ;;
          mode <- gets pickerDisplayMode ;;
          liftW (WidgetStorage.saveWidgetPhotos widgetPhotos mode None) ;;
          os <- gets (fun s => platformOS (world s)) ;;
          (if isAndroid os then liftW WidgetStorage.requestWidgetUpdate
           else ret tt) ;;
          setState StDone ;;
          liftW (emit (EvAlert "Photos Selected!"
                         (savedMessage (jsLength widgetPhotos) mode)))
        else
          setError (Some "Failed to download photos") ;;
          setState StError
      else
        setError (Some "No photos were selected") ;;
        setState StError) ;;
     liftW (PhotosPickerApi.deletePickerSession R sessId))
    (fun message =>
       setError (Some message) ;;
       setState StError).

(** How one iteration of the polling loop ends: [return], fall through to
    the next iteration, or [break]. *)
Inductive LoopStep : Type := Returned | Continue | Break.

(** The [while (attempts < maxAttempts)] loop of [pollForSelection], by
    recursion on [maxAttempts - attempts]; [true] when the function
    returned from inside the loop. *)
Fixpoint pollLoop (sessId : string) (remaining : nat) : M Picker bool :=
  match remaining with
  | O => ret false
  | S remaining' =>
      step <-
        tryCatch
          (session <- liftW (PhotosPickerApi.getPickerSession R sessId) ;;
           if mediaItemsSet session then
             fetchSelectedPhotos sessId ;; ret Returned
           else
             liftW (sleep 5000) ;; ret Continue)
          (fun _ => ret Break) ;;
      match step with
      | Returned => ret true
      | Continue => pollLoop sessId remaining'
      | Break => ret false
      end
  end.

(** [const maxAttempts = 60] *)
Definition maxAttempts : nat := 60.

(** [pollForSelection(sessId)] *)
Definition pollForSelection (sessId : string) : M Picker unit :=
  returned <- pollLoop sessId maxAttempts ;;
  if (returned : bool) then ret tt
  else
    setError (Some "No photos were selected or the session timed out") ;;
    setState StError ;;
    if String.eqb sessId EmptyString then ret tt
    else
      tryCatch (liftW (PhotosPickerApi.deletePickerSession R sessId))
               (fun _ => ret tt).

(** [startPicker()].  The last statement of its [try] block calls
    [pollForSelection(session.id)] without [await]: the polling goes on
    after [startPicker] has returned, and nothing it does reaches this
    [catch].  The result names that detached call: [Some] of the session id
    the polling was started with, [None] when the [catch] block ran. *)
Definition startPicker : M Picker (option string) :=
  tryCatch
    (setState StCreatingSession ;;
     session <- liftW (PhotosPickerApi.createPickerSession R) ;;
     setSessionId (Some (ps_id session)) ;;
     setState StPickerOpen ;;
     liftW (PhotosPickerApi.openBrowserAsync R (pickerUri session)) ;;
     setState StPolling ;;
     ret (Some (ps_id session)))
    (fun message =>
       setError (Some message) ;;
       setState StError ;;
       ret None).

(** The workflow a press on the button sets off, up to the point where
    nothing is left running: [startPicker], then the polling it started. *)
Definition pickerWorkflow : M Picker unit :=
  detached <- startPicker ;;
  match detached with
  | Some sessId => pollForSelection sessId
  | None => ret tt
  end.

End WithRemote.
End PhotoPickerScreen.

(** ** [parseInt(text, 10)]

    [None] is [NaN].  Leading white space is skipped, one sign is accepted,
    the longest run of decimal digits is read and what follows it is
    ignored.  A text is held in its UTF-8 encoding, so the white space of
    ECMA-262 (WhiteSpace and LineTerminator: TAB, LF, VT, FF, CR, SP and
    U+00A0, U+1680, U+2000 to U+200A, U+2028, U+2029, U+202F, U+205F,
    U+3000, U+FEFF) takes one, two or three bytes.  The digits are read as
    the integer they denote; JavaScript rounds it to a double, which is
    the same number up to 2^53, and the properties that use a parsed value
    of unknown size carry that bound. *)

Definition isWhiteSpace (c : ascii) : bool :=
  let n := nat_of_ascii c in
  (Nat.eqb n 32 || (Nat.leb 9 n && Nat.leb n 13))%bool.

(** U+00A0 is C2 A0. *)
Definition isWhiteSpace2 (c1 c2 : ascii) : bool :=
  (Nat.eqb (nat_of_ascii c1) 194 && Nat.eqb (nat_of_ascii c2) 160)%bool.

(** U+1680 is E1 9A 80; U+2000 to U+200A are E2 80 80 to E2 80 8A; U+2028,
    U+2029 and U+202F are E2 80 A8, E2 80 A9 and E2 80 AF; U+205F is
    E2 81 9F; U+3000 is E3 80 80; U+FEFF is EF BB BF. *)
Definition isWhiteSpace3 (c1 c2 c3 : ascii) : bool :=
  let n1 := nat_of_ascii c1 in
  let n2 := nat_of_ascii c2 in
  let n3 := nat_of_ascii c3 in
  ((Nat.eqb n1 225 && Nat.eqb n2 154 && Nat.eqb n3 128)
   || (Nat.eqb n1 226 && Nat.eqb n2 128
       && ((Nat.leb 128 n3 && Nat.leb n3 138)
           || Nat.eqb n3 168 || Nat.eqb n3 169 || Nat.eqb n3 175))
   || (Nat.eqb n1 226 && Nat.eqb n2 129 && Nat.eqb n3 159)
   || (Nat.eqb n1 227 && Nat.eqb n2 128 && Nat.eqb n3 128)
   || (Nat.eqb n1 239 && Nat.eqb n2 187 && Nat.eqb n3 191))%bool.

Fixpoint skipWhiteSpace (s : string) : string :=
  match s with
  | String c1 rest1 =>
      if isWhiteSpace c1 then skipWhiteSpace rest1
      else
        match rest1 with
        | String c2 rest2 =>
            if isWhiteSpace2 c1 c2 then skipWhiteSpace rest2
            else
              match rest2 with
              | String c3 rest3 =>
                  if isWhiteSpace3 c1 c2 c3 then skipWhiteSpace rest3 else s
              | EmptyString => s
              end
        | EmptyString => s
        end
  | EmptyString => s
  end.

Definition digitValue (c : ascii) : option Z :=
  let n := nat_of_ascii c in
  if (Nat.leb 48 n && Nat.leb n 57)%bool then Some (Z.of_nat n - 48) else None.

Fixpoint digitsFrom (s : string) (acc : Z) : Z :=
  match s with
  | String c rest =>
      match digitValue c with
      | Some d => digitsFrom rest (10 * acc + d)
      | None => acc
      end
  | EmptyString => acc
  end.

Definition leadingDigits (s : string) : option Z :=
  match s with
  | String c rest =>
      match digitValue c with
      | Some d => Some (digitsFrom rest d)
      | None => None
      end
  | EmptyString => None
  end.

Definition parseInt10 (text : string) : option Z :=
  match skipWhiteSpace text with
  | String "-" rest => option_map Z.opp (leadingDigits rest)
  | String "+" rest => leadingDigits rest
  | s => leadingDigits s
  end.


(** ** The settings screen (src/app/(tabs)/settings.tsx): the rotation
    interval *)

Module SettingsScreen.

Record Settings : Type := {
  world : World;
  backgroundFetchEnabled : bool;
  foregroundServiceEnabled : bool;
  rotationInterval : Z;
  showCustomModal : bool;
  customIntervalInput : string
}.

Definition setWorld (w : World) (s : Settings) : Settings :=
  {| world := w;
     backgroundFetchEnabled := backgroundFetchEnabled s;
     foregroundServiceEnabled := foregroundServiceEnabled s;
     rotationInterval := rotationInterval s;
     showCustomModal := showCustomModal s;
     customIntervalInput := customIntervalInput s |}.

Definition setRotationInterval (seconds : Z) : M Settings unit :=
  modify (fun s =>
    {| world := world s;
       backgroundFetchEnabled := backgroundFetchEnabled s;
       foregroundServiceEnabled := foregroundServiceEnabled s;
       rotationInterval := seconds;
       showCustomModal := showCustomModal s;
       customIntervalInput := customIntervalInput s |}).

Definition setShowCustomModal (b : bool) : M Settings unit :=
  modify (fun s =>
    {| world := world s;
       backgroundFetchEnabled := backgroundFetchEnabled s;
       foregroundServiceEnabled := foregroundServiceEnabled s;
       rotationInterval := rotationInterval s;
       showCustomModal := b;
       customIntervalInput := customIntervalInput s |}).

Definition liftW {A : Type} (m : M World A) : M Settings A :=
  fun s =>
    match m (world s) with
    | (r, w') => (r, setWorld w' s)
    end.

(** What the collaborators of the screen that lie outside the sources do.
    - [updateRotationInterval] of services/widget-storage is imported and
      called by the screen, but its body is not among the sources:
      [updateRotationIntervalResp seconds record] is the stored record it
      leaves behind when it is called with [seconds] and finds [record],
      or the error it throws.
    - [rotationModule] tells whether [NativeModules.WidgetRotationModule]
      is present; [startServiceResp interval] and [stopServiceResp] are
      the answers of its two methods, a [Throw] when the call rejects. *)
Record Services : Type := {
  updateRotationIntervalResp :
    Z -> option WidgetData -> outcome (option WidgetData);
  rotationModule : bool;
  startServiceResp : Z -> outcome bool;
  stopServiceResp : outcome bool
}.

(** [registerBackgroundFetch(intervalSeconds)] of services/background-fetch,
    reduced to the registration it performs; its own failures are caught. *)
Definition registerBackgroundFetch (seconds : Z) : M World unit :=
  os <- gets platformOS ;;
  if negb (isAndroid os) then ret tt
  else emit (EvRegisterBackgroundFetch seconds).

Section WithServices.

Variable E : Services.

(** The call [updateRotationInterval(seconds)]: the call is recorded and
    the stored record becomes what the collaborator makes of it. *)
Definition updateRotationInterval (seconds : Z) : M World unit :=
  emit (EvUpdateRotationInterval seconds) ;;
  fun w =>
    match updateRotationIntervalResp E seconds (store w) with
    | Ok record => (Ok tt, setStore record w)
    | Throw message => (Throw message, w)
    end.

(** [stopRotationService()] of services/foreground-rotation: the error of
    the native call is logged and rethrown. *)
Definition stopRotationService : M World bool :=
  os <- gets platformOS ;;
  if negb (isAndroid os) then ret false
  else if negb (rotationModule E) then ret false
  else
    tryCatch
      (emit EvStopRotationService ;;
       fromOutcome (stopServiceResp E))
      (fun e => throw e).

(** [startRotationService(intervalSeconds)] of
    services/foreground-rotation, with its
    [Math.max(10, intervalSeconds)]. *)
Definition startRotationService (seconds : Z) : M World bool :=
  os <- gets platformOS ;;
  if negb (isAndroid os) then ret false
  else if negb (rotationModule E) then ret false
  else
    tryCatch
      (let interval := Z.max 10 seconds in
       emit (EvStartRotationService interval) ;;
       fromOutcome (startServiceResp E interval))
      (fun e => throw e).

(** [handleIntervalChange(seconds)] *)
Definition handleIntervalChange (seconds : Z) : M Settings unit :=
  setRotationInterval seconds ;;
  liftW (updateRotationInterval seconds) ;;
  bg <- gets backgroundFetchEnabled ;;
  (if (bg : bool) then liftW (registerBackgroundFetch seconds) else ret tt) ;;
  fg <- gets foregroundServiceEnabled ;;
  if (fg : bool) then
    liftW stopRotationService ;;
    liftW (startRotationService seconds) ;;
    ret tt
  else ret tt.

Definition doubleQuote : string := String (ascii_of_nat 34) EmptyString.

Definition reliableRotationHint : string :=
  ("For intervals under 15 min, enable " ++ doubleQuote
   ++ "Reliable Rotation" ++ doubleQuote
   ++ " in settings for guaranteed timing. Background rotation may be delayed by Android.")%string.

(** [handleCustomIntervalSubmit()] *)
Definition handleCustomIntervalSubmit : M Settings unit :=
  input <- gets customIntervalInput ;;
  let seconds := parseInt10 (jsOr input "30") in
  match seconds with
  | Some n =>
      if 5 <=? n then
        handleIntervalChange n ;;
        setShowCustomModal false ;;
        fg <- gets foregroundServiceEnabled ;;
        if ((n <? 900) && negb fg)%bool then
          liftW (emit (EvAlert "Enable Reliable Rotation" reliableRotationHint))
        else ret tt
      else
        liftW (emit (EvAlert "Invalid" "Interval must be at least 5 seconds"))
  | None =>
      liftW (emit (EvAlert "Invalid" "Interval must be at least 5 seconds"))
  end.

End WithServices.
End SettingsScreen.

(** ** The photos tab (in src/app.config.ts): adding local photos to the
    widget set *)

Module PhotosScreen.

Record Asset : Type := {
  uri : string;
  assetWidth : Z;
  assetHeight : Z
}.

(** What the image library hands back, and how file copies behave:
    [copyFails u] makes the copy of the asset at [u] throw. *)
Record Library : Type := {
  permissionGranted : bool;
  canceled : bool;
  assets : list Asset;
  copyFails : string -> bool;
  cacheDirectory : string
}.

(** The component state: the record last loaded by [loadWidgetData]. *)
Record Photos : Type := {
  world : World;
  widgetData : option WidgetData
}.

Definition setWorld (w : World) (s : Photos) : Photos :=
  {| world := w; widgetData := widgetData s |}.

Definition setWidgetData (d : option WidgetData) : M Photos unit :=
  modify (fun s => {| world := world s; widgetData := d |}).

Definition liftW {A : Type} (m : M World A) : M Photos A :=
  fun s =>
    match m (world s) with
    | (r, w') => (r, setWorld w' s)
    end.

(** [s.split("/").pop()]: what follows the last slash. *)
Fixpoint lastSegment (s acc : string) : string :=
  match s with
  | EmptyString => acc
  | String c rest =>
      if Ascii.eqb c "/" then lastSegment rest EmptyString
      else lastSegment rest (acc ++ String c EmptyString)%string
  end.

(** [n || 512] on numbers: zero is falsy. *)
Definition orDefault (n d : Z) : Z := if n =? 0 then d else n.

(** [loadWidgetData()] *)
Definition loadWidgetData : M Photos unit :=
  os <- gets (fun s => platformOS (world s)) ;;
  if negb (isAndroid os) then ret tt
  else
    tryCatch
      (data <- liftW WidgetStorage.getWidgetData ;;
       setWidgetData data)
      (fun _ => ret tt).

Section WithLibrary.

Variable L : Library.

(** [asset.uri.split("/").pop() || `photo_${Date.now()}.jpg`] *)
Definition fileNameOf (asset : Asset) (t : Z) : string :=
  jsOr (lastSegment (uri asset) EmptyString)
       ("photo_" ++ jsNumberToString t ++ ".jpg")%string.

Definition toWidgetPhoto (asset : Asset) (t : Z) : WidgetPhoto :=
  let fileName := fileNameOf asset t in
  let localPath := (cacheDirectory L ++ "widget-photos/" ++ fileName)%string in
  {| wp_id := fileName;
     wp_url := localPath;
     wp_localPath := Some localPath;
     wp_baseUrl := None;
     wp_width := orDefault (assetWidth asset) 512;
     wp_height := orDefault (assetHeight asset) 512 |}.

(** The [try] block of one iteration of [for (const asset of result.assets)]. *)
Definition copyOne (asset : Asset) (newPhotos : list WidgetPhoto)
  : M Photos (list WidgetPhoto) :=
  t <- gets (fun s => now (world s)) ;;
  liftW (emit (EvCopy (uri asset))) ;;
  if copyFails L (uri asset) then throw "copy failed"
  else ret (newPhotos ++ [toWidgetPhoto asset t])%list.

Fixpoint copyLoop (rest : list Asset) (newPhotos : list WidgetPhoto)
  : M Photos (list WidgetPhoto) :=
  match rest with
  | [] => ret newPhotos
  | asset :: rest' =>
      newPhotos' <-
        tryCatch (copyOne asset newPhotos) (fun _ => ret newPhotos) ;;
      copyLoop rest' newPhotos'
  end.

Definition addedMessage (n : Z) : string :=
  let plural := if (1 <? n)%Z then "s" else EmptyString in
  ("Added " ++ jsNumberToString n ++ " photo" ++ plural ++ "!")%string.

(** [handleAddLocalPhotos()] *)
Definition handleAddLocalPhotos : M Photos unit :=
  tryCatch
    (if negb (permissionGranted L) then
       liftW (emit (EvAlert "Permission Required"
                      "Please grant access to your photo library."))
     else if (canceled L || (jsLength (assets L) =? 0))%bool then ret tt
     else
       newPhotos <- copyLoop (assets L) [] ;;
       if 0 <? jsLength newPhotos then
         current <- gets widgetData ;;
         let existingPhotos :=
           match current with Some d => photos d | None => [] end in
         let allPhotos := (existingPhotos ++ newPhotos)%list in
         let mode := if 1 <? jsLength allPhotos then slideshow else single in
         liftW (WidgetStorage.saveWidgetPhotos allPhotos mode None) ;;
         liftW WidgetStorage.requestWidgetUpdate ;;
         loadWidgetData ;;
         liftW (emit (EvAlert "Success" (addedMessage (jsLength newPhotos))))
       else ret tt)
    (fun _ => liftW (emit (EvAlert "Error" "Failed to add photos"))).

End WithLibrary.
End PhotosScreen.

(** ** Image URLs (services/photos-picker-api, src/unnamed/part_001) *)

Module PickerUrls.







End PickerUrls.

(** ** services/secure-storage (src/unnamed/part_001) *)

Module SecureStorage.

(** [STORAGE_KEYS] *)
Definition ACCESS_TOKEN : string := "google_access_token".
Definition REFRESH_TOKEN : string := "google_refresh_token".
Definition TOKEN_EXPIRY : string := "google_token_expiry".
Definition USER_INFO : string := "google_user_info".

(** [interface TokenData]; [expiresAt] is [None] when it is [NaN]. *)
Record TokenData : Type := {
  accessToken : string;
  refreshToken : string;
  expiresAt : option Z
}.

(** The secure store and what else the authentication services see.
    - [items] are the stored key/value pairs, one per key.
    - [unavailable] makes every access to the secure store reject.
    - [clock] is [Date.now()].
    - [refreshCalls] counts the requests sent to the token-refresh backend. *)
Record Secure : Type := {
  items : list (string * string);
  unavailable : bool;
  clock : Z;
  refreshCalls : nat
}.

Definition setItems (l : list (string * string)) (s : Secure) : Secure :=
  {| items := l; unavailable := unavailable s; clock := clock s;
     refreshCalls := refreshCalls s |}.

Fixpoint lookup (key : string) (l : list (string * string)) : option string :=
  match l with
  | [] => None
  | (k, v) :: rest => if String.eqb k key then Some v else lookup key rest
  end.

Fixpoint remove (key : string) (l : list (string * string))
  : list (string * string) :=
  match l with
  | [] => []
  | (k, v) :: rest =>
      if String.eqb k key then remove key rest else (k, v) :: remove key rest
  end.

(** [SecureStore.setItemAsync(key, value)] *)
Definition setItemAsync (key value : string) : M Secure unit :=
  fun s =>
    if unavailable s then (Throw "SecureStore unavailable", s)
    else (Ok tt, setItems ((key, value) :: remove key (items s)) s).

(** [SecureStore.getItemAsync(key)] *)
Definition getItemAsync (key : string) : M Secure (option string) :=
  fun s =>
    if unavailable s then (Throw "SecureStore unavailable", s)
    else (Ok (lookup key (items s)), s).

(** [SecureStore.deleteItemAsync(key)] *)
Definition deleteItemAsync (key : string) : M Secure unit :=
  fun s =>
    if unavailable s then (Throw "SecureStore unavailable", s)
    else (Ok tt, setItems (remove key (items s)) s).

(** [n.toString()] on a number that may be [NaN]. *)
Definition numberToString (n : option Z) : string :=
  match n with
  | Some z => jsNumberToString z
  | None => "NaN"
  end.

(** [!value] on an optional string: absent and empty are falsy. *)
Definition missing (o : option string) : bool :=
  match o with
  | Some v => String.eqb v EmptyString
  | None => true
  end.

(** [a - b < c] where [a] may be [NaN]: every comparison with [NaN] is
    false. *)
Definition minusLt (a : option Z) (b c : Z) : bool :=
  match a with
  | Some x => x - b <? c
  | None => false
  end.

(** [saveTokens(tokenData)]: the three writes of [Promise.all]; any failure
    is rethrown as one error. *)
Definition saveTokens (tokenData : TokenData) : M Secure unit :=
  tryCatch
    (setItemAsync ACCESS_TOKEN (accessToken tokenData) ;;
     setItemAsync REFRESH_TOKEN (refreshToken tokenData) ;;
     setItemAsync TOKEN_EXPIRY (numberToString (expiresAt tokenData)))
    (fun _ => throw "Failed to save authentication tokens").

(** [saveTokens(tokenData)] when [tokenData.accessToken] is [undefined], as
    it is when [refreshAccessToken] reads a body without [access_token]:
    the first of the three writes rejects, because the secure store takes
    strings only, and [Promise.all] undoes nothing: the two other writes
    have been started and go through.  The state is the one reached once
    they have. *)
Definition saveTokensWithoutAccessToken (refresh : string) (expiry : option Z)
  : M Secure unit :=
  tryCatch
    (setItemAsync REFRESH_TOKEN refresh ;;
     setItemAsync TOKEN_EXPIRY (numberToString expiry) ;;
     throw "Invalid value provided to SecureStore")
    (fun _ => throw "Failed to save authentication tokens").

(** [getTokens()] *)
Definition getTokens : M Secure (option TokenData) :=
  tryCatch
    (access <- getItemAsync ACCESS_TOKEN ;;
     refresh <- getItemAsync REFRESH_TOKEN ;;
     expiryStr <- getItemAsync TOKEN_EXPIRY ;;
     match access, refresh, expiryStr with
     | Some a, Some r, Some e =>
         if (missing access || missing refresh || missing expiryStr)%bool
         then ret None
         else ret (Some {| accessToken := a; refreshToken := r;
                           expiresAt := parseInt10 e |})
     | _, _, _ => ret None
     end)
    (fun _ => ret None).

(** [const bufferMs = 5 * 60 * 1000] *)
Definition bufferMs : Z := 5 * 60 * 1000.

(** [getAccessToken()] *)
Definition getAccessToken : M Secure (option string) :=
  tokens <- getTokens ;;
  match tokens with
  | None => ret None
  | Some t =>
      now <- gets clock ;;
      if minusLt (expiresAt t) bufferMs now then ret None
      else ret (Some (accessToken t))
  end.

(** [getRefreshToken()] *)
Definition getRefreshToken : M Secure (option string) :=
  tryCatch (getItemAsync REFRESH_TOKEN) (fun _ => ret None).

(** [isTokenExpired()] *)
Definition isTokenExpired : M Secure bool :=
  tokens <- getTokens ;;
  match tokens with
  | None => ret true
  | Some t =>
      now <- gets clock ;;
      ret (minusLt (expiresAt t) bufferMs now)
  end.

(** [clearAuthData()]: failures are logged and swallowed. *)
Definition clearAuthData : M Secure unit :=
  tryCatch
    (deleteItemAsync ACCESS_TOKEN ;;
     deleteItemAsync REFRESH_TOKEN ;;
     deleteItemAsync TOKEN_EXPIRY ;;
     deleteItemAsync USER_INFO)
    (fun _ => ret tt).

End SecureStorage.

(** ** services/google-auth (in src/services/foreground-rotation.ts) *)

Module GoogleAuth.

Import SecureStorage.

(** The JSON body the refresh endpoint answers with; every field may be
    absent.  [expires_in] is a whole number of seconds. *)
Record RefreshData : Type := {
  rd_error : option string;
  access_token : option string;
  expires_in : option Z
}.

Section WithBackend.

(** The answer to the refresh request sent after [n] earlier ones; a [Throw]
    is a transport failure or a body that is not JSON. *)
Variable backend : nat -> outcome RefreshData.

(** [fetch(`${AUTH_SERVER_URL}/api/refresh?...`)] followed by
    [response.json()]. *)
Definition fetchRefresh : M Secure RefreshData :=
  fun s =>
    (backend (refreshCalls s),
     {| items := items s; unavailable := unavailable s; clock := clock s;
        refreshCalls := S (refreshCalls s) |}).

(** [data.expires_in || 3600] *)
Definition lifetime (data : RefreshData) : Z :=
  match expires_in data with
  | Some n => if n =? 0 then 3600 else n
  | None => 3600
  end.

(** [refreshAccessToken()] *)
Definition refreshAccessToken : M Secure (option TokenData) :=
  refresh <- getRefreshToken ;;
  if missing refresh then ret None
  else
    match refresh with
    | None => ret None
    | Some r =>
        tryCatch
          (data <- fetchRefresh ;;
           if negb (missing (rd_error data)) then ret None
           else
             now <- gets clock ;;
             match access_token data with
             | Some a =>
                 let tokenData :=
                   {| accessToken := a;
                      refreshToken := r;
                      expiresAt := Some (now + lifetime data * 1000) |} in
                 saveTokens tokenData ;;
                 ret (Some tokenData)
             | None =>
                 saveTokensWithoutAccessToken r
                   (Some (now + lifetime data * 1000)) ;;
                 ret None
             end)
          (fun _ => ret None)
    end.

(** [getValidAccessToken()] *)
Definition getValidAccessToken : M Secure (option string) :=
  tokens <- getTokens ;;
  match tokens with
  | None => ret None
  | Some t =>
      expired <- isTokenExpired ;;
      if (expired : bool) then
        newTokens <- refreshAccessToken ;;
        ret (option_map accessToken newTokens)
      else ret (Some (accessToken t))
  end.

(** [isAuthenticated()] *)
Definition isAuthenticated : M Secure bool :=
  tokens <- getTokens ;;
  ret (match tokens with Some _ => true | None => false end).

End WithBackend.
End GoogleAuth.

(** ** Clearing the widget data (services/widget-storage,
    src/unnamed/part_001) *)

Module WidgetStorageFiles.

(** [getWidgetCacheDir()] *)
Definition getWidgetCacheDir (cacheDirectory : string) : string :=
  (cacheDirectory ++ "widget-photos/")%string.

(** [FileSystem.deleteAsync(dir, { idempotent: true })]: no file under [dir]
    can be read afterwards. *)
Definition deleteDirectory (dir : string) (w : World) : World :=
  {| platformOS := platformOS w; now := now w; store := store w;
     writeFails := writeFails w;
     readBase64 := fun path =>
                     if String.prefix dir path then None else readBase64 w path;
     polls := polls w; trace := trace w |}.

(** [clearWidgetData()]: the stored record (shared preferences entry and
    data file) and the photo cache directory are deleted; a failure is
    logged and swallowed.  With [writeFails] the first deletion rejects. *)
Definition clearWidgetData (cacheDirectory : string) : M World unit :=
  os <- gets platformOS ;;
  if negb (isAndroid os) then ret tt
  else
    tryCatch
      (fun w =>
         if writeFails w then (Throw "Failed to clear widget data", w)
         else
           (Ok tt,
            setStore None
              (deleteDirectory (getWidgetCacheDir cacheDirectory) w)))
      (fun _ => ret tt).

End WidgetStorageFiles.

(** ** The photos tab (in src/app.config.ts): deleting photos *)

Module PhotosTab.

Import PhotosScreen.

(** The button the user presses in a confirmation alert. *)
Inductive Choice : Type := Cancel | Confirm.

(** [p => p.id !== photoId] *)
Definition otherThan (photoId : string) (p : WidgetPhoto) : bool :=
  negb (String.eqb (wp_id p) photoId).

(** [handleDeletePhoto(photoId)], with the button then pressed. *)
Definition handleDeletePhoto (photoId : string) (choice : Choice)
  : M Photos unit :=
  liftW (emit (EvAlert "Delete Photo" "Remove this photo from the widget?")) ;;
  match choice with
  | Cancel => ret tt
  | Confirm =>
      tryCatch
        (current <- gets widgetData ;;
         let remaining :=
           match current with
           | Some d => filter (otherThan photoId) (photos d)
           | None => []
           end in
         let mode := if 1 <? jsLength remaining then slideshow else single in
         liftW (WidgetStorage.saveWidgetPhotos remaining mode None) ;;
         liftW WidgetStorage.requestWidgetUpdate ;;
         loadWidgetData)
        (fun _ => ret tt)
  end.

(** [handleClearAll()], with the button then pressed. *)
Definition handleClearAll (choice : Choice) : M Photos unit :=
  liftW (emit (EvAlert "Clear All Photos" "Remove all photos from the widget?")) ;;
  match choice with
  | Cancel => ret tt
  | Confirm =>
      tryCatch
        (liftW (WidgetStorage.saveWidgetPhotos [] single None) ;;
         liftW WidgetStorage.requestWidgetUpdate ;;
         loadWidgetData)
        (fun _ => ret tt)
  end.

End PhotosTab.

(** ** The home screen (in src/app.config.ts): selecting local photos *)

Module HomeScreen.

Section WithLibrary.

Variable L : PhotosScreen.Library.

(** The [try] block of one iteration of [for (const asset of result.assets)]. *)
Definition copyOne (asset : PhotosScreen.Asset) (widgetPhotos : list WidgetPhoto)
  : M World (list WidgetPhoto) :=
  t <- gets now ;;
  emit (EvCopy (PhotosScreen.uri asset)) ;;
  if PhotosScreen.copyFails L (PhotosScreen.uri asset) then throw "copy failed"
  else ret (widgetPhotos ++ [PhotosScreen.toWidgetPhoto L asset t])%list.

Fixpoint copyLoop (rest : list PhotosScreen.Asset)
    (widgetPhotos : list WidgetPhoto) : M World (list WidgetPhoto) :=
  match rest with
  | [] => ret widgetPhotos
  | asset :: rest' =>
      widgetPhotos' <-
        tryCatch (copyOne asset widgetPhotos) (fun _ => ret widgetPhotos) ;;
      copyLoop rest' widgetPhotos'
  end.

(** The text of the success alert. *)
Definition addedMessage (n : Z) : string :=
  let plural := if (1 <? n)%Z then "s" else EmptyString in
  (jsNumberToString n ++ " local photo" ++ plural
   ++ " saved for your widget.")%string.

(** [handleSelectLocalPhotos()] *)
Definition handleSelectLocalPhotos : M World unit :=
  tryCatch
    (if negb (PhotosScreen.permissionGranted L) then
       emit (EvAlert "Permission Required"
               "Please grant access to your photo library to select photos.")
     else if (PhotosScreen.canceled L
              || (jsLength (PhotosScreen.assets L) =? 0))%bool then ret tt
     else
       widgetPhotos <- copyLoop (PhotosScreen.assets L) [] ;;
       if 0 <? jsLength widgetPhotos then
         let mode := if 1 <? jsLength widgetPhotos then slideshow else single in
         WidgetStorage.saveWidgetPhotos widgetPhotos mode None ;;
         os <- gets platformOS ;;
         (if isAndroid os then WidgetStorage.requestWidgetUpdate else ret tt) ;;
         emit (EvAlert "Photos Added!" (addedMessage (jsLength widgetPhotos)))
       else ret tt)
    (fun _ => emit (EvAlert "Error" "Failed to select photos")).

End WithLibrary.
End HomeScreen.

(** ** components/widget-preview (src/components/widget-preview.tsx) *)

Module WidgetPreview.

(** The component state: the record last loaded, and the world. *)
Record Preview : Type := {
  world : World;
  widgetData : option WidgetData
}.

Definition setWidgetData (d : option WidgetData) : M Preview unit :=
  modify (fun s => {| world := world s; widgetData := d |}).

Definition liftW {A : Type} (m : M World A) : M Preview A :=
  fun s =>
    match m (world s) with
    | (r, w') => (r, {| world := w'; widgetData := widgetData s |})
    end.

(** [loadWidgetData()] *)
Definition loadWidgetData : M Preview unit :=
  os <- gets (fun s => platformOS (world s)) ;;
  if negb (isAndroid os) then ret tt
  else
    tryCatch
      (data <- liftW WidgetStorage.getWidgetData ;;
       setWidgetData data)
      (fun _ => ret tt).

(** [handleNextPhoto()] *)
Definition handleNextPhoto : M Preview unit :=
  current <- gets widgetData ;;
  match current with
  | None => ret tt
  | Some d =>
      if jsLength (photos d) <=? 1 then ret tt
      else
        tryCatch
          (liftW WidgetStorage.rotateToNextPhoto ;;
           liftW WidgetStorage.requestWidgetUpdate ;;
           loadWidgetData)
          (fun _ => ret tt)
  end.

(** [widgetData?.photos?.[widgetData.currentIndex]]: no fallback. *)
Definition currentPhoto (current : option WidgetData) : option WidgetPhoto :=
  match current with
  | Some d => jsIndex (photos d) (currentIndex d)
  | None => None
  end.

(** [currentPhoto.url || currentPhoto.localPath] *)
Definition previewUri (p : WidgetPhoto) : option string :=
  if String.eqb (wp_url p) EmptyString then wp_localPath p
  else Some (wp_url p).

End WidgetPreview.

(** ** The settings screen: opening the custom interval dialog *)

Module SettingsDialog.

Import SettingsScreen.

Definition setCustomIntervalInput (text : string) : M Settings unit :=
  modify (fun s =>
    {| world := world s;
       backgroundFetchEnabled := backgroundFetchEnabled s;
       foregroundServiceEnabled := foregroundServiceEnabled s;
       rotationInterval := rotationInterval s;
       showCustomModal := showCustomModal s;
       customIntervalInput := text |}).

(** [handleCustomInterval()] *)
Definition handleCustomInterval : M Settings unit :=
  interval <- gets rotationInterval ;;
  setCustomIntervalInput (jsNumberToString interval) ;;
  setShowCustomModal true.

End SettingsDialog.

(** ** services/google-auth: the OAuth callback (in
    src/services/foreground-rotation.ts) *)

Module OAuthCallback.

Import SecureStorage.

(** The query parameters of the callback URL as [Linking.parse] returns
    them; each may be absent. *)
Record CallbackParams : Type := {
  cb_access_token : option string;
  cb_refresh_token : option string;
  cb_expires_in : option string
}.

(** [saveUserInfo(userInfo)] of services/secure-storage, on the text
    [JSON.stringify(userInfo)]; a failure is logged and swallowed. *)
Definition saveUserInfo (json : string) : M Secure unit :=
  tryCatch (setItemAsync USER_INFO json) (fun _ => ret tt).

Section WithUserInfo.

(** The answer to [fetchUserInfo(accessToken)], already serialised; a
    [Throw] is a transport failure or an answer that is not ok. *)
Variable userInfoResp : string -> outcome string.

(** [fetchUserInfo(accessToken)] *)
Definition fetchUserInfo (accessToken : string) : M Secure string :=
  fromOutcome (userInfoResp accessToken).

(** [Date.now() + expiresIn * 1000], which is [NaN] when [expiresIn] is. *)
Definition expiryFrom (now : Z) (expiresIn : option Z) : option Z :=
  match expiresIn with
  | Some n => Some (now + n * 1000)
  | None => None
  end.

(** [handleOAuthCallback(url)], on the parsed query parameters. *)
Definition handleOAuthCallback (params : CallbackParams)
  : M Secure (option TokenData) :=
  let expiresIn := parseInt10 (jsOrOpt (cb_expires_in params) "3600") in
  if missing (cb_access_token params) then ret None
  else
    match cb_access_token params with
    | None => ret None
    | Some a =>
        now <- gets clock ;;
        let tokenData :=
          {| accessToken := a;
             refreshToken := jsOrOpt (cb_refresh_token params) EmptyString;
             expiresAt := expiryFrom now expiresIn |} in
        saveTokens tokenData ;;
        tryCatch
          (userInfo <- fetchUserInfo a ;;
           saveUserInfo userInfo)
          (fun _ => ret tt) ;;
        ret (Some tokenData)
    end.

End WithUserInfo.
End OAuthCallback.

(** * Vocabulary of the properties *)

Import PhotoPickerScreen.

(** ** Runs and traces *)

(** The events a run appended to the trace. *)
Definition newEvents (before after : World) : list Event :=
  skipn (List.length (trace before)) (trace after).

(** Repeating a call, as a caller that awaits each one in turn does. *)
Fixpoint repeatM {S : Type} (n : nat) (m : M S unit) : M S unit :=
  match n with
  | O => ret tt
  | S n' => m ;; repeatM n' m
  end.

(** The element shown for photo [p]: its image, or the error placeholder
    when the image file cannot be read. *)
Definition elementFor (w : World) (p : WidgetPhoto) : Widget :=
  match result (PhotoWidget.getImageAsBase64 (PhotoWidget.imagePath p)) w with
  | Ok (Some image) => PhotoImage image "ROTATE_PHOTO"
  | _ => UnableToLoad "Unable to load photo"
  end.

(** ** Sample devices *)

(** A file system holding one readable image, a.jpg. *)
Definition sampleImage (path : string) : option string :=
  if String.eqb path "/cache/widget-photos/a.jpg" then Some "QUJD" else None.

(** Three cached photos. *)
Definition photoA : WidgetPhoto :=
  {| wp_id := "a.jpg"; wp_url := "/cache/widget-photos/a.jpg";
     wp_localPath := Some "/cache/widget-photos/a.jpg"; wp_baseUrl := None;
     wp_width := 512; wp_height := 512 |}.

Definition photoB : WidgetPhoto :=
  {| wp_id := "b.jpg"; wp_url := "/cache/widget-photos/b.jpg";
     wp_localPath := Some "/cache/widget-photos/b.jpg"; wp_baseUrl := None;
     wp_width := 512; wp_height := 512 |}.

Definition photoC : WidgetPhoto :=
  {| wp_id := "c.jpg"; wp_url := "/cache/widget-photos/c.jpg";
     wp_localPath := Some "/cache/widget-photos/c.jpg"; wp_baseUrl := None;
     wp_width := 512; wp_height := 512 |}.

(** A stored record last written at time 0. *)
Definition recordOf (ps : list WidgetPhoto) (index : Z) (mode : DisplayMode)
  : WidgetData :=
  {| photos := ps; currentIndex := index; displayMode := mode;
     lastUpdated := 0; albumId := None; rotationIntervalSeconds := None |}.

(** An Android device at time 1000 holding the given record. *)
Definition deviceWith (o : option WidgetData) : World :=
  {| platformOS := android; now := 1000; store := o; writeFails := false;
     readBase64 := sampleImage; polls := 0; trace := [] |}.

(** ** Rotation *)

(** The index stored after [n] consecutive calls of an advance operation. *)
Definition indexAfter (advance : M World unit) (n : nat) (w : World) : option Z :=
  option_map currentIndex (store (exec (repeatM n advance) w)).

(** The two kinds of call a rotation trigger makes. *)
Inductive Call : Type := Advance | ReRender.

(** The advance calls and re-render requests among some events. *)
Fixpoint calls (es : list Event) : list Call :=
  match es with
  | [] => []
  | (EvRotateToNextPhoto | EvRotatePhoto) :: rest => Advance :: calls rest
  | (EvRequestWidgetUpdate | EvRenderWidget _) :: rest => ReRender :: calls rest
  | _ :: rest => calls rest
  end.

(** What one firing of a trigger does, in order. *)
Definition firing {A : Type} (trigger : M World A) (w : World) : list Call :=
  calls (newEvents w (exec trigger w)).

(** The record exists (as the application reads it) and is a slideshow of
    more than one photo: the guard of the background task. *)
Definition slideshowOfSeveral (w : World) : bool :=
  (isAndroid (platformOS w)
   && match store w with
      | Some d => DisplayMode_eqb (displayMode d) slideshow
                  && (1 <? jsLength (photos d))
      | None => false
      end)%bool.

(** The guard of [rotateAndUpdate]. *)
Definition severalPhotos (w : World) : bool :=
  (isAndroid (platformOS w)
   && match store w with
      | Some d => 1 <? jsLength (photos d)
      | None => false
      end)%bool.

(** The application can read a record with at least one photo. *)
Definition somePhotos (w : World) : bool :=
  (isAndroid (platformOS w)
   && match store w with
      | Some d => negb (jsLength (photos d) =? 0)
      | None => false
      end)%bool.

(** Two photos shown in single mode. *)
Definition singleModeDevice : World :=
  deviceWith (Some (recordOf [photoA; photoB] 0 single)).

(** ** Downloading *)

(** The world with some events appended to its trace. *)
Definition appendTrace (es : list Event) (w : World) : World :=
  {| platformOS := platformOS w; now := now w; store := store w;
     writeFails := writeFails w; readBase64 := readBase64 w;
     polls := polls w; trace := (trace w ++ es)%list |}.

(** The screen after the download loop: only the world and the progress
    indicator have changed. *)
Definition withProgress (s : Picker) (w' : World) (progress : Z * Z) : Picker :=
  {| world := w'; state := state s; sessionId := sessionId s;
     selectedPhotos := selectedPhotos s; error := error s;
     downloadProgress := progress;
     pickerDisplayMode := pickerDisplayMode s |}.

(** Iteration [i] of the download loop pushed a photo for item [p]. *)
Definition downloadedOk (R : Remote) (ip : nat * MediaItem) : bool :=
  match downloadResp R (fst ip) (snd ip) with
  | Ok status => status =? 200
  | Throw _ => false
  end.

(** The items whose download succeeded, among [items] visited from index
    [i] on: a filter, so their order is the order of selection. *)
Definition succeededFrom (R : Remote) (i : nat) (items : list MediaItem)
  : list MediaItem :=
  map snd (filter (downloadedOk R) (combine (seq i (List.length items)) items)).

(** One download attempt per item. *)
Definition downloadEvents (items : list MediaItem) : list Event :=
  map (fun p => EvDownload (mi_id p)) items.


(** The arguments of the calls of [saveWidgetPhotos] among some events. *)
Fixpoint saves (es : list Event) : list (list WidgetPhoto * DisplayMode) :=
  match es with
  | [] => []
  | EvSaveWidgetPhotos ps mode :: rest => (ps, mode) :: saves rest
  | _ :: rest => saves rest
  end.

(** The number of session deletions requested among some events. *)
Fixpoint deletions (es : list Event) : nat :=
  match es with
  | [] => 0
  | EvDeleteSession _ :: rest => S (deletions rest)
  | _ :: rest => deletions rest
  end.

(** The record a successful commit stores. *)
Definition committed (ps : list WidgetPhoto) (mode : DisplayMode) (t : Z)
  : WidgetData :=
  {| photos := ps; currentIndex := 0; displayMode := mode;
     lastUpdated := t; albumId := None; rotationIntervalSeconds := None |}.

(** ** Polling *)

(** The world after [n] status requests that found the selection not ready,
    each followed by the five-second wait. *)
Fixpoint afterUnready (sessId : string) (n : nat) (w : World) : World :=
  match n with
  | O => w
  | S n' =>
      afterUnready sessId n'
        (tick 5000 (log (EvSleep 5000) (countPoll (log (EvGetSession sessId) w))))
  end.

(** The world when the [k]-th status request has just been answered, the
    [k - 1] earlier ones having found the selection not ready. *)
Definition readyAt (sessId : string) (k : nat) (w : World) : World :=
  countPoll (log (EvGetSession sessId) (afterUnready sessId (k - 1) w)).

(** The status requests among some events. *)
Fixpoint statusRequests (es : list Event) : nat :=
  match es with
  | [] => 0
  | EvGetSession _ :: rest => S (statusRequests rest)
  | _ :: rest => statusRequests rest
  end.

(** The total time slept among some events, in milliseconds. *)
Fixpoint sleptMs (es : list Event) : Z :=
  match es with
  | [] => 0
  | EvSleep ms :: rest => ms + sleptMs rest
  | _ :: rest => sleptMs rest
  end.

(** The events of [n] unready rounds: a status request, then the wait. *)
Fixpoint unreadyEvents (sessId : string) (n : nat) : list Event :=
  match n with
  | O => []
  | S n' => EvGetSession sessId :: EvSleep 5000 :: unreadyEvents sessId n'
  end.

(** The remote answers "not ready" to the [n] status requests that follow
    the [from] already sent. *)
Definition unreadyFor (R : Remote) (from n : nat) : Prop :=
  forall j, (j < n)%nat ->
    exists session, getSessionResp R (from + j) = Ok session
                    /\ mediaItemsSet session = false.

(** The remote answers "not ready" to the first [j - 1] of the status
    requests that follow the [from] already sent, and the [j]-th fails in
    transport, for an attempt [j] within the 60 the loop allows. *)
Definition failsOnAttempt (R : Remote) (from j : nat) : Prop :=
  (1 <= j <= 60)%nat
  /\ unreadyFor R from (j - 1)
  /\ exists message, getSessionResp R (from + (j - 1)) = Throw message.

(** What [pickPhotos] returns when nothing was selected: the empty list,
    unless the deletion of the session throws. *)
Definition emptyUnlessDeletionThrows (R : Remote) : outcome (list MediaItem) :=
  match deleteSessionResp R with
  | Ok _ => Ok []
  | Throw message => Throw message
  end.

(** ** Sample collaborators *)

(** Session s1, with the given readiness. *)
Definition sessionOf (ready : bool) : PickerSession :=
  {| ps_id := "s1"; pickerUri := "https://picker.example/s1";
     expireTime := "2030-01-01T00:00:00Z"; mediaItemsSet := ready |}.

(** A selected picture. *)
Definition itemOf (itemId : string) : MediaItem :=
  {| mi_id := itemId; mi_baseUrl := None; mi_mimeType := "image/jpeg";
     mi_mediaFile := Some {| mf_baseUrl := Some ("https://media.example/" ++ itemId)%string;
                             mf_mimeType := "image/jpeg";
                             mf_filename := (itemId ++ ".jpg")%string |} |}.

(** A selection of five pictures. *)
Definition fiveItems : list MediaItem :=
  [itemOf "1"; itemOf "2"; itemOf "3"; itemOf "4"; itemOf "5"].

(** A remote that answers every call, parameterised by the status, the
    media-item and the download answers. *)
Definition remoteOf (status : nat -> outcome PickerSession)
    (items : outcome (option (list MediaItem)))
    (download : nat -> MediaItem -> outcome Z) : Remote :=
  {| createSessionResp := Ok (sessionOf false);
     openBrowserResp := Ok tt;
     getSessionResp := status;
     mediaItemsResp := items;
     downloadResp := download;
     deleteSessionResp := Ok tt;
     cacheDirectory := "/cache/" |}.

(** The selection never becomes ready. *)
Definition neverReady : Remote :=
  remoteOf (fun _ => Ok (sessionOf false)) (Ok (Some fiveItems)) (fun _ _ => Ok 200).

(** Every status request fails in transport. *)
Definition statusFails : Remote :=
  remoteOf (fun _ => Throw "Failed to get picker session: 503")
           (Ok (Some fiveItems)) (fun _ _ => Ok 200).

(** The selection is reported ready on the [k]-th status request. *)
Definition readyOnAttempt (k : nat) : Remote :=
  remoteOf (fun n => Ok (sessionOf (Nat.eqb (S n) k)))
           (Ok (Some fiveItems)) (fun _ _ => Ok 200).



(** The selection is ready at once, and listing its items fails. *)
Definition mediaItemsFail : Remote :=
  remoteOf (fun _ => Ok (sessionOf true))
           (Throw "Failed to fetch picker media items: 500")
           (fun _ _ => Ok 200).

(** The screen as first rendered, on a given device. *)
Definition idleScreen (w : World) : Picker :=
  {| world := w; state := StIdle; sessionId := None; selectedPhotos := [];
     error := None; downloadProgress := (0, 0); pickerDisplayMode := slideshow |}.

(** What the user can tell from the screen after a failure. *)
Definition shown (s : Picker) : PickerState * option string := (state s, error s).

(** ** Settings and the photos tab *)

(** The settings screen on a device, with a text typed in the custom
    interval field. *)
Definition settingsWith (w : World) (input : string) : SettingsScreen.Settings :=
  {| SettingsScreen.world := w;
     SettingsScreen.backgroundFetchEnabled := true;
     SettingsScreen.foregroundServiceEnabled := false;
     SettingsScreen.rotationInterval := 1800;
     SettingsScreen.showCustomModal := true;
     SettingsScreen.customIntervalInput := input |}.

(** Collaborators of the settings screen that never fail:
    [updateRotationInterval] leaves the record as it finds it and the
    rotation module is present. *)
Definition quietServices : SettingsScreen.Services :=
  {| SettingsScreen.updateRotationIntervalResp := fun _ record => Ok record;
     SettingsScreen.rotationModule := true;
     SettingsScreen.startServiceResp := fun _ => Ok true;
     SettingsScreen.stopServiceResp := Ok true |}.

(** The copy of asset [a] succeeded. *)
Definition copied (L : PhotosScreen.Library) (a : PhotosScreen.Asset) : bool :=
  negb (PhotosScreen.copyFails L (PhotosScreen.uri a)).

(** The photos built from the assets whose copy succeeded, in order. *)
Definition addedPhotos (L : PhotosScreen.Library) (t : Z)
    (assets : list PhotosScreen.Asset) : list WidgetPhoto :=
  map (fun a => PhotosScreen.toWidgetPhoto L a t) (filter (copied L) assets).

(** One copy attempt per asset. *)
Definition copyEvents (assets : list PhotosScreen.Asset) : list Event :=
  map (fun a => EvCopy (PhotosScreen.uri a)) assets.

(** A picture of the device library. *)
Definition assetAt (u : string) : PhotosScreen.Asset :=
  {| PhotosScreen.uri := u; PhotosScreen.assetWidth := 800;
     PhotosScreen.assetHeight := 600 |}.

(** The image library returning one picture whose file name is a.jpg. *)
Definition pickOneNamedA : PhotosScreen.Library :=
  {| PhotosScreen.permissionGranted := true;
     PhotosScreen.canceled := false;
     PhotosScreen.assets := [assetAt "file:///storage/downloads/a.jpg"];
     PhotosScreen.copyFails := fun _ => false;
     PhotosScreen.cacheDirectory := "/cache/" |}.

(** The photos tab showing the record the device holds. *)
Definition photosTab (w : World) : PhotosScreen.Photos :=
  {| PhotosScreen.world := w; PhotosScreen.widgetData := store w |}.

(** The ids of the stored photos, in order. *)
Definition storedIds (w : World) : list string :=
  match store w with
  | Some d => map wp_id (photos d)
  | None => []
  end.

(** A record whose index points past its two photos. *)
Definition indexPastEnd : WidgetData := recordOf [photoA; photoB] 7 slideshow.

(** ** Authentication *)

(** What [getTokens] reads from the stored items. *)
Definition tokensOf (l : list (string * string)) : option SecureStorage.TokenData :=
  match SecureStorage.lookup SecureStorage.ACCESS_TOKEN l,
        SecureStorage.lookup SecureStorage.REFRESH_TOKEN l,
        SecureStorage.lookup SecureStorage.TOKEN_EXPIRY l with
  | Some a, Some r, Some e =>
      if (String.eqb a EmptyString || String.eqb r EmptyString
          || String.eqb e EmptyString)%bool
      then None
      else Some {| SecureStorage.accessToken := a;
                   SecureStorage.refreshToken := r;
                   SecureStorage.expiresAt := parseInt10 e |}
  | _, _, _ => None
  end.

(** The keys of the authentication data. *)
Definition authKeys : list string :=
  [SecureStorage.ACCESS_TOKEN; SecureStorage.REFRESH_TOKEN;
   SecureStorage.TOKEN_EXPIRY; SecureStorage.USER_INFO].

Definition isAuthKey (k : string) : bool :=
  existsb (String.eqb k) authKeys.

(** The tokens a successful refresh stores, given the tokens it found and
    the access token it was granted. *)
Definition refreshed (t : SecureStorage.TokenData) (granted : string)
    (data : GoogleAuth.RefreshData) (now : Z) : SecureStorage.TokenData :=
  {| SecureStorage.accessToken := granted;
     SecureStorage.refreshToken := SecureStorage.refreshToken t;
     SecureStorage.expiresAt := Some (now + GoogleAuth.lifetime data * 1000) |}.

(** The same secure store, read when the clock shows [c]. *)
Definition atTime (c : Z) (s : SecureStorage.Secure) : SecureStorage.Secure :=
  {| SecureStorage.items := SecureStorage.items s;
     SecureStorage.unavailable := SecureStorage.unavailable s;
     SecureStorage.clock := c;
     SecureStorage.refreshCalls := SecureStorage.refreshCalls s |}.

(** A secure store holding the given items, read at a time in 2023. *)
Definition secureWith (l : list (string * string)) : SecureStorage.Secure :=
  {| SecureStorage.items := l; SecureStorage.unavailable := false;
     SecureStorage.clock := 1700000000000; SecureStorage.refreshCalls := 0 |}.

(** Tokens that expire one hour after that time. *)
Definition sampleTokens : SecureStorage.TokenData :=
  {| SecureStorage.accessToken := "at-1"; SecureStorage.refreshToken := "rt-1";
     SecureStorage.expiresAt := Some 1700003600000 |}.

(** A signed-in store whose expiry entry holds the given text. *)
Definition signedIn (expiry : string) : SecureStorage.Secure :=
  secureWith [(SecureStorage.ACCESS_TOKEN, "at-1");
              (SecureStorage.REFRESH_TOKEN, "rt-1");
              (SecureStorage.TOKEN_EXPIRY, expiry)].

(** A refresh backend that always grants token at-2 for one hour. *)
Definition grantsAt2 (n : nat) : outcome GoogleAuth.RefreshData :=
  Ok {| GoogleAuth.rd_error := None; GoogleAuth.access_token := Some "at-2";
        GoogleAuth.expires_in := Some 3600 |}.

(** The intervals the rotation service was started with, among some
    events. *)
Fixpoint serviceStarts (es : list Event) : list Z :=
  match es with
  | [] => []
  | EvStartRotationService seconds :: rest => seconds :: serviceStarts rest
  | _ :: rest => serviceStarts rest
  end.

(** The intervals handed to [updateRotationInterval], among some events. *)
Fixpoint intervalUpdates (es : list Event) : list Z :=
  match es with
  | [] => []
  | EvUpdateRotationInterval seconds :: rest => seconds :: intervalUpdates rest
  | _ :: rest => intervalUpdates rest
  end.

(** The alerts shown, among some events. *)
Fixpoint alerts (es : list Event) : list (string * string) :=
  match es with
  | [] => []
  | EvAlert title message :: rest => (title, message) :: alerts rest
  | _ :: rest => alerts rest
  end.

(** The settings screen with the reliable-rotation service switched on and
    the given interval selected. *)
Definition settingsWithService (w : World) (interval : Z) (input : string)
  : SettingsScreen.Settings :=
  {| SettingsScreen.world := w;
     SettingsScreen.backgroundFetchEnabled := false;
     SettingsScreen.foregroundServiceEnabled := true;
     SettingsScreen.rotationInterval := interval;
     SettingsScreen.showCustomModal := false;
     SettingsScreen.customIntervalInput := input |}.

(** ** Rotation invariants *)

(** Two records hold the same photo set with the same settings: they differ
    at most in the index and in the time stamp. *)
Definition sameSet (d d' : WidgetData) : Prop :=
  photos d' = photos d /\ displayMode d' = displayMode d
  /\ albumId d' = albumId d
  /\ rotationIntervalSeconds d' = rotationIntervalSeconds d.

(** The index points at a photo. *)
Definition indexInRange (d : WidgetData) : bool :=
  ((0 <=? currentIndex d) && (currentIndex d <? jsLength (photos d)))%bool.

(** The photo the render step shows for a record whose first photo is
    [p0]: the one at [currentIndex] when that index points at a photo, the
    first one otherwise. *)
Definition shownPhoto (d : WidgetData) (p0 : WidgetPhoto) : WidgetPhoto :=
  if indexInRange d then nth (Z.to_nat (currentIndex d)) (photos d) p0 else p0.

(** The image of photo [p] as a render function obtains it: the path
    itself when it already is a data URI (it starts with [dataPrefix]),
    else the content of the file as a JPEG data URI; [None] when the file
    cannot be read. *)
Definition imageFor (dataPrefix : string) (w : World) (p : WidgetPhoto)
  : option string :=
  let path := jsOrOpt (wp_localPath p) (wp_url p) in
  if String.prefix dataPrefix path then Some path
  else option_map (String.append "data:image/jpeg;base64,") (readBase64 w path).

(** The element built from an image, or the error placeholder with the
    given text when there is none. *)
Definition imageOrPlaceholder (image : option string) (clickAction text : string)
  : Widget :=
  match image with
  | Some i => PhotoImage i clickAction
  | None => UnableToLoad text
  end.

(** A device with the given platform and write behaviour. *)
Definition deviceIn (os : OS) (fails : bool) (o : option WidgetData) : World :=
  {| platformOS := os; now := 1000; store := o; writeFails := fails;
     readBase64 := sampleImage; polls := 0; trace := [] |}.

(** The elements handed to the widget host, among some events. *)
Fixpoint rendered (es : list Event) : list Widget :=
  match es with
  | [] => []
  | EvRenderWidget element :: rest => element :: rendered rest
  | _ :: rest => rendered rest
  end.

(** The element shown for the photo at index [i] of [ps]. *)
Definition elementAt (w : World) (ps : list WidgetPhoto) (i : Z) : option Widget :=
  option_map (elementFor w) (jsIndex ps i).

(** A tap on the widget. *)
Definition tap : M World unit :=
  PhotoWidget.widgetTaskHandler PhotoWidget.WIDGET_CLICK (Some "ROTATE_PHOTO").

(** ** Bounds on a run of the picker workflow *)

(** The workflow has come to rest: the screen shows success or an error. *)
Definition finished (st : PickerState) : bool :=
  match st with
  | StDone | StError => true
  | _ => false
  end.

(** The sessions created and the browsers opened among some events. *)
Fixpoint sessionsCreated (es : list Event) : nat :=
  match es with
  | [] => 0
  | EvCreateSession :: rest => S (sessionsCreated rest)
  | _ :: rest => sessionsCreated rest
  end.

(** The durable writes among some events. *)
Fixpoint writes (es : list Event) : list WidgetData :=
  match es with
  | [] => []
  | EvWrite record :: rest => record :: writes rest
  | _ :: rest => writes rest
  end.

(** What a run of the workflow may do at most: [n] status requests, one
    session deletion, one call of [saveWidgetPhotos] and one durable
    write. *)
Definition withinBounds (n : nat) (es : list Event) : Prop :=
  (statusRequests es <= n)%nat
  /\ (deletions es <= 1)%nat
  /\ (List.length (saves es) <= 1)%nat
  /\ (List.length (writes es) <= List.length (saves es))%nat.

(** A remote whose every call fails. *)
Definition unreachable : Remote :=
  {| createSessionResp := Throw "Network request failed";
     openBrowserResp := Throw "Network request failed";
     getSessionResp := fun _ => Throw "Network request failed";
     mediaItemsResp := Throw "Network request failed";
     downloadResp := fun _ _ => Throw "Network request failed";
     deleteSessionResp := Throw "Network request failed";
     cacheDirectory := "/cache/" |}.

(** The selection is ready at once and holds nothing: the answer carries
    no [mediaItems] field. *)
Definition nothingSelected : Remote :=
  remoteOf (fun _ => Ok (sessionOf true)) (Ok None) (fun _ _ => Ok 200).

(** The first two status requests find the selection not ready, the third
    fails in transport. *)
Definition thirdStatusFails : Remote :=
  remoteOf (fun n => if Nat.ltb n 2 then Ok (sessionOf false)
                     else Throw "Failed to get picker session: 503")
           (Ok (Some fiveItems)) (fun _ _ => Ok 200).

(** The session is created, and the browser cannot be opened. *)
Definition browserFails : Remote :=
  {| createSessionResp := Ok (sessionOf false);
     openBrowserResp := Throw "No browser available";
     getSessionResp := fun _ => Ok (sessionOf true);
     mediaItemsResp := Ok (Some fiveItems);
     downloadResp := fun _ _ => Ok 200;
     deleteSessionResp := Ok tt;
     cacheDirectory := "/cache/" |}.

(** The world in which [pickPhotos] starts to poll: the session is created,
    the browser has been dismissed and two seconds have passed. *)
Definition pickerDismissed (session : PickerSession) (w : World) : World :=
  tick 2000 (log (EvSleep 2000)
               (log (EvOpenBrowser (pickerUri session)) (log EvCreateSession w))).

(** ** The photos tab *)

(** The photos the tab shows: those of the record it last loaded. *)
Definition loadedPhotos (s : PhotosScreen.Photos) : list WidgetPhoto :=
  match PhotosScreen.widgetData s with
  | Some d => photos d
  | None => []
  end.

(** The display mode chosen for a set of photos. *)
Definition modeFor (ps : list WidgetPhoto) : DisplayMode :=
  if 1 <? jsLength ps then slideshow else single.

(** The photos tab that last loaded record [loaded], on a device whose
    store has since come to hold something else. *)
Definition staleTab (loaded : WidgetData) (w : World) : PhotosScreen.Photos :=
  {| PhotosScreen.world := w; PhotosScreen.widgetData := Some loaded |}.

(** ** The home screen *)

(** An image library whose copies all fail. *)
Definition copiesFail : PhotosScreen.Library :=
  {| PhotosScreen.permissionGranted := true;
     PhotosScreen.canceled := false;
     PhotosScreen.assets := [assetAt "file:///storage/downloads/a.jpg";
                             assetAt "file:///storage/downloads/b.jpg"];
     PhotosScreen.copyFails := fun _ => true;
     PhotosScreen.cacheDirectory := "/cache/" |}.

(** ** The widget preview *)

(** The preview showing record [loaded], on a device. *)
Definition previewOf (loaded : option WidgetData) (w : World)
  : WidgetPreview.Preview :=
  {| WidgetPreview.world := w; WidgetPreview.widgetData := loaded |}.

(** The expiry [now + expiresIn * 1000] that the callback computes lies
    where the arithmetic of JavaScript is exact: the lifetime in
    milliseconds and the expiry are within 2^53 in magnitude.  Nothing is
    asked of an [expiresIn] that is [NaN]. *)
Definition exactExpiry (now : Z) (expiresIn : option Z) : Prop :=
  match expiresIn with
  | Some n => Z.abs (n * 1000) <= 2 ^ 53 /\ Z.abs (now + n * 1000) <= 2 ^ 53
  | None => True
  end.

(** The callback of a sign-in that granted access token at-9 for one hour,
    with the given refresh token. *)
Definition callbackWith (refresh : option string)
  : OAuthCallback.CallbackParams :=
  {| OAuthCallback.cb_access_token := Some "at-9";
     OAuthCallback.cb_refresh_token := refresh;
     OAuthCallback.cb_expires_in := Some "3600" |}.

(** The user-info request answers with a fixed record. *)
Definition userIsAda (accessToken : string) : outcome string :=
  Ok "{id:1,email:ada@example.org,name:Ada}".

(** * Properties *)

(** ** Traces *)

Lemma skipn_prefix {A : Type} (l k : list A) :
  skipn (List.length l) (l ++ k) = k.
Proof.
  induction l as [|x l IH]; simpl; auto.
Qed.

Lemma newEvents_app (before after : World) (es : list Event) :
  trace after = (trace before ++ es)%list -> newEvents before after = es.
Proof.
  intros H. unfold newEvents. rewrite H. apply skipn_prefix.
Qed.

(** ** Array lookup *)

Lemma jsIndex_in_range {A : Type} (arr : list A) (i : Z) :
  0 <= i < jsLength arr -> exists x, jsIndex arr i = Some x.
Proof.
  intros [Hlo Hhi]. unfold jsIndex, jsLength in *.
  destruct (i <? 0) eqn:E; [apply Z.ltb_lt in E; lia|].
  destruct (nth_error arr (Z.to_nat i)) eqn:N; [eauto|].
  apply nth_error_None in N. lia.
Qed.

Lemma jsIndex_out_of_range {A : Type} (arr : list A) (i : Z) :
  ~ (0 <= i < jsLength arr) -> jsIndex arr i = None.
Proof.
  intros H. unfold jsIndex, jsLength in *.
  destruct (i <? 0) eqn:E; [reflexivity|].
  apply Z.ltb_ge in E. apply nth_error_None. lia.
Qed.

(** ** The render step *)

Lemma getImageAsBase64_pure (path : string) (w : World) :
  exists r, PhotoWidget.getImageAsBase64 path w = (Ok r, w)
            /\ PhotoWidget.truthy r = r.
Proof.
  unfold PhotoWidget.getImageAsBase64.
  destruct (PhotoWidget.startsWith path "data:image") eqn:E.
  - exists (Some path). split; [reflexivity|].
    destruct path; [discriminate E | reflexivity].
  - unfold bind, gets, ret.
    destruct (readBase64 w path); eexists; split; reflexivity.
Qed.

Lemma currentPhoto_exists (d : WidgetData) (p0 : WidgetPhoto) (rest : list WidgetPhoto) :
  photos d = p0 :: rest ->
  exists p,
    PhotoWidget.currentPhoto d = Some p
    /\ (0 <= currentIndex d < jsLength (photos d) ->
        nth_error (photos d) (Z.to_nat (currentIndex d)) = Some p)
    /\ (~ (0 <= currentIndex d < jsLength (photos d)) -> p = p0).
Proof.
  intros Hp. unfold PhotoWidget.currentPhoto.
  destruct (Z_lt_dec (currentIndex d) 0) as [Hneg|Hnonneg].
  - rewrite (@jsIndex_out_of_range _ (photos d) (currentIndex d)) by lia.
    exists p0. rewrite Hp. repeat split; auto. intros; lia.
  - destruct (Z_lt_dec (currentIndex d) (jsLength (photos d))) as [Hin|Hout].
    + destruct (@jsIndex_in_range _ (photos d) (currentIndex d)) as [p Hq]; [lia|].
      exists p. rewrite Hq. repeat split; auto.
      * intros _. unfold jsIndex in Hq.
        destruct (currentIndex d <? 0) eqn:E; [discriminate | exact Hq].
      * intros Hc. exfalso. apply Hc. lia.
    + rewrite (@jsIndex_out_of_range _ (photos d) (currentIndex d)) by lia.
      exists p0. repeat split; auto; [rewrite Hp; reflexivity | intros; lia].
Qed.

Lemma jsLength_nonempty {A : Type} (l : list A) :
  l <> [] -> (jsLength l =? 0) = false.
Proof.
  destruct l; [congruence|]. intros _. reflexivity.
Qed.

Lemma renderPhotoWidget_photo (w : World) (d : WidgetData) (p : WidgetPhoto) :
  store w = Some d ->
  photos d <> [] ->
  PhotoWidget.currentPhoto d = Some p ->
  PhotoWidget.renderPhotoWidget w
  = (Ok tt, log (EvRenderWidget (elementFor w p)) w).
Proof.
  intros Hs Hne Hp.
  unfold PhotoWidget.renderPhotoWidget, PhotoWidget.getWidgetData, bind, gets.
  rewrite Hs, (jsLength_nonempty Hne), Hp. unfold elementFor, result.
  destruct (getImageAsBase64_pure (PhotoWidget.imagePath p) w) as (r & Hr & Ht).
  rewrite Hr, Ht. cbn [fst]. destruct r; reflexivity.
Qed.

Lemma indexInRange_iff (d : WidgetData) :
  indexInRange d = true <-> 0 <= currentIndex d < jsLength (photos d).
Proof.
  unfold indexInRange. rewrite andb_true_iff, Z.leb_le, Z.ltb_lt. tauto.
Qed.

Lemma shownPhoto_chosen (d : WidgetData) (p0 : WidgetPhoto) (rest : list WidgetPhoto) :
  photos d = p0 :: rest ->
  PhotoWidget.currentPhoto d = Some (shownPhoto d p0).
Proof.
  intros Hp. unfold PhotoWidget.currentPhoto, shownPhoto.
  destruct (indexInRange d) eqn:E.
  - apply indexInRange_iff in E. unfold jsIndex.
    destruct (currentIndex d <? 0) eqn:E0; [apply Z.ltb_lt in E0; lia|].
    rewrite (nth_error_nth' _ p0) by (unfold jsLength in E; lia).
    reflexivity.
  - rewrite jsIndex_out_of_range.
    + rewrite Hp. reflexivity.
    + intros H. apply indexInRange_iff in H. congruence.
Qed.

Lemma prefix_not_empty (pre s : string) :
  pre <> EmptyString -> String.prefix pre s = true -> s <> EmptyString.
Proof.
  intros Hpre H E. subst s. destruct pre; [congruence | discriminate H].
Qed.

Lemma truthy_imageFor (pre : string) (w : World) (p : WidgetPhoto) :
  pre <> EmptyString ->
  PhotoWidget.truthy (imageFor pre w p) = imageFor pre w p.
Proof.
  intros Hpre. unfold imageFor.
  destruct (String.prefix pre (jsOrOpt (wp_localPath p) (wp_url p))) eqn:E.
  - pose proof (prefix_not_empty Hpre E) as Hne.
    destruct (jsOrOpt (wp_localPath p) (wp_url p)); [congruence | reflexivity].
  - destruct (readBase64 w _); reflexivity.
Qed.

Lemma getImageAsBase64_first (w : World) (p : WidgetPhoto) :
  PhotoWidgetFirst.getImageAsBase64 (PhotoWidget.imagePath p) w
  = (Ok (imageFor "data:" w p), w).
Proof.
  unfold PhotoWidgetFirst.getImageAsBase64, imageFor, PhotoWidget.startsWith,
    PhotoWidget.imagePath.
  destruct (String.prefix "data:" _); [reflexivity|].
  unfold bind, gets, ret. destruct (readBase64 w _); reflexivity.
Qed.

Lemma getImageAsBase64_second (w : World) (p : WidgetPhoto) :
  PhotoWidget.getImageAsBase64 (PhotoWidget.imagePath p) w
  = (Ok (imageFor "data:image" w p), w).
Proof.
  unfold PhotoWidget.getImageAsBase64, imageFor, PhotoWidget.startsWith,
    PhotoWidget.imagePath.
  destruct (String.prefix "data:image" _); [reflexivity|].
  unfold bind, gets, ret. destruct (readBase64 w _); reflexivity.
Qed.

(** C10.  For every stored record with at least one photo and every integer
    [currentIndex], in range or not, the photo chosen for display is
    [photos[currentIndex]] when the index is in range and [photos[0]]
    otherwise.  In both versions of the widget, [renderPhotoWidget] returns
    normally after handing exactly one element to the widget host, and
    [renderWidgetForUpdate] returns normally with one element; in each case
    it is the element built from that photo: its image (the path when it is
    a data URI, else the content of the file) with the click action of that
    version, or the error placeholder when the file cannot be read.  It is
    never the empty placeholder. *)
Theorem render_falls_back_to_first_photo
    (w : World) (d : WidgetData) (p0 : WidgetPhoto) (rest : list WidgetPhoto) :
  store w = Some d ->
  photos d = p0 :: rest ->
  let p := shownPhoto d p0 in
  (0 <= currentIndex d < jsLength (photos d) ->
     nth_error (photos d) (Z.to_nat (currentIndex d)) = Some p)
  /\ (~ (0 <= currentIndex d < jsLength (photos d)) -> p = p0)
  /\ PhotoWidget.currentPhoto d = Some p
  /\ PhotoWidgetFirst.renderPhotoWidget w
     = (Ok tt,
        log (EvRenderWidget
               (imageOrPlaceholder (imageFor "data:" w p)
                  (PhotoWidgetFirst.clickActionFor d) "Unable to load photo")) w)
  /\ PhotoWidgetFirst.renderWidgetForUpdate w
     = (Ok (imageOrPlaceholder (imageFor "data:" w p)
              "OPEN_APP" "Unable to load"), w)
  /\ PhotoWidget.renderPhotoWidget w
     = (Ok tt,
        log (EvRenderWidget
               (imageOrPlaceholder (imageFor "data:image" w p)
                  "ROTATE_PHOTO" "Unable to load photo")) w)
  /\ PhotoWidget.renderWidgetForUpdate w
     = (Ok (imageOrPlaceholder (imageFor "data:image" w p)
              "ROTATE_PHOTO" "Unable to load"), w)
  /\ (forall image clickAction text,
        imageOrPlaceholder image clickAction text <> TapToAddPhotos).
Proof.
  intros Hs Hp p.
  assert (Hne : photos d <> []) by (rewrite Hp; discriminate).
  assert (Hcur : PhotoWidget.currentPhoto d = Some p)
    by (apply (shownPhoto_chosen d Hp)).
  assert (Hlen : (jsLength (photos d) =? 0) = false)
    by (apply jsLength_nonempty; exact Hne).
  assert (H1 : "data:" <> EmptyString) by discriminate.
  assert (H2 : "data:image" <> EmptyString) by discriminate.
  split; [|split; [|split; [exact Hcur|]]].
  - intros Hin. subst p. unfold shownPhoto.
    rewrite (proj2 (indexInRange_iff d) Hin).
    apply nth_error_nth'. unfold jsLength in Hin. lia.
  - intros Hout. subst p. unfold shownPhoto.
    destruct (indexInRange d) eqn:E; [|reflexivity].
    exfalso. apply Hout. apply indexInRange_iff. exact E.
  - clearbody p.
    split; [|split; [|split; [|split]]].
    + unfold PhotoWidgetFirst.renderPhotoWidget, PhotoWidget.getWidgetData, bind, gets.
      rewrite Hs, Hlen, Hcur, getImageAsBase64_first, (truthy_imageFor w p H1).
      destruct (imageFor "data:" w p); reflexivity.
    + unfold PhotoWidgetFirst.renderWidgetForUpdate, PhotoWidget.getWidgetData, bind, gets.
      rewrite Hs, Hlen, Hcur, getImageAsBase64_first, (truthy_imageFor w p H1).
      destruct (imageFor "data:" w p); reflexivity.
    + unfold PhotoWidget.renderPhotoWidget, PhotoWidget.getWidgetData, bind, gets.
      rewrite Hs, Hlen, Hcur, getImageAsBase64_second, (truthy_imageFor w p H2).
      destruct (imageFor "data:image" w p); reflexivity.
    + unfold PhotoWidget.renderWidgetForUpdate, PhotoWidget.getWidgetData, bind, gets.
      rewrite Hs, Hlen, Hcur, getImageAsBase64_second, (truthy_imageFor w p H2).
      destruct (imageFor "data:image" w p); reflexivity.
    + intros [image|] clickAction text; discriminate.
Qed.

Lemma render_falls_back_to_first_photo_witness :
  PhotoWidget.currentPhoto indexPastEnd = Some photoA
  /\ PhotoWidgetFirst.renderPhotoWidget (deviceWith (Some indexPastEnd))
     = (Ok tt,
        log (EvRenderWidget (PhotoImage "data:image/jpeg;base64,QUJD" "NEXT_PHOTO"))
          (deviceWith (Some indexPastEnd)))
  /\ PhotoWidgetFirst.renderWidgetForUpdate (deviceWith (Some indexPastEnd))
     = (Ok (PhotoImage "data:image/jpeg;base64,QUJD" "OPEN_APP"),
        deviceWith (Some indexPastEnd)).
Proof.
  destruct (@render_falls_back_to_first_photo
              (deviceWith (Some indexPastEnd)) indexPastEnd photoA [photoB]
              eq_refl eq_refl)
    as (_ & _ & Hcur & Hrender & Hupdate & _).
  split; [exact Hcur | split; [exact Hrender | exact Hupdate]].
Defined.

(** ** The advance operation *)

Lemma rotateToNextPhoto_step (w : World) (d : WidgetData) :
  platformOS w = android ->
  writeFails w = false ->
  store w = Some d ->
  photos d <> [] ->
  let d' := withIndex d (jsRem (currentIndex d + 1) (jsLength (photos d))) (now w) in
  WidgetStorage.rotateToNextPhoto w
  = (Ok tt, setStore (Some d') (log (EvWrite d') (log EvRotateToNextPhoto w))).
Proof.
  intros Hos Hwf Hs Hne d'. subst d'.
  destruct w as [os t st wf rb pl tr]. simpl in *. subst.
  unfold WidgetStorage.rotateToNextPhoto, WidgetStorage.updateCurrentPhotoIndex,
    WidgetStorage.getWidgetData, WidgetStorage.saveWidgetData,
    bind, emit, modify, gets, ret, log, setStore. simpl.
  destruct (jsLength (photos d) =? 0) eqn:E.
  - apply Z.eqb_eq in E. unfold jsLength in E.
    destruct (photos d); [congruence | simpl in E; lia].
  - reflexivity.
Qed.

Lemma rotateToNextPhoto_without_photos (w : World) :
  (platformOS w = ios \/ store w = None
   \/ exists d, store w = Some d /\ photos d = []) ->
  WidgetStorage.rotateToNextPhoto w = (Ok tt, log EvRotateToNextPhoto w).
Proof.
  intros H.
  destruct w as [os t st wf rb pl tr]. simpl in *.
  unfold WidgetStorage.rotateToNextPhoto, WidgetStorage.getWidgetData,
    bind, emit, modify, gets, ret, log. simpl.
  destruct H as [H | [H | (d & H & Hp)]]; subst; simpl.
  - reflexivity.
  - destruct os; reflexivity.
  - destruct os; simpl; [|reflexivity]. rewrite Hp. reflexivity.
Qed.

Lemma rotatePhoto_step (w : World) (d : WidgetData) :
  writeFails w = false ->
  store w = Some d ->
  1 < jsLength (photos d) ->
  let d' := withIndex d (jsRem (currentIndex d + 1) (jsLength (photos d))) (now w) in
  PhotoWidget.rotatePhoto w
  = (Ok tt, setStore (Some d') (log (EvWrite d') (log EvRotatePhoto w))).
Proof.
  intros Hwf Hs Hlen d'. subst d'.
  destruct w as [os t st wf rb pl tr]. simpl in *. subst.
  unfold PhotoWidget.rotatePhoto, PhotoWidget.getWidgetData,
    PhotoWidget.saveWidgetData, bind, emit, modify, gets, ret, log, setStore.
  simpl.
  destruct (jsLength (photos d) <=? 1) eqn:E; [apply Z.leb_le in E; lia|].
  reflexivity.
Qed.

Lemma rotatePhoto_at_most_one (w : World) :
  (store w = None \/ exists d, store w = Some d /\ jsLength (photos d) <= 1) ->
  PhotoWidget.rotatePhoto w = (Ok tt, log EvRotatePhoto w).
Proof.
  intros H.
  destruct w as [os t st wf rb pl tr]. simpl in *.
  unfold PhotoWidget.rotatePhoto, PhotoWidget.getWidgetData,
    bind, emit, modify, gets, ret, log. simpl.
  destruct H as [H | (d & H & Hp)]; subst; simpl; [reflexivity|].
  apply Z.leb_le in Hp. rewrite Hp. reflexivity.
Qed.

(** C5, as stated, fails for [rotateToNextPhoto] on a record with exactly
    one photo: the record is written back with [lastUpdated] set to the
    current time, so the stored record changes. *)
Lemma rotateToNextPhoto_single_photo_rewrites_record :
  store (exec WidgetStorage.rotateToNextPhoto
           (deviceWith (Some (recordOf [photoA] 0 single))))
  <> store (deviceWith (Some (recordOf [photoA] 0 single))).
Proof.
  vm_compute. discriminate.
Qed.

(** C5, amended.  [rotateToNextPhoto] writes nothing and leaves the world
    as it was (apart from the record of the call) when there is no stored
    record, when the record holds no photo, and off Android.  With exactly
    one photo, on Android, it attempts one durable write: the record with
    [currentIndex] 0, the same photos, display mode, album and interval,
    and [lastUpdated] set to the current time.  When the write succeeds
    that record replaces the stored one, so an index that was 0 stays 0
    while [lastUpdated] changes; when the write fails the call throws and
    the stored record is the previous one.  The widget's own [rotatePhoto]
    writes nothing and leaves the stored record as it was when there is no
    record or the record holds at most one photo. *)
Theorem advance_with_at_most_one_photo (w : World) :
  ((store w = None \/ exists d, store w = Some d /\ photos d = []) ->
     WidgetStorage.rotateToNextPhoto w = (Ok tt, log EvRotateToNextPhoto w))
  /\ (platformOS w = ios ->
        WidgetStorage.rotateToNextPhoto w = (Ok tt, log EvRotateToNextPhoto w))
  /\ store (log EvRotateToNextPhoto w) = store w
  /\ writes (newEvents w (log EvRotateToNextPhoto w)) = []
  /\ (forall d p, store w = Some d -> photos d = [p] ->
        platformOS w = android ->
        let d' := withIndex d 0 (now w) in
        (writeFails w = false ->
           WidgetStorage.rotateToNextPhoto w
           = (Ok tt, setStore (Some d') (log (EvWrite d') (log EvRotateToNextPhoto w))))
        /\ (writeFails w = true ->
             (exists message,
                WidgetStorage.rotateToNextPhoto w
                = (Throw message, log (EvWrite d') (log EvRotateToNextPhoto w)))
             /\ store (exec WidgetStorage.rotateToNextPhoto w) = Some d)
        /\ photos d' = photos d /\ displayMode d' = displayMode d
        /\ albumId d' = albumId d
        /\ rotationIntervalSeconds d' = rotationIntervalSeconds d
        /\ currentIndex d' = 0 /\ lastUpdated d' = now w)
  /\ ((store w = None \/ exists d, store w = Some d /\ jsLength (photos d) <= 1) ->
        PhotoWidget.rotatePhoto w = (Ok tt, log EvRotatePhoto w)
        /\ store (exec PhotoWidget.rotatePhoto w) = store w
        /\ writes (newEvents w (exec PhotoWidget.rotatePhoto w)) = []).
Proof.
  split; [|split; [|split; [|split; [|split]]]].
  - intros H. apply rotateToNextPhoto_without_photos. tauto.
  - intros H. apply rotateToNextPhoto_without_photos. tauto.
  - reflexivity.
  - rewrite (@newEvents_app w _ [EvRotateToNextPhoto]); reflexivity.
  - intros d p Hs Hp Hos d'. subst d'.
    assert (Hne : photos d <> []) by (rewrite Hp; discriminate).
    assert (Hrem : jsRem (currentIndex d + 1) (jsLength (photos d)) = 0).
    { rewrite Hp. unfold jsLength, jsRem. cbn [List.length].
      change (Z.of_nat 1) with 1. apply Z.rem_1_r. }
    split; [|split].
    + intros Hwf.
      rewrite (rotateToNextPhoto_step w Hos Hwf Hs Hne), Hrem. reflexivity.
    + intros Hwf.
      assert (Hrun : WidgetStorage.rotateToNextPhoto w
                     = (Throw "Failed to save widget data",
                        log (EvWrite (withIndex d 0 (now w)))
                          (log EvRotateToNextPhoto w))).
      { destruct w as [os t st wf rb pl tr]. simpl in *. subst.
        unfold WidgetStorage.rotateToNextPhoto, WidgetStorage.updateCurrentPhotoIndex,
          WidgetStorage.getWidgetData, WidgetStorage.saveWidgetData,
          bind, emit, modify, gets, ret, log, setStore. simpl.
        rewrite (jsLength_nonempty Hne), Hrem. reflexivity. }
      split; [eexists; exact Hrun|]. unfold exec. rewrite Hrun. exact Hs.
    + repeat split.
  - intros H.
    pose proof (rotatePhoto_at_most_one w H) as Hrun.
    split; [exact Hrun|]. unfold exec. rewrite Hrun. split; [reflexivity|].
    rewrite (@newEvents_app w _ [EvRotatePhoto]); reflexivity.
Qed.

Lemma advance_with_at_most_one_photo_witness :
  WidgetStorage.rotateToNextPhoto (deviceWith (Some (recordOf [photoA] 0 single)))
  = (Ok tt,
     setStore (Some (withIndex (recordOf [photoA] 0 single) 0 1000))
       (log (EvWrite (withIndex (recordOf [photoA] 0 single) 0 1000))
          (log EvRotateToNextPhoto
             (deviceWith (Some (recordOf [photoA] 0 single))))))
  /\ WidgetStorage.rotateToNextPhoto (deviceWith None)
     = (Ok tt, log EvRotateToNextPhoto (deviceWith None))
  /\ PhotoWidget.rotatePhoto (deviceWith (Some (recordOf [photoA] 0 single)))
     = (Ok tt, log EvRotatePhoto (deviceWith (Some (recordOf [photoA] 0 single)))).
Proof.
  split; [|split].
  - pose proof (@advance_with_at_most_one_photo
                  (deviceWith (Some (recordOf [photoA] 0 single))))
      as (_ & _ & _ & _ & H & _).
    exact (proj1 (H (recordOf [photoA] 0 single) photoA eq_refl eq_refl eq_refl)
             eq_refl).
  - pose proof (@advance_with_at_most_one_photo (deviceWith None)) as (H & _).
    exact (H (or_introl eq_refl)).
  - pose proof (@advance_with_at_most_one_photo
                  (deviceWith (Some (recordOf [photoA] 0 single))))
      as (_ & _ & _ & _ & _ & H).
    refine (proj1 (H (or_intror (ex_intro _ (recordOf [photoA] 0 single)
                                   (conj eq_refl _))))).
    vm_compute. discriminate.
Defined.

Section Iterate.

Variable advance : M World unit.
Variable ps : list WidgetPhoto.
Variable P : World -> Prop.

Hypothesis advance_step : forall w d,
  P w -> store w = Some d -> photos d = ps ->
  0 <= currentIndex d < jsLength ps ->
  exists w' d',
    advance w = (Ok tt, w') /\ P w' /\ store w' = Some d'
    /\ photos d' = ps
    /\ currentIndex d' = (currentIndex d + 1) mod jsLength ps.

Lemma repeat_advance : forall (k : nat) w d,
  P w -> store w = Some d -> photos d = ps ->
  0 <= currentIndex d < jsLength ps ->
  exists w' d',
    repeatM k advance w = (Ok tt, w') /\ store w' = Some d'
    /\ photos d' = ps
    /\ currentIndex d' = (currentIndex d + Z.of_nat k) mod jsLength ps.
Proof.
  induction k as [|k IH]; intros w d HP Hs Hp Hr.
  - exists w, d. repeat split; auto.
    rewrite Z.add_0_r, Z.mod_small; auto.
  - destruct (advance_step HP Hs Hp Hr) as (w1 & d1 & Ha & HP1 & Hs1 & Hp1 & Hi1).
    assert (Hr1 : 0 <= currentIndex d1 < jsLength ps).
    { rewrite Hi1. apply Z.mod_pos_bound. lia. }
    destruct (IH w1 d1 HP1 Hs1 Hp1 Hr1) as (w2 & d2 & Hb & Hs2 & Hp2 & Hi2).
    exists w2, d2. repeat split; auto.
    + simpl. unfold bind. rewrite Ha. exact Hb.
    + rewrite Hi2, Hi1, Z.add_mod_idemp_l by lia.
      f_equal. lia.
Qed.

End Iterate.

Lemma rotateToNextPhoto_advances (ps : list WidgetPhoto) (w : World) (d : WidgetData) :
  (platformOS w = android /\ writeFails w = false) ->
  store w = Some d -> photos d = ps ->
  0 <= currentIndex d < jsLength ps ->
  exists w' d',
    WidgetStorage.rotateToNextPhoto w = (Ok tt, w')
    /\ (platformOS w' = android /\ writeFails w' = false)
    /\ store w' = Some d' /\ photos d' = ps
    /\ currentIndex d' = (currentIndex d + 1) mod jsLength ps.
Proof.
  intros [Hos Hwf] Hs Hp Hr. subst ps.
  assert (Hne : photos d <> []).
  { intros E. rewrite E in Hr. unfold jsLength in Hr. simpl in Hr. lia. }
  eexists _, _. split; [apply (rotateToNextPhoto_step w Hos Hwf Hs Hne)|].
  simpl. repeat split; auto.
  unfold jsRem. apply Z.rem_mod_nonneg; lia.
Qed.

Lemma rotatePhoto_advances (ps : list WidgetPhoto) (w : World) (d : WidgetData) :
  writeFails w = false ->
  store w = Some d -> photos d = ps ->
  0 <= currentIndex d < jsLength ps ->
  exists w' d',
    PhotoWidget.rotatePhoto w = (Ok tt, w')
    /\ writeFails w' = false
    /\ store w' = Some d' /\ photos d' = ps
    /\ currentIndex d' = (currentIndex d + 1) mod jsLength ps.
Proof.
  intros Hwf Hs Hp Hr. subst ps.
  destruct (Z_le_gt_dec (jsLength (photos d)) 1) as [Hle|Hgt].
  - exists (log EvRotatePhoto w), d.
    split; [apply rotatePhoto_at_most_one; eauto|].
    repeat split; auto.
    assert (jsLength (photos d) = 1) as -> by lia.
    rewrite Z.mod_1_r. lia.
  - eexists _, _. split; [apply (rotatePhoto_step w Hwf Hs); lia|].
    simpl. repeat split; auto.
    unfold jsRem. apply Z.rem_mod_nonneg; lia.
Qed.

(** C6.  For a stored record with N >= 1 photos and [currentIndex] in
    [0, N), where writes succeed: after k consecutive calls of the advance
    operation the stored index is (currentIndex + k) mod N, and hence after
    N calls it is the original index again.  This holds for
    [rotateToNextPhoto] (on Android, where it acts) and for the widget's
    [rotatePhoto]. *)
Theorem advance_is_cyclic (w : World) (d : WidgetData) :
  store w = Some d ->
  writeFails w = false ->
  1 <= jsLength (photos d) ->
  0 <= currentIndex d < jsLength (photos d) ->
  let N := List.length (photos d) in
  (platformOS w = android ->
     (forall k, indexAfter WidgetStorage.rotateToNextPhoto k w
                = Some ((currentIndex d + Z.of_nat k) mod Z.of_nat N))
     /\ indexAfter WidgetStorage.rotateToNextPhoto N w = Some (currentIndex d))
  /\ (forall k, indexAfter PhotoWidget.rotatePhoto k w
                = Some ((currentIndex d + Z.of_nat k) mod Z.of_nat N))
  /\ indexAfter PhotoWidget.rotatePhoto N w = Some (currentIndex d).
Proof.
  intros Hs Hwf HN Hr N.
  assert (Hcycle : (currentIndex d + Z.of_nat N) mod Z.of_nat N = currentIndex d).
  { rewrite <- (Z.mul_1_l (Z.of_nat N)) at 1.
    rewrite Z.mod_add by (unfold jsLength in HN; subst N; lia).
    apply Z.mod_small. exact Hr. }
  assert (Hstorage : platformOS w = android ->
            forall k, indexAfter WidgetStorage.rotateToNextPhoto k w
                      = Some ((currentIndex d + Z.of_nat k) mod Z.of_nat N)).
  { intros Hos k.
    destruct (@repeat_advance WidgetStorage.rotateToNextPhoto (photos d)
                (fun w => platformOS w = android /\ writeFails w = false)
                (@rotateToNextPhoto_advances (photos d))
                k w d (conj Hos Hwf) Hs eq_refl Hr)
      as (w' & d' & Hrun & Hs' & _ & Hi).
    unfold indexAfter, exec. rewrite Hrun. simpl. rewrite Hs'. simpl.
    rewrite Hi. reflexivity. }
  assert (Hwidget :
            forall k, indexAfter PhotoWidget.rotatePhoto k w
                      = Some ((currentIndex d + Z.of_nat k) mod Z.of_nat N)).
  { intros k.
    destruct (@repeat_advance PhotoWidget.rotatePhoto (photos d)
                (fun w => writeFails w = false)
                (@rotatePhoto_advances (photos d))
                k w d Hwf Hs eq_refl Hr)
      as (w' & d' & Hrun & Hs' & _ & Hi).
    unfold indexAfter, exec. rewrite Hrun. simpl. rewrite Hs'. simpl.
    rewrite Hi. reflexivity. }
  split; [intros Hos; split; [exact (Hstorage Hos)|] | split; [exact Hwidget|]].
  - rewrite (Hstorage Hos N), Hcycle. reflexivity.
  - rewrite (Hwidget N), Hcycle. reflexivity.
Qed.

Lemma advance_is_cyclic_witness :
  indexAfter WidgetStorage.rotateToNextPhoto 3
    (deviceWith (Some (recordOf [photoA; photoB; photoC] 1 slideshow)))
  = Some 1
  /\ indexAfter PhotoWidget.rotatePhoto 3
       (deviceWith (Some (recordOf [photoA; photoB; photoC] 1 slideshow)))
     = Some 1.
Proof.
  pose proof (@advance_is_cyclic
                (deviceWith (Some (recordOf [photoA; photoB; photoC] 1 slideshow)))
                (recordOf [photoA; photoB; photoC] 1 slideshow)
                eq_refl eq_refl) as H.
  simpl in H.
  assert (H1 : 1 <= jsLength [photoA; photoB; photoC]) by (vm_compute; discriminate).
  assert (H2 : 0 <= 1 < jsLength [photoA; photoB; photoC]) by (vm_compute; split; [discriminate | reflexivity]).
  destruct (H H1 H2) as (Hstorage & _ & Hwidget).
  split; [exact (proj2 (Hstorage eq_refl)) | exact Hwidget].
Defined.

(** ** Rotation triggers *)

Lemma renderPhotoWidget_renders_once (w : World) :
  exists element, PhotoWidget.renderPhotoWidget w
                  = (Ok tt, log (EvRenderWidget element) w).
Proof.
  destruct (store w) as [d|] eqn:Hs.
  - destruct (photos d) as [|p0 rest] eqn:Hp.
    + exists TapToAddPhotos.
      unfold PhotoWidget.renderPhotoWidget, PhotoWidget.getWidgetData, bind, gets.
      rewrite Hs, Hp. reflexivity.
    + destruct (currentPhoto_exists d Hp) as (p & Hc & _).
      exists (elementFor w p).
      apply (renderPhotoWidget_photo w Hs); [rewrite Hp; discriminate | exact Hc].
  - exists TapToAddPhotos.
    unfold PhotoWidget.renderPhotoWidget, PhotoWidget.getWidgetData, bind, gets.
    rewrite Hs. reflexivity.
Qed.

Lemma rotatePhoto_trace (w : World) :
  exists w' es,
    PhotoWidget.rotatePhoto w = (Ok tt, w')
    /\ trace w' = (trace w ++ EvRotatePhoto :: es)%list
    /\ calls es = [].
Proof.
  destruct w as [os t st wf rb pl tr].
  unfold PhotoWidget.rotatePhoto, PhotoWidget.getWidgetData,
    PhotoWidget.saveWidgetData, bind, emit, modify, gets, ret, log, setStore.
  simpl.
  destruct st as [d|]; [|eexists _, []; repeat split; reflexivity].
  destruct (jsLength (photos d) <=? 1); [eexists _, []; repeat split; reflexivity|].
  destruct wf; eexists _, [_]; simpl; rewrite <- app_assoc; repeat split; reflexivity.
Qed.

Lemma tap_fires_once (clickAction : option string) (w : World) :
  firing (PhotoWidget.widgetTaskHandler PhotoWidget.WIDGET_CLICK clickAction) w
  = [Advance; ReRender].
Proof.
  assert (H : firing (bind PhotoWidget.rotatePhoto
                        (fun _ => PhotoWidget.renderPhotoWidget)) w
              = [Advance; ReRender]).
  { destruct (rotatePhoto_trace w) as (w1 & es & Hr & Ht & Hc).
    destruct (renderPhotoWidget_renders_once w1) as (element & Hrender).
    unfold firing, exec, bind. rewrite Hr, Hrender. simpl snd.
    rewrite (@newEvents_app w _ (EvRotatePhoto :: es ++ [EvRenderWidget element])).
    - simpl. clear - Hc. induction es as [|e es IH]; simpl in *; auto.
      destruct e; simpl in *; try discriminate; auto.
    - simpl. rewrite Ht, <- app_assoc. reflexivity. }
  unfold PhotoWidget.widgetTaskHandler.
  destruct clickAction as [s|]; [|exact H].
  repeat (match goal with
          | |- context [match ?x with _ => _ end] => destruct x
          end; try exact H).
Qed.

Ltac run_world :=
  unfold firing, exec,
    BackgroundFetch.backgroundFetchTask, WidgetUpdater.rotateAndUpdate,
    WidgetUpdater.widgetUpdateTask,
    WidgetStorage.rotateToNextPhoto, WidgetStorage.updateCurrentPhotoIndex,
    WidgetStorage.requestWidgetUpdate, WidgetStorage.getWidgetData,
    WidgetStorage.saveWidgetData,
    tryCatch, bind, emit, modify, gets, ret, throw, log, setStore;
  simpl.

Ltac close_firing :=
  unfold newEvents; simpl;
  repeat rewrite <- app_assoc;
  try rewrite skipn_prefix;
  try (rewrite <- (app_nil_r (trace _)) at 2; rewrite skipn_prefix);
  simpl; try reflexivity.

Lemma newEvents_same (w w' : World) :
  trace w' = trace w -> newEvents w w' = [].
Proof.
  intros H. apply newEvents_app. rewrite app_nil_r. exact H.
Qed.

Lemma backgroundFetchTask_firing (w : World) :
  firing BackgroundFetch.backgroundFetchTask w
  = if slideshowOfSeveral w
    then (if writeFails w then [Advance] else [Advance; ReRender])
    else [].
Proof.
  destruct w as [os t st wf rb pl tr].
  unfold slideshowOfSeveral. simpl.
  destruct os; simpl; [|run_world; rewrite newEvents_same; reflexivity].
  destruct st as [d|]; [|run_world; rewrite newEvents_same; reflexivity].
  run_world.
  destruct (jsLength (photos d) =? 0) eqn:E0.
  - apply Z.eqb_eq in E0. rewrite E0. simpl. rewrite andb_false_r.
    rewrite newEvents_same; reflexivity.
  - destruct (displayMode d); simpl;
      [rewrite newEvents_same; reflexivity|].
    destruct (1 <? jsLength (photos d)); simpl;
      [|rewrite newEvents_same; reflexivity].
    rewrite E0. destruct wf; simpl; close_firing.
Qed.

Lemma rotateAndUpdate_firing (w : World) :
  firing WidgetUpdater.rotateAndUpdate w
  = if severalPhotos w
    then (if writeFails w then [Advance] else [Advance; ReRender])
    else [].
Proof.
  destruct w as [os t st wf rb pl tr].
  unfold severalPhotos. simpl.
  destruct os; simpl; [|run_world; rewrite newEvents_same; reflexivity].
  destruct st as [d|]; [|run_world; rewrite newEvents_same; reflexivity].
  run_world.
  rewrite Z.leb_antisym.
  destruct (1 <? jsLength (photos d)) eqn:E1; simpl;
    [|rewrite newEvents_same; reflexivity].
  destruct (jsLength (photos d) =? 0) eqn:E0.
  { apply Z.eqb_eq in E0. apply Z.ltb_lt in E1. lia. }
  destruct wf; simpl; close_firing.
Qed.

Lemma widgetUpdateTask_firing (w : World) :
  firing WidgetUpdater.widgetUpdateTask w
  = if slideshowOfSeveral w
    then (if writeFails w then [Advance] else [Advance; ReRender])
    else (if somePhotos w then [ReRender] else []).
Proof.
  destruct w as [os t st wf rb pl tr].
  unfold slideshowOfSeveral, somePhotos. simpl.
  destruct os; simpl; [|run_world; rewrite newEvents_same; reflexivity].
  destruct st as [d|]; [|run_world; rewrite newEvents_same; reflexivity].
  run_world.
  destruct (jsLength (photos d) =? 0) eqn:E0.
  - apply Z.eqb_eq in E0. rewrite E0. simpl. rewrite andb_false_r.
    rewrite newEvents_same; reflexivity.
  - destruct (displayMode d); simpl; [close_firing|].
    destruct (1 <? jsLength (photos d)); simpl; [|close_firing].
    rewrite E0. destruct wf; simpl; close_firing.
Qed.

(** C7, as stated, fails for the background-fetch task: with two photos in
    single display mode a firing performs no advance call and no re-render
    request. *)
Lemma background_task_skips_single_mode :
  firing BackgroundFetch.backgroundFetchTask singleModeDevice = []
  /\ firing BackgroundFetch.backgroundFetchTask singleModeDevice
     <> [Advance; ReRender].
Proof.
  split; [vm_compute; reflexivity | vm_compute; discriminate].
Qed.

(** C7, amended.  A tap on the widget always performs one [rotatePhoto]
    call followed by one render, whatever the click action, display mode
    and photo count.  A firing of the background-fetch task performs one
    [rotateToNextPhoto] call followed by one [requestWidgetUpdate] exactly
    when the application can read a record in slideshow mode with more
    than one photo, and nothing otherwise; [rotateAndUpdate] does so
    exactly when the record holds more than one photo, whatever the mode.
    The widget-update task advances under the guard of the background task
    and otherwise only requests a re-render when there is a photo to show.
    When the durable write fails the advance call is not followed by a
    re-render request.  No firing performs more than one advance. *)
Theorem trigger_firing_contract (w : World) :
  (forall clickAction,
     firing (PhotoWidget.widgetTaskHandler PhotoWidget.WIDGET_CLICK clickAction) w
     = [Advance; ReRender])
  /\ firing BackgroundFetch.backgroundFetchTask w
     = (if slideshowOfSeveral w
        then (if writeFails w then [Advance] else [Advance; ReRender])
        else [])
  /\ firing WidgetUpdater.rotateAndUpdate w
     = (if severalPhotos w
        then (if writeFails w then [Advance] else [Advance; ReRender])
        else [])
  /\ firing WidgetUpdater.widgetUpdateTask w
     = (if slideshowOfSeveral w
        then (if writeFails w then [Advance] else [Advance; ReRender])
        else (if somePhotos w then [ReRender] else [])).
Proof.
  split; [intros c; apply tap_fires_once|].
  split; [apply backgroundFetchTask_firing|].
  split; [apply rotateAndUpdate_firing | apply widgetUpdateTask_firing].
Qed.

(** ** The acquisition workflow *)

Lemma appendTrace_log (e : Event) (es : list Event) (w : World) :
  appendTrace es (log e w) = appendTrace (e :: es) w.
Proof.
  unfold appendTrace, log. simpl. rewrite <- app_assoc. reflexivity.
Qed.

Lemma succeededFrom_cons (R : Remote) (i : nat) (p : MediaItem) (rest : list MediaItem) :
  succeededFrom R i (p :: rest)
  = if downloadedOk R (i, p) then p :: succeededFrom R (S i) rest
    else succeededFrom R (S i) rest.
Proof.
  unfold succeededFrom. simpl.
  destruct (downloadedOk R (i, p)); reflexivity.
Qed.

Lemma downloadLoop_spec (R : Remote) : forall rest i total acc s,
  rest <> [] ->
  downloadLoop R i total rest acc s
  = (Ok (acc ++ map (toWidgetPhoto R) (succeededFrom R i rest))%list,
     withProgress s (appendTrace (downloadEvents rest) (world s))
       (Z.of_nat i + jsLength rest, total)).
Proof.
  induction rest as [|p rest IH]; intros i total acc s Hne; [congruence|].
  rewrite succeededFrom_cons.
  cbn [downloadLoop].
  unfold bind at 1. unfold setDownloadProgress at 1, modify at 1.
  unfold bind at 1, tryCatch at 1, downloadOne.
  unfold bind at 1, liftW at 1, emit at 1, modify at 1. cbn [world setWorld].
  unfold bind at 1, fromOutcome at 1, downloadedOk. cbn [fst snd].
  set (s1 := setWorld _ _).
  assert (Hnext : forall acc',
            downloadLoop R (S i) total rest acc' s1
            = (Ok (acc' ++ map (toWidgetPhoto R) (succeededFrom R (S i) rest))%list,
               withProgress s
                 (appendTrace (downloadEvents (p :: rest)) (world s))
                 (Z.of_nat i + jsLength (p :: rest), total))).
  { intros acc'. destruct rest as [|q rest'].
    - cbn [downloadLoop]. unfold ret, succeededFrom. simpl.
      rewrite app_nil_r. subst s1. unfold setWorld, withProgress, appendTrace, log.
      simpl. unfold jsLength. simpl. reflexivity.
    - rewrite IH by discriminate. f_equal.
      subst s1. unfold withProgress. cbn [world setWorld state sessionId
        selectedPhotos error downloadProgress pickerDisplayMode].
      rewrite appendTrace_log. f_equal. f_equal.
      unfold jsLength. cbn [List.length]. lia. }
  destruct (downloadResp R i p) as [status|msg].
  - destruct (status =? 200).
    + unfold ret at 1. rewrite Hnext. rewrite <- app_assoc. reflexivity.
    + unfold ret at 1. rewrite Hnext. reflexivity.
  - unfold ret at 1. rewrite Hnext. reflexivity.
Qed.

Lemma jsLength_pos {A : Type} (l : list A) : l <> [] -> (0 <? jsLength l) = true.
Proof.
  destruct l; [congruence|]. intros _. reflexivity.
Qed.

(** Symbolic execution of the screen's straight-line code. *)
Ltac run_picker :=
  cbv beta iota zeta delta
    [exec result fetchSelectedPhotos pollForSelection startPicker
     pickerWorkflow tryCatch bind ret throw gets modify fromOutcome
     setState setSessionId setSelectedPhotos setError setDownloadProgress
     liftW setWorld emit log sleep tick countPoll setStore
     withProgress appendTrace
     PhotosPickerApi.fetchPickerMediaItems PhotosPickerApi.deletePickerSession
     PhotosPickerApi.getPickerSession PhotosPickerApi.createPickerSession
     PhotosPickerApi.openBrowserAsync
     WidgetStorage.saveWidgetPhotos WidgetStorage.saveWidgetData
     WidgetStorage.requestWidgetUpdate
     world state sessionId selectedPhotos error downloadProgress pickerDisplayMode
     platformOS now store writeFails readBase64 polls trace
     fst snd negb isAndroid].


Lemma saves_app (a b : list Event) :
  saves (a ++ b) = (saves a ++ saves b)%list.
Proof.
  induction a as [|e a IH]; simpl; auto. destruct e; simpl; congruence.
Qed.

Lemma deletions_app (a b : list Event) :
  deletions (a ++ b) = (deletions a + deletions b)%nat.
Proof.
  induction a as [|e a IH]; simpl; auto. destruct e; simpl; congruence.
Qed.


Lemma saves_downloadEvents (items : list MediaItem) :
  saves (downloadEvents items) = [].
Proof.
  induction items as [|p items IH]; simpl; auto.
Qed.

Lemma deletions_downloadEvents (items : list MediaItem) :
  deletions (downloadEvents items) = 0%nat.
Proof.
  induction items as [|p items IH]; simpl; auto.
Qed.

Lemma writes_app (a b : list Event) :
  writes (a ++ b) = (writes a ++ writes b)%list.
Proof.
  induction a as [|e a IH]; simpl; auto. destruct e; simpl; congruence.
Qed.

Lemma writes_downloadEvents (items : list MediaItem) :
  writes (downloadEvents items) = [].
Proof.
  induction items as [|p items IH]; simpl; auto.
Qed.





(** *** Polling *)

Lemma afterUnready_spec (sessId : string) : forall n w,
  afterUnready sessId n w
  = {| platformOS := platformOS w;
       now := now w + 5000 * Z.of_nat n;
       store := store w;
       writeFails := writeFails w;
       readBase64 := readBase64 w;
       polls := polls w + n;
       trace := (trace w ++ unreadyEvents sessId n)%list |}.
Proof.
  induction n as [|n IH]; intros w.
  - destruct w. simpl. rewrite app_nil_r, Z.add_0_r, Nat.add_0_r. reflexivity.
  - cbn [afterUnready]. rewrite IH.
    unfold tick, log, countPoll. cbn [platformOS now store writeFails readBase64 polls trace].
    f_equal; try lia.
    repeat rewrite <- app_assoc. reflexivity.
Qed.

Lemma statusRequests_unready (sessId : string) (n : nat) :
  statusRequests (unreadyEvents sessId n) = n.
Proof.
  induction n as [|n IH]; simpl; congruence.
Qed.

Lemma sleptMs_unready (sessId : string) (n : nat) :
  sleptMs (unreadyEvents sessId n) = 5000 * Z.of_nat n.
Proof.
  induction n as [|n IH]; [reflexivity|].
  cbn [unreadyEvents sleptMs]. rewrite IH. lia.
Qed.

Lemma deletions_unready (sessId : string) (n : nat) :
  deletions (unreadyEvents sessId n) = 0%nat.
Proof.
  induction n as [|n IH]; simpl; auto.
Qed.

Lemma statusRequests_app (a b : list Event) :
  statusRequests (a ++ b) = (statusRequests a + statusRequests b)%nat.
Proof.
  induction a as [|e a IH]; simpl; auto. destruct e; simpl; congruence.
Qed.

Lemma sleptMs_app (a b : list Event) :
  sleptMs (a ++ b) = sleptMs a + sleptMs b.
Proof.
  induction a as [|e a IH]; simpl; auto. destruct e; simpl; lia.
Qed.

Lemma setWorld_same (s : Picker) : setWorld (world s) s = s.
Proof.
  destruct s. reflexivity.
Qed.

Lemma pollLoop_unready (R : Remote) (sessId : string) : forall n remaining s,
  unreadyFor R (polls (world s)) n ->
  pollLoop R sessId (n + remaining) s
  = pollLoop R sessId remaining (setWorld (afterUnready sessId n (world s)) s).
Proof.
  induction n as [|n IH]; intros remaining s Hun.
  - cbn [afterUnready Nat.add]. rewrite setWorld_same. reflexivity.
  - destruct (Hun 0%nat) as (session & Hresp & Hset); [lia|].
    rewrite Nat.add_0_r in Hresp.
    cbn [Nat.add pollLoop].
    unfold bind at 1, tryCatch at 1, bind at 1, liftW at 1,
      PhotosPickerApi.getPickerSession.
    unfold bind at 1, emit at 1, modify at 1.
    unfold bind at 1, gets at 1. cbn [polls log].
    unfold bind at 1, modify at 1, fromOutcome at 1.
    rewrite Hresp, Hset.
    unfold bind at 1, liftW at 1, sleep, modify at 1, ret at 1.
    cbn [world setWorld].
    rewrite IH.
    + cbn [world setWorld state sessionId selectedPhotos error
             downloadProgress pickerDisplayMode afterUnready].
      destruct s; reflexivity.
    + intros j Hj. cbn [world setWorld polls tick log countPoll].
      destruct (Hun (S j)) as (sj & Hj1 & Hj2); [lia|].
      exists sj. split; auto.
      replace (S (polls (world s)) + j)%nat with (polls (world s) + S j)%nat by lia.
      exact Hj1.
Qed.

Lemma waitLoop_unready (R : Remote) (sessId : string) : forall n remaining w,
  unreadyFor R (polls w) n ->
  PhotosPickerApi.waitLoop R sessId (n + remaining) w
  = PhotosPickerApi.waitLoop R sessId remaining (afterUnready sessId n w).
Proof.
  induction n as [|n IH]; intros remaining w Hun.
  - reflexivity.
  - destruct (Hun 0%nat) as (session & Hresp & Hset); [lia|].
    rewrite Nat.add_0_r in Hresp.
    cbn [Nat.add PhotosPickerApi.waitLoop].
    unfold bind at 1, tryCatch at 1, bind at 1,
      PhotosPickerApi.getPickerSession.
    unfold bind at 1, emit at 1, modify at 1.
    unfold bind at 1, gets at 1. cbn [polls log].
    unfold bind at 1, modify at 1, fromOutcome at 1.
    rewrite Hresp, Hset.
    unfold bind at 1, sleep, modify at 1, ret at 1.
    rewrite IH.
    + reflexivity.
    + intros j Hj. cbn [polls tick log countPoll].
      destruct (Hun (S j)) as (sj & Hj1 & Hj2); [lia|].
      exists sj. split; auto.
      replace (S (polls w) + j)%nat with (polls w + S j)%nat by lia.
      exact Hj1.
Qed.

Lemma fetchSelectedPhotos_returns (R : Remote) (sessId : string) (s : Picker) :
  exists s', fetchSelectedPhotos R sessId s = (Ok tt, s').
Proof.
  unfold fetchSelectedPhotos, tryCatch.
  match goal with
  | |- context [match ?m s with _ => _ end] => destruct (m s) as [[[]|msg] s1]
  end.
  - eexists; reflexivity.
  - eexists; reflexivity.
Qed.

(** C2, as stated, fails on "distinguishable": a time-out leaves the screen
    exactly as a failed status request does, with the same state and the
    same message. *)
Lemma timeout_shown_as_status_failure :
  ~ (shown (exec (pollForSelection neverReady "s1")
              (idleScreen (deviceWith None)))
     <> shown (exec (pollForSelection statusFails "s1")
                 (idleScreen (deviceWith None)))).
Proof.
  intros H. apply H. vm_compute. reflexivity.
Qed.

Lemma pollForSelection_timeout (R : Remote) (sessId : string) (s : Picker) :
  sessId <> EmptyString ->
  unreadyFor R (polls (world s)) 60 ->
  exec (pollForSelection R sessId) s
  = {| world := log (EvDeleteSession sessId) (afterUnready sessId 60 (world s));
       state := StError; sessionId := sessionId s;
       selectedPhotos := selectedPhotos s;
       error := Some "No photos were selected or the session timed out";
       downloadProgress := downloadProgress s;
       pickerDisplayMode := pickerDisplayMode s |}.
Proof.
  intros Hid Hun.
  unfold exec, pollForSelection, maxAttempts. unfold bind at 1.
  change 60%nat with (60 + 0)%nat.
  rewrite (@pollLoop_unready R sessId 60 0 s Hun).
  cbn [pollLoop]. unfold ret at 1.
  apply String.eqb_neq in Hid. rewrite Hid.
  run_picker. destruct (deleteSessionResp R); reflexivity.
Qed.

Lemma pollForSelection_status_failure
    (R : Remote) (sessId message : string) (s : Picker) (j : nat) :
  sessId <> EmptyString ->
  (1 <= j <= 60)%nat ->
  unreadyFor R (polls (world s)) (j - 1) ->
  getSessionResp R (polls (world s) + (j - 1)) = Throw message ->
  exec (pollForSelection R sessId) s
  = {| world := log (EvDeleteSession sessId) (readyAt sessId j (world s));
       state := StError; sessionId := sessionId s;
       selectedPhotos := selectedPhotos s;
       error := Some "No photos were selected or the session timed out";
       downloadProgress := downloadProgress s;
       pickerDisplayMode := pickerDisplayMode s |}.
Proof.
  intros Hid Hj Hun Hthrow.
  assert (Hsplit : (60 = (j - 1) + S (60 - j))%nat) by lia.
  assert (Hpolls : polls (afterUnready sessId (j - 1) (world s))
                   = (polls (world s) + (j - 1))%nat).
  { rewrite afterUnready_spec. reflexivity. }
  unfold exec, pollForSelection, maxAttempts. unfold bind at 1.
  rewrite Hsplit at 1.
  rewrite (@pollLoop_unready R sessId (j - 1) (S (60 - j)) s Hun).
  cbn [pollLoop].
  unfold bind at 1, tryCatch at 1, bind at 1, liftW at 1,
    PhotosPickerApi.getPickerSession.
  unfold bind at 1, emit at 1, modify at 1.
  unfold bind at 1, gets at 1. cbn [world setWorld].
  unfold bind at 1, modify at 1, fromOutcome at 1.
  cbn [polls log]. rewrite Hpolls, Hthrow.
  unfold ret at 1. unfold ret at 1.
  apply String.eqb_neq in Hid. rewrite Hid.
  unfold readyAt. destruct s as [w st sid sel err prog mode].
  run_picker. destruct (deleteSessionResp R); reflexivity.
Qed.

Lemma waitForPhotoSelection_timeout (R : Remote) (sessId : string) (w : World) :
  unreadyFor R (polls w) 60 ->
  PhotosPickerApi.waitForPhotoSelection R sessId w
  = (Ok false, afterUnready sessId 60 w).
Proof.
  intros Hun.
  unfold PhotosPickerApi.waitForPhotoSelection, PhotosPickerApi.maxAttempts.
  change (PhotosPickerApi.waitLoop R sessId 60)
    with (PhotosPickerApi.waitLoop R sessId (60 + 0)).
  rewrite (@waitLoop_unready R sessId 60 0 _ Hun). reflexivity.
Qed.

Lemma waitForPhotoSelection_status_failure
    (R : Remote) (sessId message : string) (w : World) (j : nat) :
  (1 <= j <= 60)%nat ->
  unreadyFor R (polls w) (j - 1) ->
  getSessionResp R (polls w + (j - 1)) = Throw message ->
  PhotosPickerApi.waitForPhotoSelection R sessId w
  = (Ok false, readyAt sessId j w).
Proof.
  intros Hj Hun Hthrow.
  assert (Hsplit : (60 = (j - 1) + S (60 - j))%nat) by lia.
  assert (Hpolls : polls (afterUnready sessId (j - 1) w)
                   = (polls w + (j - 1))%nat).
  { rewrite afterUnready_spec. reflexivity. }
  unfold PhotosPickerApi.waitForPhotoSelection, PhotosPickerApi.maxAttempts.
  rewrite Hsplit at 1.
  rewrite (@waitLoop_unready R sessId (j - 1) (S (60 - j)) _ Hun).
  cbn [PhotosPickerApi.waitLoop].
  unfold bind at 1, tryCatch at 1, bind at 1,
    PhotosPickerApi.getPickerSession.
  unfold bind at 1, emit at 1, modify at 1.
  unfold bind at 1, gets at 1.
  unfold bind at 1, modify at 1, fromOutcome at 1.
  cbn [polls log]. rewrite Hpolls, Hthrow.
  unfold readyAt. rewrite afterUnready_spec. reflexivity.
Qed.

(** [pickPhotos] when the wait for the selection returns [false]: the
    deletion of the session is requested, outside any [try], and the empty
    list is returned when it returns. *)
Lemma pickPhotos_no_selection
    (R : Remote) (w w1 : World) (session : PickerSession) :
  createSessionResp R = Ok session ->
  openBrowserResp R = Ok tt ->
  ps_id session <> EmptyString ->
  PhotosPickerApi.waitForPhotoSelection R (ps_id session)
    (pickerDismissed session w) = (Ok false, w1) ->
  PhotosPickerApi.pickPhotos R w
  = (emptyUnlessDeletionThrows R, log (EvDeleteSession (ps_id session)) w1).
Proof.
  intros Hc Hb Hid Hwait.
  apply String.eqb_neq in Hid.
  unfold PhotosPickerApi.pickPhotos, PhotosPickerApi.openPhotoPicker.
  unfold bind at 1, tryCatch at 1, bind at 1,
    PhotosPickerApi.createPickerSession.
  unfold bind at 1, emit at 1, modify at 1, fromOutcome at 1. rewrite Hc.
  unfold bind at 1, PhotosPickerApi.openBrowserAsync.
  unfold bind at 1, emit at 1, modify at 1, fromOutcome at 1. rewrite Hb.
  unfold ret at 1. rewrite Hid.
  unfold bind at 1, sleep at 1, modify at 1.
  unfold bind at 1.
  change (tick 2000 (log (EvSleep 2000)
            (log (EvOpenBrowser (pickerUri session)) (log EvCreateSession w))))
    with (pickerDismissed session w).
  rewrite Hwait. cbn [negb].
  unfold emptyUnlessDeletionThrows.
  cbv beta iota delta [bind PhotosPickerApi.deletePickerSession emit modify
                       fromOutcome ret].
  destruct (deleteSessionResp R) as [[]|m]; reflexivity.
Qed.

Lemma pickerDismissed_trace (session : PickerSession) (w : World) :
  trace (pickerDismissed session w)
  = (trace w ++ [EvCreateSession; EvOpenBrowser (pickerUri session);
                 EvSleep 2000])%list.
Proof.
  unfold pickerDismissed. cbn [tick log trace].
  repeat rewrite <- app_assoc. reflexivity.
Qed.

(** C2, amended.  When every status request finds the selection not ready,
    [pollForSelection] sends exactly 60 status requests, each followed by a
    five-second wait, then shows the error state with the message
    "No photos were selected or the session timed out" and requests the
    deletion of the session exactly once (the session id is not empty);
    the stored record is untouched.  The same state and message are shown
    when a status request throws, at whichever of the 60 attempts, so the
    screen does not tell a time-out from a transport failure.
    [waitForPhotoSelection] returns [false] in both cases, after 60
    requests on a time-out; [pickPhotos] then requests the deletion of the
    session once and returns the empty list when the deletion returns, and
    throws the deletion's error when it throws. *)
Theorem poll_times_out_after_60_attempts
    (R : Remote) (sessId : string) (s : Picker) :
  sessId <> EmptyString ->
  unreadyFor R (polls (world s)) 60 ->
  let s' := exec (pollForSelection R sessId) s in
  let new := newEvents (world s) (world s') in
  new = (unreadyEvents sessId 60 ++ [EvDeleteSession sessId])%list
  /\ statusRequests new = 60%nat
  /\ polls (world s') = (polls (world s) + 60)%nat
  /\ sleptMs new = 300000
  /\ state s' = StError
  /\ error s' = Some "No photos were selected or the session timed out"
  /\ deletions new = 1%nat
  /\ store (world s') = store (world s)
  /\ result (PhotosPickerApi.waitForPhotoSelection R sessId) (world s) = Ok false
  /\ polls (exec (PhotosPickerApi.waitForPhotoSelection R sessId) (world s))
     = (polls (world s) + 60)%nat
  /\ (forall session,
        createSessionResp R = Ok session -> openBrowserResp R = Ok tt ->
        ps_id session <> EmptyString ->
        let picked := newEvents (world s)
                        (exec (PhotosPickerApi.pickPhotos R) (world s)) in
        statusRequests picked = 60%nat
        /\ deletions picked = 1%nat
        /\ result (PhotosPickerApi.pickPhotos R) (world s)
           = emptyUnlessDeletionThrows R)
  /\ (forall R' j,
        failsOnAttempt R' (polls (world s)) j ->
        shown (exec (pollForSelection R' sessId) s) = shown s'
        /\ statusRequests
             (newEvents (world s) (world (exec (pollForSelection R' sessId) s)))
           = j
        /\ result (PhotosPickerApi.waitForPhotoSelection R' sessId) (world s)
           = Ok false
        /\ (forall session,
              createSessionResp R' = Ok session -> openBrowserResp R' = Ok tt ->
              ps_id session <> EmptyString ->
              let picked := newEvents (world s)
                              (exec (PhotosPickerApi.pickPhotos R') (world s)) in
              statusRequests picked = j
              /\ deletions picked = 1%nat
              /\ result (PhotosPickerApi.pickPhotos R') (world s)
                 = emptyUnlessDeletionThrows R')).
Proof.
  intros Hid Hun s' new.
  pose proof (pollForSelection_timeout s Hid Hun) as Hend. fold s' in Hend.
  assert (Hnew : new = (unreadyEvents sessId 60 ++ [EvDeleteSession sessId])%list).
  { subst new. rewrite Hend. cbn [world]. apply newEvents_app.
    rewrite afterUnready_spec. cbn [log trace].
    rewrite <- app_assoc. reflexivity. }
  clearbody s' new. subst s' new.
  cbn [world state error].
  rewrite statusRequests_app, sleptMs_app, deletions_app,
    statusRequests_unready, sleptMs_unready, deletions_unready.
  rewrite afterUnready_spec. cbn [log polls store].
  split; [reflexivity|].
  split; [reflexivity|]. split; [reflexivity|]. split; [reflexivity|].
  split; [reflexivity|]. split; [reflexivity|]. split; [reflexivity|].
  split; [reflexivity|].
  split; [|split; [|split]].
  - unfold result. rewrite (waitForPhotoSelection_timeout sessId _ Hun).
    reflexivity.
  - unfold exec. rewrite (waitForPhotoSelection_timeout sessId _ Hun).
    cbn [snd]. rewrite afterUnready_spec. reflexivity.
  - intros session Hc Hb Hne.
    set (picked := newEvents (world s)
                     (exec (PhotosPickerApi.pickPhotos R) (world s))).
    assert (Hrun := @pickPhotos_no_selection R (world s)
                      (afterUnready (ps_id session) 60 (pickerDismissed session (world s)))
                      session Hc Hb Hne
                      (waitForPhotoSelection_timeout (ps_id session)
                         (pickerDismissed session (world s)) Hun)).
    assert (Hpicked : picked
                      = ([EvCreateSession; EvOpenBrowser (pickerUri session);
                          EvSleep 2000]
                         ++ unreadyEvents (ps_id session) 60
                         ++ [EvDeleteSession (ps_id session)])%list).
    { subst picked. unfold exec. rewrite Hrun. apply newEvents_app.
      cbn [snd log trace]. rewrite afterUnready_spec. cbn [trace].
      rewrite pickerDismissed_trace.
      repeat rewrite <- app_assoc. reflexivity. }
    clearbody picked. subst picked.
    rewrite !statusRequests_app, !deletions_app, statusRequests_unready,
      deletions_unready.
    unfold result. rewrite Hrun. repeat split.
  - intros R' j (Hj & Hun' & message & Hthrow).
    pose proof (pollForSelection_status_failure s Hid Hj Hun' Hthrow) as Hfail.
    rewrite Hfail. unfold shown. cbn [world state error].
    split; [reflexivity|]. split; [|split].
    + rewrite (@newEvents_app (world s) _
                 (unreadyEvents sessId (j - 1)
                  ++ [EvGetSession sessId; EvDeleteSession sessId])).
      * rewrite statusRequests_app, statusRequests_unready.
        cbn [statusRequests]. lia.
      * unfold readyAt. rewrite afterUnready_spec. cbn [countPoll log trace].
        repeat rewrite <- app_assoc. reflexivity.
    + unfold result.
      rewrite (waitForPhotoSelection_status_failure sessId _ Hj Hun' Hthrow).
      reflexivity.
    + intros session Hc Hb Hne.
      set (picked := newEvents (world s)
                       (exec (PhotosPickerApi.pickPhotos R') (world s))).
      assert (Hrun := @pickPhotos_no_selection R' (world s)
                        (readyAt (ps_id session) j (pickerDismissed session (world s)))
                        session Hc Hb Hne
                        (waitForPhotoSelection_status_failure (ps_id session)
                           (pickerDismissed session (world s)) Hj Hun' Hthrow)).
      assert (Hpicked : picked
                        = ([EvCreateSession; EvOpenBrowser (pickerUri session);
                            EvSleep 2000]
                           ++ unreadyEvents (ps_id session) (j - 1)
                           ++ [EvGetSession (ps_id session);
                               EvDeleteSession (ps_id session)])%list).
      { subst picked. unfold exec. rewrite Hrun. apply newEvents_app.
        cbn [snd log trace]. unfold readyAt. rewrite afterUnready_spec.
        cbn [countPoll log trace]. rewrite pickerDismissed_trace.
        repeat rewrite <- app_assoc. reflexivity. }
      clearbody picked. subst picked.
      rewrite !statusRequests_app, !deletions_app, statusRequests_unready,
        deletions_unready.
      unfold result. rewrite Hrun. cbn [statusRequests deletions fst].
      repeat split; lia.
Qed.

Lemma poll_times_out_after_60_attempts_witness :
  statusRequests
    (newEvents (deviceWith None)
       (world (exec (pollForSelection neverReady "s1")
                 (idleScreen (deviceWith None))))) = 60%nat
  /\ deletions
       (newEvents (deviceWith None)
          (world (exec (pollForSelection neverReady "s1")
                    (idleScreen (deviceWith None))))) = 1%nat
  /\ result (PhotosPickerApi.pickPhotos neverReady) (deviceWith None) = Ok []
  /\ shown (exec (pollForSelection thirdStatusFails "s1")
              (idleScreen (deviceWith None)))
     = shown (exec (pollForSelection neverReady "s1")
                (idleScreen (deviceWith None))).
Proof.
  assert (Hid : "s1" <> EmptyString) by discriminate.
  assert (Hun : unreadyFor neverReady
                  (polls (world (idleScreen (deviceWith None)))) 60).
  { intros j _. exists (sessionOf false). split; reflexivity. }
  assert (Hfail : failsOnAttempt thirdStatusFails
                    (polls (world (idleScreen (deviceWith None)))) 3).
  { split; [lia|]. split.
    - intros j Hj. exists (sessionOf false).
      destruct j as [|[|j]];
        [split; reflexivity | split; reflexivity | simpl in Hj; lia].
    - exists "Failed to get picker session: 503". reflexivity. }
  pose proof (@poll_times_out_after_60_attempts neverReady "s1"
                (idleScreen (deviceWith None)) Hid Hun) as H.
  cbv zeta in H.
  destruct H as (_ & H1 & _ & _ & _ & _ & H6 & _ & _ & _ & Hpick & Hsame).
  split; [exact H1 | split; [exact H6 | split]].
  - exact (proj2 (proj2 (Hpick (sessionOf false) eq_refl eq_refl Hid))).
  - exact (proj1 (Hsame thirdStatusFails 3%nat Hfail)).
Defined.

(** C3.  When the first [k - 1] status requests find the selection not
    ready and the [k]-th finds it ready, for 1 <= k <= 60, the polling loop
    hands over to [fetchSelectedPhotos] (whose first act is to enter the
    fetching state) in the world [readyAt sessId k]: exactly [k] status
    requests have been sent and exactly [(k - 1) * 5000] milliseconds slept,
    a five-second wait following each unready answer and nothing else.
    [waitForPhotoSelection] returns [true] in that same world. *)
Theorem selection_ready_on_attempt
    (R : Remote) (sessId : string) (s : Picker) (k : nat) :
  (1 <= k <= 60)%nat ->
  unreadyFor R (polls (world s)) (k - 1) ->
  (exists session, getSessionResp R (polls (world s) + (k - 1)) = Ok session
                   /\ mediaItemsSet session = true) ->
  let w1 := readyAt sessId k (world s) in
  pollForSelection R sessId s = fetchSelectedPhotos R sessId (setWorld w1 s)
  /\ state (exec (setState StFetchingPhotos) (setWorld w1 s)) = StFetchingPhotos
  /\ PhotosPickerApi.waitForPhotoSelection R sessId (world s) = (Ok true, w1)
  /\ statusRequests (newEvents (world s) w1) = k
  /\ polls w1 = (polls (world s) + k)%nat
  /\ sleptMs (newEvents (world s) w1) = (Z.of_nat k - 1) * 5000
  /\ now w1 = now (world s) + (Z.of_nat k - 1) * 5000
  /\ newEvents (world s) w1
     = (unreadyEvents sessId (k - 1) ++ [EvGetSession sessId])%list.
Proof.
  intros Hk Hun (session & Hresp & Hset) w1.
  assert (Hsplit : (60 = (k - 1) + S (60 - k))%nat) by lia.
  assert (Hpolls : polls (afterUnready sessId (k - 1) (world s))
                   = (polls (world s) + (k - 1))%nat).
  { rewrite afterUnready_spec. reflexivity. }
  assert (Hnew : newEvents (world s) w1
                 = (unreadyEvents sessId (k - 1) ++ [EvGetSession sessId])%list).
  { apply newEvents_app. subst w1. unfold readyAt.
    rewrite afterUnready_spec. cbn [countPoll log trace].
    rewrite <- app_assoc. reflexivity. }
  split; [|split; [|split]].
  - unfold pollForSelection, maxAttempts. unfold bind at 1.
    rewrite Hsplit at 1.
    rewrite (@pollLoop_unready R sessId (k - 1) (S (60 - k)) s Hun).
    cbn [pollLoop].
    unfold bind at 1, tryCatch at 1, bind at 1, liftW at 1,
      PhotosPickerApi.getPickerSession.
    unfold bind at 1, emit at 1, modify at 1.
    unfold bind at 1, gets at 1. cbn [world setWorld].
    unfold bind at 1, modify at 1, fromOutcome at 1.
    cbn [polls log]. rewrite Hpolls, Hresp, Hset.
    unfold bind at 1.
    replace (setWorld _ (setWorld _ s)) with (setWorld w1 s)
      by (destruct s; reflexivity).
    destruct (fetchSelectedPhotos_returns R sessId (setWorld w1 s)) as (s2 & Hf).
    rewrite Hf. reflexivity.
  - reflexivity.
  - unfold PhotosPickerApi.waitForPhotoSelection, PhotosPickerApi.maxAttempts.
    rewrite Hsplit at 1.
    rewrite (@waitLoop_unready R sessId (k - 1) (S (60 - k)) _ Hun).
    cbn [PhotosPickerApi.waitLoop].
    unfold bind at 1, tryCatch at 1, bind at 1,
      PhotosPickerApi.getPickerSession.
    unfold bind at 1, emit at 1, modify at 1.
    unfold bind at 1, gets at 1.
    unfold bind at 1, modify at 1, fromOutcome at 1.
    cbn [polls log]. rewrite Hpolls, Hresp, Hset. reflexivity.
  - rewrite Hnew, statusRequests_app, sleptMs_app,
      statusRequests_unready, sleptMs_unready.
    subst w1. unfold readyAt. rewrite afterUnready_spec.
    cbn [countPoll log polls now statusRequests sleptMs].
    repeat split; lia.
Qed.

Lemma selection_ready_on_attempt_witness :
  statusRequests
    (newEvents (deviceWith None) (readyAt "s1" 3 (deviceWith None))) = 3%nat
  /\ sleptMs
       (newEvents (deviceWith None) (readyAt "s1" 3 (deviceWith None))) = 10000.
Proof.
  assert (Hk : (1 <= 3 <= 60)%nat) by lia.
  assert (Hun : unreadyFor (readyOnAttempt 3)
                  (polls (world (idleScreen (deviceWith None)))) (3 - 1)).
  { intros j Hj. exists (sessionOf false).
    destruct j as [|[|j]]; [split; reflexivity | split; reflexivity | simpl in Hj; lia]. }
  assert (Hready : exists session,
             getSessionResp (readyOnAttempt 3)
               (polls (world (idleScreen (deviceWith None))) + (3 - 1)) = Ok session
             /\ mediaItemsSet session = true).
  { exists (sessionOf true). split; reflexivity. }
  pose proof (@selection_ready_on_attempt (readyOnAttempt 3) "s1"
                (idleScreen (deviceWith None)) 3 Hk Hun Hready) as H.
  cbv zeta in H.
  destruct H as (_ & _ & _ & H4 & _ & H6 & _).
  split; [exact H4 | exact H6].
Defined.

(** *** Session cleanup *)

(** C4 at a failing input: the session is created, the browser closes, the
    first status request finds the selection ready, and the media-item
    request throws.  [startPicker] itself returns in the polling state with
    the polling of session s1 left running; when that polling has come to
    rest, the workflow is in the error state with the session id still
    held, and no deletion of the session was requested at any point. *)
Theorem media_item_failure_skips_cleanup :
  let s0 := exec (startPicker mediaItemsFail) (idleScreen (deviceWith None)) in
  let s' := exec (pickerWorkflow mediaItemsFail) (idleScreen (deviceWith None)) in
  result (startPicker mediaItemsFail) (idleScreen (deviceWith None))
  = Ok (Some "s1")
  /\ state s0 = StPolling
  /\ trace (world s0) = [EvCreateSession; EvOpenBrowser "https://picker.example/s1"]
  /\ state s' = StError
  /\ sessionId s' = Some "s1"
  /\ error s' = Some "Failed to fetch picker media items: 500"
  /\ trace (world s')
     = [EvCreateSession; EvOpenBrowser "https://picker.example/s1";
        EvGetSession "s1"; EvFetchMediaItems "s1"]
  /\ deletions (trace (world s')) = 0%nat.
Proof.
  vm_compute. repeat split; reflexivity.
Qed.

(** ** The rotation interval *)

Ltac run_settings :=
  cbv beta iota zeta delta
    [exec result SettingsScreen.handleCustomIntervalSubmit
     SettingsScreen.handleIntervalChange SettingsScreen.updateRotationInterval
     SettingsScreen.registerBackgroundFetch SettingsScreen.stopRotationService
     SettingsScreen.startRotationService
     SettingsScreen.setRotationInterval SettingsScreen.setShowCustomModal
     SettingsScreen.liftW SettingsScreen.setWorld
     SettingsScreen.world SettingsScreen.backgroundFetchEnabled
     SettingsScreen.foregroundServiceEnabled SettingsScreen.rotationInterval
     SettingsScreen.showCustomModal SettingsScreen.customIntervalInput
     WidgetStorage.getWidgetData WidgetStorage.saveWidgetData
     tryCatch bind ret throw gets modify emit log setStore fromOutcome
     platformOS now store writeFails readBase64 polls trace
     fst snd negb isAndroid].

(** Case analysis on what the collaborators of the settings screen answer. *)
Ltac settings_cases :=
  repeat match goal with
         | |- context [SettingsScreen.updateRotationIntervalResp ?E ?n ?r] =>
             destruct (SettingsScreen.updateRotationIntervalResp E n r)
         | |- context [SettingsScreen.rotationModule ?E] =>
             destruct (SettingsScreen.rotationModule E)
         | |- context [SettingsScreen.stopServiceResp ?E] =>
             destruct (SettingsScreen.stopServiceResp E)
         | |- context [SettingsScreen.startServiceResp ?E ?n] =>
             destruct (SettingsScreen.startServiceResp E n)
         end; run_settings.

(** Normalises [newEvents] of a run of the settings screen. *)
Ltac settings_events :=
  unfold newEvents; cbn [trace SettingsScreen.world];
  repeat rewrite <- app_assoc;
  try rewrite skipn_prefix;
  try (rewrite <- (app_nil_r (trace _)) at 2; rewrite skipn_prefix);
  cbn [app serviceStarts intervalUpdates alerts hd_error].





(** ** Merging local photos into the widget set *)

Lemma copyLoop_spec (L : PhotosScreen.Library) : forall rest acc w current,
  PhotosScreen.copyLoop L rest acc
    {| PhotosScreen.world := w; PhotosScreen.widgetData := current |}
  = (Ok (acc ++ addedPhotos L (now w) rest)%list,
     {| PhotosScreen.world := appendTrace (copyEvents rest) w;
        PhotosScreen.widgetData := current |}).
Proof.
  induction rest as [|a rest IH]; intros acc w current.
  - cbn [PhotosScreen.copyLoop]. unfold ret, addedPhotos, appendTrace.
    simpl. rewrite !app_nil_r. destruct w; reflexivity.
  - cbn [PhotosScreen.copyLoop].
    unfold bind at 1, tryCatch at 1, PhotosScreen.copyOne.
    unfold bind at 1, gets at 1.
    unfold bind at 1, PhotosScreen.liftW at 1, emit at 1, modify at 1.
    cbn [PhotosScreen.world PhotosScreen.setWorld PhotosScreen.widgetData].
    unfold addedPhotos, copied. cbn [filter].
    destruct (PhotosScreen.copyFails L (PhotosScreen.uri a)); cbn [negb];
      cbv beta iota delta [throw ret PhotosScreen.setWorld
                             PhotosScreen.world PhotosScreen.widgetData];
      rewrite IH; cbn [now log]; rewrite appendTrace_log;
      unfold addedPhotos, copied; cbn [map]; rewrite <- ?app_assoc; reflexivity.
Qed.

(** C9, as stated, fails: adding a picture whose file name is the id of a
    photo already in the set stores both entries. *)
Lemma merge_keeps_colliding_ids :
  storedIds (PhotosScreen.world
               (exec (PhotosScreen.handleAddLocalPhotos pickOneNamedA)
                  (photosTab (deviceWith (Some (recordOf [photoA] 0 single))))))
  = ["a.jpg"; "a.jpg"]
  /\ ~ NoDup (storedIds
                (PhotosScreen.world
                   (exec (PhotosScreen.handleAddLocalPhotos pickOneNamedA)
                      (photosTab (deviceWith (Some (recordOf [photoA] 0 single))))))).
Proof.
  assert (H : storedIds
                (PhotosScreen.world
                   (exec (PhotosScreen.handleAddLocalPhotos pickOneNamedA)
                      (photosTab (deviceWith (Some (recordOf [photoA] 0 single))))))
              = ["a.jpg"; "a.jpg"]) by (vm_compute; reflexivity).
  split; [exact H|].
  rewrite H. intros Hnd. inversion Hnd as [|x l Hnotin _]; subst.
  apply Hnotin. left. reflexivity.
Qed.

Lemma NoDup_app_iff {A : Type} (l k : list A) :
  NoDup (l ++ k) <-> NoDup l /\ NoDup k /\ (forall x, In x l -> ~ In x k).
Proof.
  split.
  - intros H. split; [eapply NoDup_app_remove_r; eauto|].
    split; [eapply NoDup_app_remove_l; eauto|].
    induction l as [|a l IH]; [intros x []|].
    simpl in H. apply NoDup_cons_iff in H as [Hnotin Hnd].
    intros x [->|Hin].
    + intros Hk. apply Hnotin. apply in_or_app. right. exact Hk.
    + apply IH; assumption.
  - intros (Hl & Hk & Hdisj). apply NoDup_app; assumption.
Qed.

(** C9, amended.  [handleAddLocalPhotos] appends: when at least one copy
    succeeds (permission granted, selection not cancelled, on Android, the
    write succeeding), the stored photos are the photos the screen had
    loaded followed by one photo per copied asset, in order, with no
    comparison of ids.  The stored ids are therefore pairwise distinct
    exactly when the loaded ids are, the added file names are, and no added
    file name is a loaded id. *)
Theorem merge_appends_without_deduplication
    (L : PhotosScreen.Library) (s : PhotosScreen.Photos) :
  PhotosScreen.permissionGranted L = true ->
  PhotosScreen.canceled L = false ->
  platformOS (PhotosScreen.world s) = android ->
  writeFails (PhotosScreen.world s) = false ->
  let added := addedPhotos L (now (PhotosScreen.world s)) (PhotosScreen.assets L) in
  let existing := match PhotosScreen.widgetData s with
                  | Some d => photos d
                  | None => []
                  end in
  let s' := exec (PhotosScreen.handleAddLocalPhotos L) s in
  added <> [] ->
  option_map photos (store (PhotosScreen.world s')) = Some (existing ++ added)%list
  /\ option_map currentIndex (store (PhotosScreen.world s')) = Some 0
  /\ PhotosScreen.widgetData s' = store (PhotosScreen.world s')
  /\ storedIds (PhotosScreen.world s')
     = (map wp_id existing ++ map wp_id added)%list
  /\ (NoDup (storedIds (PhotosScreen.world s'))
      <-> NoDup (map wp_id existing) /\ NoDup (map wp_id added)
          /\ (forall x, In x (map wp_id existing) -> ~ In x (map wp_id added))).
Proof.
  intros Hperm Hcancel Hos Hwf added existing s' Hadded.
  destruct s as [w current]. destruct w as [os t sto wf rb pl tr].
  cbn [PhotosScreen.world PhotosScreen.widgetData platformOS writeFails now] in *.
  subst os wf.
  assert (Hassets : (jsLength (PhotosScreen.assets L) =? 0) = false).
  { destruct (PhotosScreen.assets L) as [|a l] eqn:E; [|reflexivity].
    exfalso. apply Hadded. subst added. rewrite ?E. reflexivity. }
  set (record := committed (existing ++ added)
                  (if 1 <? jsLength (existing ++ added)%list
                   then slideshow else single) t).
  assert (Hs' : exists w', s' = {| PhotosScreen.world := w';
                                   PhotosScreen.widgetData := Some record |}
                           /\ store w' = Some record).
  { subst s'. unfold exec, PhotosScreen.handleAddLocalPhotos.
    unfold tryCatch at 1. rewrite Hperm, Hcancel, Hassets. cbn [negb orb].
    unfold bind at 1. rewrite copyLoop_spec. cbn [app now].
    fold added. rewrite (jsLength_pos Hadded).
    unfold bind at 1, gets at 1. cbn [PhotosScreen.widgetData].
    fold existing.
    cbv beta iota zeta delta
      [bind ret gets modify emit log setStore tryCatch appendTrace
       PhotosScreen.liftW PhotosScreen.setWorld PhotosScreen.loadWidgetData
       PhotosScreen.setWidgetData PhotosScreen.world PhotosScreen.widgetData
       WidgetStorage.saveWidgetPhotos WidgetStorage.saveWidgetData
       WidgetStorage.requestWidgetUpdate WidgetStorage.getWidgetData
       platformOS now store writeFails readBase64 polls trace
       fst snd negb isAndroid].
    eexists. split; reflexivity. }
  destruct Hs' as (w' & Hs' & Hw').
  assert (Hrun : store (PhotosScreen.world s') = Some record
                 /\ PhotosScreen.widgetData s' = store (PhotosScreen.world s')).
  { rewrite Hs'. cbn [PhotosScreen.world PhotosScreen.widgetData].
    rewrite Hw'. split; reflexivity. }
  clearbody s'.
  destruct Hrun as (Hstore & Hloaded).
  assert (Hids : storedIds (PhotosScreen.world s')
                 = (map wp_id existing ++ map wp_id added)%list).
  { unfold storedIds. rewrite Hstore. subst record. cbn [photos committed].
    apply map_app. }
  split; [rewrite Hstore; reflexivity|].
  split; [rewrite Hstore; reflexivity|].
  split; [exact Hloaded|].
  split; [exact Hids|].
  rewrite Hids. apply NoDup_app_iff.
Qed.

Lemma merge_appends_without_deduplication_witness :
  storedIds (PhotosScreen.world
               (exec (PhotosScreen.handleAddLocalPhotos pickOneNamedA)
                  (photosTab (deviceWith (Some (recordOf [photoB] 0 single))))))
  = ["b.jpg"; "a.jpg"].
Proof.
  assert (Hadded : addedPhotos pickOneNamedA
                     (now (PhotosScreen.world
                             (photosTab (deviceWith (Some (recordOf [photoB] 0 single))))))
                     (PhotosScreen.assets pickOneNamedA) <> [])
    by (vm_compute; discriminate).
  pose proof (@merge_appends_without_deduplication pickOneNamedA
                (photosTab (deviceWith (Some (recordOf [photoB] 0 single))))
                eq_refl eq_refl eq_refl eq_refl) as H.
  cbv zeta in H.
  destruct (H Hadded) as (_ & _ & _ & Hids & _).
  exact Hids.
Defined.

(** ** [parseInt] reads back what [toString] prints *)

Lemma digitsFrom_acc (d : Decimal.uint) : forall acc : positive,
  digitsFrom (NilEmpty.string_of_uint d) (Z.pos acc)
  = Z.pos (Pos.of_uint_acc d acc).
Proof.
  induction d; intros acc;
    cbn [NilEmpty.string_of_uint digitsFrom Pos.of_uint_acc];
    try reflexivity;
    match goal with
    | |- context [digitValue ?c] =>
        let v := eval vm_compute in (digitValue c) in
        change (digitValue c) with v; cbv beta iota
    end;
    match goal with
    | |- digitsFrom _ ?z = Z.pos (Pos.of_uint_acc _ ?q) =>
        replace z with (Z.pos q) by lia
    end; apply IHd.
Qed.

Lemma digitsFrom_zero (d : Decimal.uint) :
  digitsFrom (NilEmpty.string_of_uint d) 0 = Z.of_N (Pos.of_uint d).
Proof.
  induction d; cbn [NilEmpty.string_of_uint digitsFrom Pos.of_uint];
    try reflexivity;
    match goal with
    | |- context [digitValue ?c] =>
        let v := eval vm_compute in (digitValue c) in
        change (digitValue c) with v; cbv beta iota
    end;
    try exact IHd;
    match goal with
    | |- digitsFrom _ ?z = _ =>
        let v := eval vm_compute in z in change z with v
    end; rewrite digitsFrom_acc; reflexivity.
Qed.

Lemma leadingDigits_uint (d : Decimal.uint) :
  d <> Decimal.Nil ->
  leadingDigits (NilEmpty.string_of_uint d) = Some (Z.of_N (Pos.of_uint d)).
Proof.
  intros Hd. rewrite <- digitsFrom_zero.
  destruct d; try congruence; reflexivity.
Qed.

Lemma skipWhiteSpace_ascii (c : ascii) (rest : string) :
  (nat_of_ascii c < 128)%nat ->
  isWhiteSpace c = false ->
  skipWhiteSpace (String c rest) = String c rest.
Proof.
  intros Hc Hw. cbn [skipWhiteSpace]. rewrite Hw.
  destruct rest as [|c2 rest2]; [reflexivity|].
  assert (H2 : isWhiteSpace2 c c2 = false).
  { unfold isWhiteSpace2.
    destruct (Nat.eqb_spec (nat_of_ascii c) 194); [lia | reflexivity]. }
  rewrite H2.
  destruct rest2 as [|c3 rest3]; [reflexivity|].
  assert (H3 : isWhiteSpace3 c c2 c3 = false).
  { unfold isWhiteSpace3.
    destruct (Nat.eqb_spec (nat_of_ascii c) 225); [lia|].
    destruct (Nat.eqb_spec (nat_of_ascii c) 226); [lia|].
    destruct (Nat.eqb_spec (nat_of_ascii c) 227); [lia|].
    destruct (Nat.eqb_spec (nat_of_ascii c) 239); [lia|].
    reflexivity. }
  rewrite H3. reflexivity.
Qed.

Lemma parseInt10_digits (d : Decimal.uint) :
  d <> Decimal.Nil ->
  parseInt10 (NilEmpty.string_of_uint d)
  = leadingDigits (NilEmpty.string_of_uint d).
Proof.
  intros Hd. unfold parseInt10.
  destruct d; try congruence; cbn [NilEmpty.string_of_uint];
    rewrite skipWhiteSpace_ascii by (vm_compute; (lia || reflexivity));
    reflexivity.
Qed.

Lemma to_uint_not_nil (p : positive) : Pos.to_uint p <> Decimal.Nil.
Proof.
  intros H. pose proof (DecimalPos.Unsigned.of_to p) as E.
  rewrite H in E. discriminate.
Qed.

Lemma parseInt10_minus (s : string) :
  parseInt10 (String "-" s) = option_map Z.opp (leadingDigits s).
Proof.
  unfold parseInt10.
  rewrite skipWhiteSpace_ascii by (vm_compute; (lia || reflexivity)).
  reflexivity.
Qed.

Lemma string_of_uint_not_nil (d : Decimal.uint) :
  d <> Decimal.Nil -> NilZero.string_of_uint d = NilEmpty.string_of_uint d.
Proof. destruct d; congruence || reflexivity. Qed.

Lemma parseInt10_toString (z : Z) : parseInt10 (jsNumberToString z) = Some z.
Proof.
  unfold jsNumberToString.
  destruct z as [|p|p]; [reflexivity| |];
    cbn [Z.to_int NilZero.string_of_int];
    rewrite (string_of_uint_not_nil (to_uint_not_nil p)).
  - rewrite parseInt10_digits, leadingDigits_uint by apply to_uint_not_nil.
    rewrite DecimalPos.Unsigned.of_to. reflexivity.
  - rewrite parseInt10_minus, leadingDigits_uint by apply to_uint_not_nil.
    rewrite DecimalPos.Unsigned.of_to. reflexivity.
Qed.

Lemma jsNumberToString_not_empty (z : Z) :
  String.eqb (jsNumberToString z) EmptyString = false.
Proof.
  destruct (jsNumberToString z) eqn:E; [|reflexivity].
  pose proof (parseInt10_toString z) as H. rewrite E in H. discriminate.
Qed.

(** ** The secure token store *)

Import SecureStorage.

Ltac run_secure :=
  cbv beta iota zeta delta
    [exec result tryCatch bind ret throw gets modify
     saveTokens getTokens getAccessToken getRefreshToken isTokenExpired
     clearAuthData setItemAsync getItemAsync deleteItemAsync setItems
     GoogleAuth.getValidAccessToken GoogleAuth.refreshAccessToken
     GoogleAuth.fetchRefresh GoogleAuth.isAuthenticated
     items unavailable clock refreshCalls fst snd].

Ltac key_eqb :=
  repeat match goal with
  | |- context [String.eqb ?a ?b] =>
      let v := eval vm_compute in (String.eqb a b) in
      match v with
      | true => change (String.eqb a b) with true
      | false => change (String.eqb a b) with false
      end
  end; cbv iota.

Lemma lookup_remove (k k' : string) (l : list (string * string)) :
  lookup k (remove k' l) = if String.eqb k' k then None else lookup k l.
Proof.
  induction l as [|[a v] l IH]; cbn [lookup remove].
  - destruct (String.eqb k' k); reflexivity.
  - destruct (String.eqb a k') eqn:E1.
    + rewrite IH. apply String.eqb_eq in E1.
      destruct (String.eqb k' k) eqn:E; [reflexivity|].
      rewrite E1, E. reflexivity.
    + cbn [lookup]. rewrite IH.
      destruct (String.eqb a k) eqn:E2; [|reflexivity].
      apply String.eqb_eq in E2. rewrite String.eqb_sym, <- E2, E1. reflexivity.
Qed.

Ltac lookup_keys :=
  repeat (cbn [lookup]; rewrite ?lookup_remove; key_eqb).

Lemma getTokens_spec (s : Secure) :
  getTokens s = (Ok (if unavailable s then None else tokensOf (items s)), s).
Proof.
  unfold tokensOf. destruct s as [l u c n]. run_secure.
  destruct u; [reflexivity|].
  destruct (lookup ACCESS_TOKEN l) as [a|], (lookup REFRESH_TOKEN l) as [r|],
    (lookup TOKEN_EXPIRY l) as [e|]; try reflexivity.
  cbn [missing]. destruct (_ || _ || _)%bool; reflexivity.
Qed.

Lemma numberToString_round_trip (e : option Z) :
  parseInt10 (numberToString e) = e
  /\ String.eqb (numberToString e) EmptyString = false.
Proof.
  destruct e as [z|]; [|split; reflexivity].
  cbn [numberToString]. split;
    [apply parseInt10_toString | apply jsNumberToString_not_empty].
Qed.

Lemma saveTokens_items (t : TokenData) (s : Secure) :
  unavailable s = false ->
  saveTokens t s
  = (Ok tt,
     setItems ((TOKEN_EXPIRY, numberToString (expiresAt t))
               :: remove TOKEN_EXPIRY
                    ((REFRESH_TOKEN, refreshToken t)
                     :: remove REFRESH_TOKEN
                          ((ACCESS_TOKEN, accessToken t)
                           :: remove ACCESS_TOKEN (items s)))) s).
Proof.
  intros Hu. destruct s as [l u c n]. cbn [unavailable] in Hu. subst u.
  run_secure. reflexivity.
Qed.

Lemma tokensOf_saved (t : TokenData) (l : list (string * string)) :
  tokensOf ((TOKEN_EXPIRY, numberToString (expiresAt t))
            :: remove TOKEN_EXPIRY
                 ((REFRESH_TOKEN, refreshToken t)
                  :: remove REFRESH_TOKEN
                       ((ACCESS_TOKEN, accessToken t)
                        :: remove ACCESS_TOKEN l)))
  = if (String.eqb (accessToken t) EmptyString
        || String.eqb (refreshToken t) EmptyString)%bool
    then None else Some t.
Proof.
  unfold tokensOf. lookup_keys.
  destruct (numberToString_round_trip (expiresAt t)) as [Hp He].
  rewrite He, Hp, orb_false_r. destruct t; reflexivity.
Qed.

Lemma isTokenExpired_spec (s : Secure) :
  isTokenExpired s
  = (Ok (match (if unavailable s then None else tokensOf (items s)) with
         | Some t => minusLt (expiresAt t) bufferMs (clock s)
         | None => true
         end), s).
Proof.
  unfold isTokenExpired, bind. rewrite getTokens_spec.
  destruct (if unavailable s then None else tokensOf (items s)); reflexivity.
Qed.

Lemma getAccessToken_spec (s : Secure) :
  getAccessToken s
  = (Ok (match (if unavailable s then None else tokensOf (items s)) with
         | Some t => if minusLt (expiresAt t) bufferMs (clock s) then None
                     else Some (accessToken t)
         | None => None
         end), s).
Proof.
  unfold getAccessToken, bind. rewrite getTokens_spec.
  destruct (if unavailable s then None else tokensOf (items s)) as [t|];
    [|reflexivity].
  unfold gets. destruct (minusLt (expiresAt t) bufferMs (clock s)); reflexivity.
Qed.

Lemma getRefreshToken_spec (s : Secure) :
  getRefreshToken s
  = (Ok (if unavailable s then None else lookup REFRESH_TOKEN (items s)), s).
Proof.
  destruct s as [l u c n]. run_secure. destruct u; reflexivity.
Qed.

Lemma tokensOf_access (l : list (string * string)) (t : TokenData) :
  tokensOf l = Some t ->
  lookup ACCESS_TOKEN l = Some (accessToken t)
  /\ lookup REFRESH_TOKEN l = Some (refreshToken t)
  /\ refreshToken t <> EmptyString.
Proof.
  unfold tokensOf.
  destruct (lookup ACCESS_TOKEN l) as [a|]; [|discriminate].
  destruct (lookup REFRESH_TOKEN l) as [r|]; [|discriminate].
  destruct (lookup TOKEN_EXPIRY l) as [e|]; [|discriminate].
  destruct (String.eqb a EmptyString); [discriminate|].
  destruct (String.eqb r EmptyString) eqn:Er; [discriminate|].
  destruct (String.eqb e EmptyString); [discriminate|].
  intros [= <-]. cbn. repeat split. apply String.eqb_neq. exact Er.
Qed.

Lemma getValidAccessToken_cases (backend : nat -> outcome GoogleAuth.RefreshData)
    (s : Secure) :
  GoogleAuth.getValidAccessToken backend s
  = match (if unavailable s then None else tokensOf (items s)) with
    | None => (Ok None, s)
    | Some t =>
        if minusLt (expiresAt t) bufferMs (clock s)
        then bind (GoogleAuth.refreshAccessToken backend)
                  (fun newTokens => ret (option_map accessToken newTokens)) s
        else (Ok (Some (accessToken t)), s)
    end.
Proof.
  unfold GoogleAuth.getValidAccessToken. unfold bind at 1.
  rewrite getTokens_spec.
  destruct (if unavailable s then None else tokensOf (items s)) as [t|] eqn:E;
    [|reflexivity].
  unfold bind at 1. rewrite isTokenExpired_spec, E.
  destruct (minusLt (expiresAt t) bufferMs (clock s)); reflexivity.
Qed.

Lemma refreshAccessToken_cases (backend : nat -> outcome GoogleAuth.RefreshData)
    (s : Secure) (t : TokenData) :
  unavailable s = false ->
  tokensOf (items s) = Some t ->
  let s1 := {| items := items s; unavailable := false; clock := clock s;
               refreshCalls := S (refreshCalls s) |} in
  GoogleAuth.refreshAccessToken backend s
  = match backend (refreshCalls s) with
    | Throw _ => (Ok None, s1)
    | Ok data =>
        if negb (missing (GoogleAuth.rd_error data)) then (Ok None, s1)
        else
          match GoogleAuth.access_token data with
          | Some a =>
              (Ok (Some (refreshed t a data (clock s))),
               setItems
                 ((TOKEN_EXPIRY,
                   numberToString (expiresAt (refreshed t a data (clock s))))
                  :: remove TOKEN_EXPIRY
                       ((REFRESH_TOKEN, refreshToken t)
                        :: remove REFRESH_TOKEN
                             ((ACCESS_TOKEN, a)
                              :: remove ACCESS_TOKEN (items s)))) s1)
          | None =>
              (Ok None,
               setItems
                 ((TOKEN_EXPIRY,
                   jsNumberToString
                     (clock s + GoogleAuth.lifetime data * 1000))
                  :: remove TOKEN_EXPIRY
                       ((REFRESH_TOKEN, refreshToken t)
                        :: remove REFRESH_TOKEN (items s))) s1)
          end
    end.
Proof.
  intros Hu Ht s1.
  destruct (tokensOf_access _ Ht) as (_ & Hr & Hne).
  unfold GoogleAuth.refreshAccessToken. unfold bind at 1.
  rewrite getRefreshToken_spec, Hu, Hr. cbn [missing].
  apply String.eqb_neq in Hne. rewrite Hne.
  unfold tryCatch at 1, bind at 1, GoogleAuth.fetchRefresh. rewrite Hu. fold s1.
  destruct (backend (refreshCalls s)) as [data|msg]; [|reflexivity].
  destruct (negb (missing (GoogleAuth.rd_error data))); [reflexivity|].
  unfold bind at 1, gets at 1.
  destruct (GoogleAuth.access_token data) as [a|].
  - unfold bind at 1.
    rewrite saveTokens_items by reflexivity. reflexivity.
  - reflexivity.
Qed.

(** X1.  Tokens written by [saveTokens] are read back unchanged by
    [getTokens], whatever the store held before, provided the access and
    the refresh token are not empty; with an empty one [getTokens] answers
    [null] although the write succeeded.  The expiry goes through
    [toString] and [parseInt], which agree on integers printed in decimal
    notation (magnitude below 10^21).  When the secure store rejects every
    access, [saveTokens] throws the one error "Failed to save
    authentication tokens", [getTokens] answers [null], and nothing is
    changed. *)
Theorem tokens_round_trip (s : Secure) (t : TokenData) :
  (forall z, expiresAt t = Some z -> Z.abs z < 10 ^ 21) ->
  (unavailable s = false ->
   result (saveTokens t ;; getTokens) s
   = Ok (if (String.eqb (accessToken t) EmptyString
             || String.eqb (refreshToken t) EmptyString)%bool
         then None else Some t))
  /\ (unavailable s = true ->
      saveTokens t s = (Throw "Failed to save authentication tokens", s)
      /\ getTokens s = (Ok None, s)).
Proof.
  intros _. split; intros Hu.
  - unfold result, bind.
    rewrite (saveTokens_items t s Hu), getTokens_spec.
    cbn [fst unavailable items setItems]. rewrite Hu, tokensOf_saved.
    reflexivity.
  - destruct s as [l u c n]. cbn [unavailable] in Hu. subst u.
    split; reflexivity.
Qed.

Lemma tokens_round_trip_witness :
  result (saveTokens sampleTokens ;; getTokens) (signedIn "0")
  = Ok (Some sampleTokens).
Proof.
  refine (proj1 (@tokens_round_trip (signedIn "0") sampleTokens _) eq_refl).
  intros z H. injection H as <-. vm_compute. reflexivity.
Defined.

(** X2.  [getAccessToken] and [isTokenExpired] never throw and always
    agree: an access token is handed out exactly when the tokens are not
    reported expired, and it is then the stored access token. *)
Theorem access_token_iff_not_expired (s : Secure) :
  exists expired,
    isTokenExpired s = (Ok expired, s)
    /\ (expired = true -> getAccessToken s = (Ok None, s))
    /\ (expired = false ->
        exists a, lookup ACCESS_TOKEN (items s) = Some a
                  /\ getAccessToken s = (Ok (Some a), s)).
Proof.
  rewrite isTokenExpired_spec, getAccessToken_spec.
  eexists. split; [reflexivity|].
  destruct (unavailable s); [split; [reflexivity|discriminate]|].
  destruct (tokensOf (items s)) as [t|] eqn:Ht;
    [|split; [reflexivity|discriminate]].
  destruct (minusLt (expiresAt t) bufferMs (clock s));
    (split; [intros H; try reflexivity; discriminate|]);
    intros H; try discriminate.
  exists (accessToken t). split; [apply (tokensOf_access _ Ht) | reflexivity].
Qed.

Lemma access_token_iff_not_expired_witness :
  getAccessToken (signedIn "1700003600000")
  = (Ok (Some "at-1"), signedIn "1700003600000").
Proof.
  destruct (access_token_iff_not_expired (signedIn "1700003600000"))
    as (expired & He & _ & Hfresh).
  assert (Hb : expired = false) by (vm_compute in He; congruence).
  destruct (Hfresh Hb) as (a & Ha & Hget).
  assert (Hat : a = "at-1") by (vm_compute in Ha; congruence).
  rewrite <- Hat. exact Hget.
Defined.

(** X3.  An expiry entry that [parseInt] cannot read (for instance the text
    NaN, which is what [saveTokens] writes for a [NaN] expiry) never
    expires: [tokens.expiresAt - bufferMs < now] is false for [NaN], so at
    every time the tokens count as fresh, the stored access token is handed
    out and no refresh is attempted. *)
Theorem unparsable_expiry_never_expires
    (backend : nat -> outcome GoogleAuth.RefreshData)
    (s : Secure) (a r e : string) (c : Z) :
  unavailable s = false ->
  lookup ACCESS_TOKEN (items s) = Some a -> a <> EmptyString ->
  lookup REFRESH_TOKEN (items s) = Some r -> r <> EmptyString ->
  lookup TOKEN_EXPIRY (items s) = Some e -> e <> EmptyString ->
  parseInt10 e = None ->
  isTokenExpired (atTime c s) = (Ok false, atTime c s)
  /\ getAccessToken (atTime c s) = (Ok (Some a), atTime c s)
  /\ GoogleAuth.getValidAccessToken backend (atTime c s)
     = (Ok (Some a), atTime c s).
Proof.
  intros Hu Ha Hane Hr Hrne He Hene Hp.
  rewrite isTokenExpired_spec, getAccessToken_spec, getValidAccessToken_cases.
  cbn [atTime unavailable items clock]. rewrite Hu.
  unfold tokensOf. rewrite Ha, Hr, He.
  apply String.eqb_neq in Hane, Hrne, Hene. rewrite Hane, Hrne, Hene, Hp.
  repeat split.
Qed.

Lemma unparsable_expiry_never_expires_witness :
  isTokenExpired (atTime 9999999999999 (signedIn "NaN"))
  = (Ok false, atTime 9999999999999 (signedIn "NaN")).
Proof.
  refine (proj1 (@unparsable_expiry_never_expires grantsAt2 (signedIn "NaN")
                   "at-1" "rt-1" "NaN" 9999999999999
                   eq_refl eq_refl _ eq_refl _ eq_refl _ eq_refl));
    discriminate.
Defined.

(** X4.  [clearAuthData] never throws.  When the store is available it
    removes exactly the four authentication keys and leaves every other
    entry as it was; afterwards nobody is signed in.  When the store rejects
    access nothing is changed. *)
Theorem clearAuthData_removes_auth_keys (s : Secure) :
  result clearAuthData s = Ok tt
  /\ (unavailable s = true -> exec clearAuthData s = s)
  /\ (unavailable s = false ->
      (forall k, lookup k (items (exec clearAuthData s))
                 = if isAuthKey k then None else lookup k (items s))
      /\ result getTokens (exec clearAuthData s) = Ok None
      /\ result getAccessToken (exec clearAuthData s) = Ok None
      /\ result isTokenExpired (exec clearAuthData s) = Ok true
      /\ result GoogleAuth.isAuthenticated (exec clearAuthData s) = Ok false).
Proof.
  destruct s as [l u c n]. destruct u.
  - split; [reflexivity|]. split; [reflexivity|]. discriminate.
  - split; [reflexivity|]. split; [discriminate|]. intros _.
    set (s' := exec clearAuthData
                 {| items := l; unavailable := false; clock := c;
                    refreshCalls := n |}).
    assert (Hu : unavailable s' = false) by reflexivity.
    assert (Hk : forall k, lookup k (items s')
                           = if isAuthKey k then None else lookup k l).
    { intros k. subst s'. run_secure. rewrite !lookup_remove.
      unfold isAuthKey, authKeys. cbn [existsb].
      rewrite (String.eqb_sym k ACCESS_TOKEN), (String.eqb_sym k REFRESH_TOKEN),
        (String.eqb_sym k TOKEN_EXPIRY), (String.eqb_sym k USER_INFO).
      destruct (String.eqb ACCESS_TOKEN k), (String.eqb REFRESH_TOKEN k),
        (String.eqb TOKEN_EXPIRY k), (String.eqb USER_INFO k); reflexivity. }
    split; [exact Hk|].
    assert (Ht : tokensOf (items s') = None).
    { unfold tokensOf. rewrite (Hk ACCESS_TOKEN). reflexivity. }
    unfold result, GoogleAuth.isAuthenticated, bind.
    rewrite getTokens_spec, getAccessToken_spec, isTokenExpired_spec, Hu, Ht.
    repeat split.
Qed.

Lemma clearAuthData_removes_auth_keys_witness :
  result getTokens (exec clearAuthData (signedIn "1700003600000")) = Ok None.
Proof.
  exact (proj1 (proj2 (proj2 (proj2 (clearAuthData_removes_auth_keys
                                       (signedIn "1700003600000"))) eq_refl))).
Defined.

(** X5.  Whatever the store holds and whatever the refresh backend answers,
    a token returned by [getValidAccessToken] is the access token that is in
    the store when the call returns: either the one found there, or the one
    just written by the refresh. *)
Theorem valid_token_is_the_stored_one
    (backend : nat -> outcome GoogleAuth.RefreshData) (s : Secure) (token : string) :
  result (GoogleAuth.getValidAccessToken backend) s = Ok (Some token) ->
  lookup ACCESS_TOKEN (items (exec (GoogleAuth.getValidAccessToken backend) s))
  = Some token.
Proof.
  unfold result, exec. rewrite getValidAccessToken_cases.
  destruct (unavailable s) eqn:Hu; [discriminate|].
  destruct (tokensOf (items s)) as [t|] eqn:Ht; [|discriminate].
  destruct (minusLt (expiresAt t) bufferMs (clock s)).
  - unfold bind. rewrite (@refreshAccessToken_cases backend s t Hu Ht).
    destruct (backend (refreshCalls s)) as [data|msg]; [|discriminate].
    destruct (negb (missing (GoogleAuth.rd_error data))); [discriminate|].
    destruct (GoogleAuth.access_token data) as [a|]; [|discriminate].
    cbn [fst snd ret option_map accessToken refreshed]. intros [= <-].
    cbn [items setItems]. lookup_keys. reflexivity.
  - cbn [fst snd]. intros [= <-]. apply (tokensOf_access _ Ht).
Qed.

Lemma valid_token_is_the_stored_one_witness :
  lookup ACCESS_TOKEN
    (items (exec (GoogleAuth.getValidAccessToken grantsAt2) (signedIn "1000")))
  = Some "at-2".
Proof.
  apply (@valid_token_is_the_stored_one grantsAt2 (signedIn "1000") "at-2").
  vm_compute. reflexivity.
Defined.

(** X6.  While the stored tokens are not reported expired,
    [getValidAccessToken] returns the stored access token, sends no refresh
    request and changes nothing. *)
Theorem no_refresh_unless_expired
    (backend : nat -> outcome GoogleAuth.RefreshData) (s : Secure) :
  result isTokenExpired s = Ok false ->
  exists t, result getTokens s = Ok (Some t)
            /\ GoogleAuth.getValidAccessToken backend s
               = (Ok (Some (accessToken t)), s).
Proof.
  unfold result.
  rewrite isTokenExpired_spec, getValidAccessToken_cases, getTokens_spec.
  cbn [fst].
  destruct (if unavailable s then None else tokensOf (items s)) as [t|];
    [|discriminate].
  intros [= H]. rewrite H. exists t. split; reflexivity.
Qed.

Lemma no_refresh_unless_expired_witness :
  exists t, result getTokens (signedIn "1700003600000") = Ok (Some t)
            /\ GoogleAuth.getValidAccessToken grantsAt2 (signedIn "1700003600000")
               = (Ok (Some (accessToken t)), signedIn "1700003600000").
Proof.
  apply (@no_refresh_unless_expired grantsAt2 (signedIn "1700003600000")).
  vm_compute. reflexivity.
Defined.

(** X7.  When the stored tokens are expired and the backend grants a new
    access token, [getValidAccessToken] sends exactly one refresh request,
    returns the new token, keeps the refresh token and stores the expiry
    [Date.now() + (expires_in || 3600) * 1000].  A later call at any time up
    to five minutes before that expiry returns the same token with no
    further request (for a non-empty token: an empty one is stored but reads
    back as signed out).  The lifetime in milliseconds and the expiry are
    taken within 2^53 in magnitude, where the arithmetic of JavaScript is
    exact and the expiry is printed in decimal notation. *)
Theorem refresh_then_reuse
    (backend : nat -> outcome GoogleAuth.RefreshData)
    (s : Secure) (t : TokenData) (data : GoogleAuth.RefreshData)
    (granted : string) (later : Z) :
  unavailable s = false ->
  result getTokens s = Ok (Some t) ->
  result isTokenExpired s = Ok true ->
  backend (refreshCalls s) = Ok data ->
  missing (GoogleAuth.rd_error data) = true ->
  GoogleAuth.access_token data = Some granted ->
  granted <> EmptyString ->
  Z.abs (GoogleAuth.lifetime data * 1000) <= 2 ^ 53 ->
  Z.abs (clock s + GoogleAuth.lifetime data * 1000) <= 2 ^ 53 ->
  later <= clock s + GoogleAuth.lifetime data * 1000 - bufferMs ->
  let s' := exec (GoogleAuth.getValidAccessToken backend) s in
  result (GoogleAuth.getValidAccessToken backend) s = Ok (Some granted)
  /\ refreshCalls s' = S (refreshCalls s)
  /\ lookup ACCESS_TOKEN (items s') = Some granted
  /\ lookup REFRESH_TOKEN (items s') = Some (refreshToken t)
  /\ lookup TOKEN_EXPIRY (items s')
     = Some (jsNumberToString (clock s + GoogleAuth.lifetime data * 1000))
  /\ result getTokens s'
     = Ok (Some {| accessToken := granted; refreshToken := refreshToken t;
                   expiresAt := Some (clock s + GoogleAuth.lifetime data * 1000) |})
  /\ GoogleAuth.getValidAccessToken backend (atTime later s')
     = (Ok (Some granted), atTime later s').
Proof.
  intros Hu Ht He Hb Herr Hacc Hne _ _ Hlater s'.
  unfold result in Ht, He. rewrite getTokens_spec, Hu in Ht.
  rewrite isTokenExpired_spec, Hu in He. cbn [fst] in Ht, He.
  injection Ht as Ht. rewrite Ht in He. injection He as He.
  assert (Hrun : GoogleAuth.getValidAccessToken backend s
                 = (Ok (Some granted),
                    setItems
                      ((TOKEN_EXPIRY,
                        numberToString (expiresAt (refreshed t granted data (clock s))))
                       :: remove TOKEN_EXPIRY
                            ((REFRESH_TOKEN, refreshToken t)
                             :: remove REFRESH_TOKEN
                                  ((ACCESS_TOKEN, granted)
                                   :: remove ACCESS_TOKEN (items s))))
                      {| items := items s; unavailable := false; clock := clock s;
                         refreshCalls := S (refreshCalls s) |})).
  { rewrite getValidAccessToken_cases, Hu, Ht, He. unfold bind.
    rewrite (@refreshAccessToken_cases backend s t Hu Ht), Hb, Herr, Hacc.
    reflexivity. }
  pose proof (tokensOf_saved (refreshed t granted data (clock s)) (items s)) as Hsaved.
  cbn [accessToken refreshToken refreshed] in Hsaved.
  destruct (tokensOf_access _ Ht) as (_ & _ & Hrne).
  apply String.eqb_neq in Hne, Hrne. rewrite Hne, Hrne in Hsaved.
  cbn [orb] in Hsaved.
  change (expiresAt (refreshed t granted data (clock s)))
    with (Some (clock s + GoogleAuth.lifetime data * 1000)) in *.
  subst s'. unfold result, exec. rewrite Hrun. cbn [fst snd].
  split; [reflexivity|]. split; [reflexivity|].
  split; [cbn [items setItems]; lookup_keys; reflexivity|].
  split; [cbn [items setItems]; lookup_keys; reflexivity|].
  split; [cbn [items setItems]; lookup_keys; reflexivity|].
  split.
  - rewrite getTokens_spec. cbn [unavailable setItems items fst].
    rewrite Hsaved. reflexivity.
  - rewrite getValidAccessToken_cases.
    cbn [atTime unavailable setItems items clock].
    rewrite Hsaved. cbn [refreshed expiresAt minusLt accessToken].
    replace (clock s + GoogleAuth.lifetime data * 1000 - bufferMs <? later)
      with false by (symmetry; apply Z.ltb_ge; lia).
    reflexivity.
Qed.

Lemma refresh_then_reuse_witness :
  result (GoogleAuth.getValidAccessToken grantsAt2) (signedIn "1000")
  = Ok (Some "at-2")
  /\ refreshCalls (exec (GoogleAuth.getValidAccessToken grantsAt2)
                     (signedIn "1000")) = 1%nat.
Proof.
  pose proof (@refresh_then_reuse grantsAt2 (signedIn "1000")
                {| accessToken := "at-1"; refreshToken := "rt-1";
                   expiresAt := Some 1000 |}
                {| GoogleAuth.rd_error := None;
                   GoogleAuth.access_token := Some "at-2";
                   GoogleAuth.expires_in := Some 3600 |}
                "at-2" 1700000000001
                eq_refl eq_refl eq_refl eq_refl eq_refl eq_refl) as H.
  cbv zeta in H.
  assert (Hne : "at-2" <> EmptyString) by discriminate.
  assert (Hlife : Z.abs (3600 * 1000) <= 2 ^ 53) by (vm_compute; discriminate).
  assert (Hexp : Z.abs (1700000000000 + 3600 * 1000) <= 2 ^ 53)
    by (vm_compute; discriminate).
  assert (Hlater : 1700000000001 <= 1700000000000 + 3600 * 1000 - bufferMs)
    by (vm_compute; discriminate).
  destruct (H Hne Hlife Hexp Hlater) as (Hres & Hcalls & _).
  split; [exact Hres | exact Hcalls].
Defined.

(** X8.  [getValidAccessToken] never throws and sends at most one refresh
    request.  A refresh that fails before anything is written does not
    damage the stored tokens: when the answer to the refresh request is a
    transport failure or a body with an error, the stored entries are
    exactly as before the call, and a call that found the tokens expired
    returns no token. *)
Theorem failed_refresh_keeps_storage
    (backend : nat -> outcome GoogleAuth.RefreshData) (s : Secure) :
  let s' := exec (GoogleAuth.getValidAccessToken backend) s in
  (exists token, result (GoogleAuth.getValidAccessToken backend) s = Ok token)
  /\ (refreshCalls s' <= S (refreshCalls s))%nat
  /\ ((forall data, backend (refreshCalls s) = Ok data ->
                    missing (GoogleAuth.rd_error data) = false) ->
      items s' = items s
      /\ (result isTokenExpired s = Ok true ->
          result (GoogleAuth.getValidAccessToken backend) s = Ok None)).
Proof.
  cbv zeta. unfold result, exec.
  rewrite getValidAccessToken_cases, isTokenExpired_spec.
  destruct (unavailable s) eqn:Hu;
    [repeat split; [eexists; reflexivity | cbn; lia]|].
  destruct (tokensOf (items s)) as [t|] eqn:Ht;
    [|repeat split; [eexists; reflexivity | cbn; lia]].
  destruct (minusLt (expiresAt t) bufferMs (clock s));
    [|repeat split; [eexists; reflexivity | cbn; lia | discriminate]].
  unfold bind. rewrite (@refreshAccessToken_cases backend s t Hu Ht).
  destruct (backend (refreshCalls s)) as [data|msg];
    [|repeat split; [eexists; reflexivity | cbn; lia]].
  destruct (missing (GoogleAuth.rd_error data)) eqn:Herr; cbn [negb];
    [|repeat split; [eexists; reflexivity | cbn; lia]].
  destruct (GoogleAuth.access_token data) as [a|];
    cbn [fst snd ret option_map].
  - split; [eexists; reflexivity|]. split; [cbn; lia|].
    intros H. specialize (H data eq_refl). congruence.
  - split; [eexists; reflexivity|]. split; [cbn; lia|].
    intros H. specialize (H data eq_refl). congruence.
Qed.

Lemma failed_refresh_keeps_storage_witness :
  items (exec (GoogleAuth.getValidAccessToken
                 (fun _ => Throw "Network request failed"))
           (signedIn "1000"))
  = items (signedIn "1000").
Proof.
  refine (proj1 (proj2 (proj2 (@failed_refresh_keeps_storage
                                 (fun _ => Throw "Network request failed")
                                 (signedIn "1000"))) _)).
  intros data H. discriminate H.
Defined.

(** ** The custom interval dialog *)

Lemma jsOr_toString (n : Z) (fallback : string) :
  jsOr (jsNumberToString n) fallback = jsNumberToString n.
Proof.
  unfold jsOr. rewrite jsNumberToString_not_empty. reflexivity.
Qed.

Ltac run_dialog :=
  cbv beta iota zeta delta
    [SettingsDialog.handleCustomInterval SettingsDialog.setCustomIntervalInput];
  run_settings.

(** X9.  Opening the custom interval dialog fills the field with the
    current interval; submitting it unchanged reads that same number back
    ([toString] and [parseInt] agree on an integer printed in decimal
    notation, magnitude below 10^21).  So with a current interval of at
    least 5 seconds the interval is applied again: it stays selected and is
    the first and only value handed to [updateRotationInterval].  With a
    current interval below 5 the submission is refused like any other: the
    only effect is the alert, and the dialog stays open.  This holds
    whatever [updateRotationInterval] and the rotation service do. *)
Theorem custom_dialog_prefill_is_resubmitted
    (E : SettingsScreen.Services) (s : SettingsScreen.Settings) :
  let n := SettingsScreen.rotationInterval s in
  let s' := exec (SettingsDialog.handleCustomInterval ;;
                  SettingsScreen.handleCustomIntervalSubmit E) s in
  Z.abs n < 10 ^ 21 ->
  SettingsScreen.rotationInterval s' = n
  /\ (5 <= n ->
      intervalUpdates (newEvents (SettingsScreen.world s) (SettingsScreen.world s'))
      = [n])
  /\ (n < 5 ->
      newEvents (SettingsScreen.world s) (SettingsScreen.world s')
      = [EvAlert "Invalid" "Interval must be at least 5 seconds"]
      /\ SettingsScreen.showCustomModal s' = true
      /\ store (SettingsScreen.world s') = store (SettingsScreen.world s)).
Proof.
  intros n s' _. subst s'.
  destruct s as [w bg fg interval modal input].
  destruct w as [os t sto wf rb pl tr].
  cbn [SettingsScreen.rotationInterval] in n. subst n.
  run_dialog. rewrite jsOr_toString, parseInt10_toString.
  destruct (5 <=? interval) eqn:E5.
  - apply Z.leb_le in E5. run_settings. settings_cases.
    all: destruct os, bg, fg, (interval <? 900);
      cbn [andb negb]; run_settings; settings_cases.
    all: (split; [reflexivity|]);
      (split; [intros _; settings_events; reflexivity|]);
      intros; lia.
  - apply Z.leb_gt in E5. run_settings.
    split; [reflexivity|]. split; [intros; lia|]. intros _.
    split; [settings_events; reflexivity|]. split; reflexivity.
Qed.

Lemma custom_dialog_prefill_is_resubmitted_witness :
  intervalUpdates
    (newEvents (deviceWith None)
       (SettingsScreen.world
          (exec (SettingsDialog.handleCustomInterval ;;
                 SettingsScreen.handleCustomIntervalSubmit quietServices)
             (settingsWith (deviceWith None) "typed earlier"))))
  = [1800].
Proof.
  refine (proj1 (proj2 (@custom_dialog_prefill_is_resubmitted quietServices
                          (settingsWith (deviceWith None) "typed earlier") _)) _).
  - vm_compute. reflexivity.
  - vm_compute. discriminate.
Defined.

(** X10.  The rotation service is never started with an interval below 10
    seconds, although the custom interval dialog accepts 5 and more
    ([Math.max(10, intervalSeconds)] in [startRotationService]); one
    submission starts it at most once, and not at all when the native
    rotation module is absent.  When a submitted text reads as [n] from 5
    up to 2^53, the service is switched on, the device is Android, the
    native module is present and neither [updateRotationInterval] nor the
    stop of the service throws, the screen selects [n] and the start of the
    service is requested exactly once, with [max 10 n]: for [5 <= n < 10]
    the selected interval and the running one differ. *)
Theorem rotation_service_never_below_ten_seconds
    (E : SettingsScreen.Services) (s : SettingsScreen.Settings) (n : Z) :
  let s' := exec (SettingsScreen.handleCustomIntervalSubmit E) s in
  let events := newEvents (SettingsScreen.world s) (SettingsScreen.world s') in
  Forall (fun seconds => 10 <= seconds) (serviceStarts events)
  /\ (List.length (serviceStarts events) <= 1)%nat
  /\ (SettingsScreen.rotationModule E = false -> serviceStarts events = [])
  /\ (parseInt10 (jsOr (SettingsScreen.customIntervalInput s) "30") = Some n ->
      5 <= n <= 2 ^ 53 ->
      SettingsScreen.foregroundServiceEnabled s = true ->
      platformOS (SettingsScreen.world s) = android ->
      SettingsScreen.rotationModule E = true ->
      (exists record,
         SettingsScreen.updateRotationIntervalResp E n
           (store (SettingsScreen.world s)) = Ok record) ->
      (exists stopped, SettingsScreen.stopServiceResp E = Ok stopped) ->
      SettingsScreen.rotationInterval s' = n
      /\ serviceStarts events = [Z.max 10 n]
      /\ (n < 10 -> serviceStarts events <> [n])).
Proof.
  intros s' events. subst events s'.
  destruct s as [w bg fg interval modal input].
  destruct w as [os t sto wf rb pl tr].
  cbn [SettingsScreen.customIntervalInput SettingsScreen.foregroundServiceEnabled
       SettingsScreen.world platformOS store].
  split; [|split; [|split]].
  - run_settings.
    destruct (parseInt10 (jsOr input "30")) as [m|];
      [|settings_events; constructor].
    destruct (5 <=? m); [|settings_events; constructor].
    settings_cases.
    all: destruct os, bg, fg, (m <? 900);
      cbn [andb negb]; run_settings; settings_cases.
    all: settings_events; repeat constructor; lia.
  - run_settings.
    destruct (parseInt10 (jsOr input "30")) as [m|];
      [|settings_events; cbn; lia].
    destruct (5 <=? m); [|settings_events; cbn; lia].
    settings_cases.
    all: destruct os, bg, fg, (m <? 900);
      cbn [andb negb]; run_settings; settings_cases.
    all: settings_events; cbn; lia.
  - intros Hmod. run_settings.
    destruct (parseInt10 (jsOr input "30")) as [m|];
      [|settings_events; reflexivity].
    destruct (5 <=? m); [|settings_events; reflexivity].
    rewrite ?Hmod. settings_cases.
    all: destruct os, bg, fg, (m <? 900);
      cbn [andb negb]; run_settings; rewrite ?Hmod; run_settings.
    all: settings_events; reflexivity.
  - intros Hp [Hfloor _] Hfg Hos Hmod (record & Hupdate) (stopped & Hstop).
    subst fg os. run_settings. rewrite Hp.
    apply Z.leb_le in Hfloor. rewrite Hfloor. run_settings.
    rewrite Hupdate. run_settings.
    destruct bg; cbn [andb negb]; run_settings;
      rewrite Hmod; run_settings; rewrite Hstop; run_settings;
      rewrite ?Hmod; run_settings;
      destruct (SettingsScreen.startServiceResp E (Z.max 10 n));
      run_settings; destruct (n <? 900); cbn [andb negb]; run_settings;
      (split; [reflexivity|]);
      (split; [settings_events; reflexivity|]);
      intros Hlt; settings_events; intros [= Hmax]; lia.
Qed.

Lemma rotation_service_never_below_ten_seconds_witness :
  SettingsScreen.rotationInterval
    (exec (SettingsScreen.handleCustomIntervalSubmit quietServices)
       (settingsWithService (deviceWith None) 1800 "7")) = 7
  /\ serviceStarts
       (newEvents (deviceWith None)
          (SettingsScreen.world
             (exec (SettingsScreen.handleCustomIntervalSubmit quietServices)
                (settingsWithService (deviceWith None) 1800 "7"))))
     = [10].
Proof.
  pose proof (proj2 (proj2 (proj2 (@rotation_service_never_below_ten_seconds
                       quietServices
                       (settingsWithService (deviceWith None) 1800 "7") 7)))
                eq_refl) as H.
  assert (Hrange : 5 <= 7 <= 2 ^ 53) by (vm_compute; split; discriminate).
  destruct (H Hrange eq_refl eq_refl eq_refl
              (ex_intro _ None eq_refl) (ex_intro _ true eq_refl))
    as (Hsel & Hstart & _).
  split; [exact Hsel | exact Hstart].
Defined.

(** ** Rotation invariants *)

Lemma repeatM_invariant {S : Type} (I : S -> Prop) (m : M S unit) :
  (forall s, I s -> I (exec m s)) ->
  forall (k : nat) (s : S), I s -> I (exec (repeatM k m) s).
Proof.
  intros Hstep. induction k as [|k IH]; intros s HI; [exact HI|].
  specialize (Hstep s HI). unfold exec in *. cbn [repeatM]. unfold bind.
  destruct (m s) as [[[]|e] s1]; cbn [snd] in *; [apply IH|]; exact Hstep.
Qed.

Lemma jsRem_in_range (i n : Z) :
  -1 <= i -> 0 < n -> 0 <= jsRem (i + 1) n < n.
Proof.
  intros Hi Hn. unfold jsRem. apply Z.rem_bound_pos; lia.
Qed.

Lemma jsLength_pos_of_nonempty {A : Type} (l : list A) :
  (jsLength l =? 0) = false -> 0 < jsLength l.
Proof.
  intros H. apply Z.eqb_neq in H. unfold jsLength in *. lia.
Qed.

Lemma rotateToNextPhoto_well_formed (d : WidgetData) (w : World) :
  (exists d', store w = Some d' /\ sameSet d d' /\ indexInRange d' = true) ->
  exists d', store (exec WidgetStorage.rotateToNextPhoto w) = Some d'
             /\ sameSet d d' /\ indexInRange d' = true.
Proof.
  intros (d1 & Hs & Hsame & Hr).
  destruct w as [os t st wf rb pl tr]. cbn [store] in Hs. subst st.
  destruct os; [|exists d1; repeat split; assumption || apply Hsame].
  run_world.
  destruct (jsLength (photos d1) =? 0) eqn:E;
    [exists d1; repeat split; assumption || apply Hsame|].
  apply jsLength_pos_of_nonempty in E.
  pose proof (proj1 (indexInRange_iff d1) Hr) as Hin.
  destruct wf; cbn [snd store];
    [exists d1; repeat split; assumption || apply Hsame|].
  eexists. split; [reflexivity|].
  destruct Hsame as (H1 & H2 & H3 & H4).
  split; [repeat split; assumption|].
  apply indexInRange_iff. cbn [withIndex currentIndex photos].
  apply jsRem_in_range; unfold jsLength in *; lia.
Qed.

Lemma rotatePhoto_total (w : World) :
  exists w', PhotoWidget.rotatePhoto w = (Ok tt, w').
Proof.
  destruct (rotatePhoto_trace w) as (w' & es & H & _). eauto.
Qed.

Lemma rotatePhoto_well_formed (d : WidgetData) (w : World) :
  (exists d', store w = Some d' /\ sameSet d d' /\ indexInRange d' = true) ->
  exists d', store (exec PhotoWidget.rotatePhoto w) = Some d'
             /\ sameSet d d' /\ indexInRange d' = true.
Proof.
  intros (d1 & Hs & Hsame & Hr).
  destruct w as [os t st wf rb pl tr]. cbn [store] in Hs. subst st.
  unfold exec, PhotoWidget.rotatePhoto, PhotoWidget.getWidgetData,
    PhotoWidget.saveWidgetData, bind, emit, modify, gets, ret, log, setStore.
  cbn.
  destruct (jsLength (photos d1) <=? 1) eqn:E;
    [exists d1; repeat split; assumption || apply Hsame|].
  apply Z.leb_gt in E.
  pose proof (proj1 (indexInRange_iff d1) Hr) as Hin.
  destruct wf; cbn [snd store];
    [exists d1; repeat split; assumption || apply Hsame|].
  eexists. split; [reflexivity|].
  destruct Hsame as (H1 & H2 & H3 & H4).
  split; [repeat split; assumption|].
  apply indexInRange_iff. cbn [withIndex currentIndex photos].
  apply jsRem_in_range; unfold jsLength in *; lia.
Qed.

Lemma repeat_rotatePhoto_total (k : nat) (w : World) :
  result (repeatM k PhotoWidget.rotatePhoto) w = Ok tt.
Proof.
  revert w. induction k as [|k IH]; intros w; [reflexivity|].
  destruct (rotatePhoto_total w) as (w' & H).
  unfold result in *. cbn [repeatM]. unfold bind. rewrite H. apply IH.
Qed.

(** X11.  Rotation never damages the stored record.  Starting from a record
    whose index points at a photo, after any number of consecutive calls of
    [rotateToNextPhoto] or of the widget's [rotatePhoto], on any platform
    and whether durable writes succeed or fail, the store still holds a
    record with the same photos, display mode, album and interval, and its
    index still points at a photo.  The widget's [rotatePhoto] moreover
    never throws. *)
Theorem rotation_keeps_record_well_formed (k : nat) (w : World) (d : WidgetData) :
  store w = Some d ->
  indexInRange d = true ->
  (exists d', store (exec (repeatM k WidgetStorage.rotateToNextPhoto) w) = Some d'
              /\ sameSet d d' /\ indexInRange d' = true)
  /\ (exists d', store (exec (repeatM k PhotoWidget.rotatePhoto) w) = Some d'
                 /\ sameSet d d' /\ indexInRange d' = true)
  /\ result (repeatM k PhotoWidget.rotatePhoto) w = Ok tt.
Proof.
  intros Hs Hr.
  assert (H0 : exists d', store w = Some d' /\ sameSet d d'
                          /\ indexInRange d' = true)
    by (exists d; repeat split; assumption).
  split; [|split].
  - apply (@repeatM_invariant World
             (fun w => exists d', store w = Some d' /\ sameSet d d'
                                  /\ indexInRange d' = true)
             WidgetStorage.rotateToNextPhoto
             (@rotateToNextPhoto_well_formed d) k w H0).
  - apply (@repeatM_invariant World
             (fun w => exists d', store w = Some d' /\ sameSet d d'
                                  /\ indexInRange d' = true)
             PhotoWidget.rotatePhoto
             (@rotatePhoto_well_formed d) k w H0).
  - apply repeat_rotatePhoto_total.
Qed.

Lemma rotation_keeps_record_well_formed_witness :
  exists d',
    store (exec (repeatM 5 WidgetStorage.rotateToNextPhoto)
             (deviceIn android true
                (Some (recordOf [photoA; photoB; photoC] 2 slideshow))))
    = Some d'
    /\ sameSet (recordOf [photoA; photoB; photoC] 2 slideshow) d'
    /\ indexInRange d' = true.
Proof.
  exact (proj1 (@rotation_keeps_record_well_formed 5
                  (deviceIn android true
                     (Some (recordOf [photoA; photoB; photoC] 2 slideshow)))
                  (recordOf [photoA; photoB; photoC] 2 slideshow)
                  eq_refl eq_refl)).
Defined.

(** X12.  One successful advance repairs an index that points past the end
    of the photos (or is -1): whatever index from -1 up to 2^53 - 1 the
    record holds (where [currentIndex + 1] is exact in JavaScript), after
    one call of [rotateToNextPhoto] (on Android, record not empty) or of
    [rotatePhoto] (more than one photo) with a working store the index is
    [(index + 1) mod N], inside [0, N). *)
Theorem rotation_repairs_index (w : World) (d : WidgetData) :
  store w = Some d ->
  writeFails w = false ->
  -1 <= currentIndex d < 2 ^ 53 ->
  let N := jsLength (photos d) in
  (platformOS w = android -> photos d <> [] ->
   indexAfter WidgetStorage.rotateToNextPhoto 1 w
   = Some ((currentIndex d + 1) mod N))
  /\ (1 < N ->
      indexAfter PhotoWidget.rotatePhoto 1 w = Some ((currentIndex d + 1) mod N))
  /\ (0 < N -> 0 <= (currentIndex d + 1) mod N < N).
Proof.
  intros Hs Hwf [Hi _] N. split; [|split].
  - intros Hos Hne. unfold indexAfter, exec. cbn [repeatM]. unfold bind.
    rewrite (rotateToNextPhoto_step w Hos Hwf Hs Hne). cbn.
    unfold jsRem. rewrite Z.rem_mod_nonneg; [reflexivity | lia |].
    subst N. unfold jsLength. destruct (photos d); [congruence | cbn; lia].
  - intros HN. unfold indexAfter, exec. cbn [repeatM]. unfold bind.
    rewrite (rotatePhoto_step w Hwf Hs HN). cbn.
    unfold jsRem. rewrite Z.rem_mod_nonneg; [reflexivity | lia | lia].
  - intros HN. apply Z.mod_pos_bound. exact HN.
Qed.

Lemma rotation_repairs_index_witness :
  indexAfter WidgetStorage.rotateToNextPhoto 1 (deviceWith (Some indexPastEnd))
  = Some 0.
Proof.
  assert (Hi : -1 <= currentIndex indexPastEnd < 2 ^ 53)
    by (vm_compute; split; [discriminate | reflexivity]).
  assert (Hne : photos indexPastEnd <> []) by discriminate.
  exact (proj1 (@rotation_repairs_index (deviceWith (Some indexPastEnd))
                  indexPastEnd eq_refl eq_refl Hi) eq_refl Hne).
Defined.

(** ** Replacing the set, then tapping through it *)

Lemma rendered_app (a b : list Event) :
  rendered (a ++ b) = (rendered a ++ rendered b)%list.
Proof.
  induction a as [|e a IH]; simpl; auto. destruct e; simpl; congruence.
Qed.

Lemma elementFor_reads_files_only (w w' : World) (p : WidgetPhoto) :
  readBase64 w' = readBase64 w -> elementFor w' p = elementFor w p.
Proof.
  intros H. unfold elementFor, result, PhotoWidget.getImageAsBase64.
  destruct (PhotoWidget.startsWith (PhotoWidget.imagePath p) "data:image");
    [reflexivity|].
  unfold bind, gets. cbn [fst]. rewrite H.
  destruct (readBase64 w (PhotoWidget.imagePath p)); reflexivity.
Qed.

Lemma rotatePhoto_next (w : World) (d : WidgetData) :
  writeFails w = false ->
  store w = Some d ->
  0 <= currentIndex d < jsLength (photos d) ->
  exists w' d' es,
    PhotoWidget.rotatePhoto w = (Ok tt, w')
    /\ writeFails w' = false /\ readBase64 w' = readBase64 w
    /\ store w' = Some d' /\ photos d' = photos d
    /\ currentIndex d' = (currentIndex d + 1) mod jsLength (photos d)
    /\ trace w' = (trace w ++ es)%list /\ rendered es = [].
Proof.
  intros Hwf Hs Hr.
  destruct (Z_le_gt_dec (jsLength (photos d)) 1) as [Hle|Hgt].
  - exists (log EvRotatePhoto w), d, [EvRotatePhoto].
    split; [apply rotatePhoto_at_most_one; eauto|].
    repeat split; auto.
    assert (jsLength (photos d) = 1) as -> by lia.
    rewrite Z.mod_1_r. lia.
  - eexists _, _, [EvRotatePhoto; _].
    split; [apply (rotatePhoto_step w Hwf Hs); lia|].
    cbn [setStore log writeFails readBase64 store trace withIndex photos
         currentIndex rendered].
    rewrite <- app_assoc.
    repeat split; auto.
    unfold jsRem. apply Z.rem_mod_nonneg; lia.
Qed.

Lemma tap_is_rotate_then_render :
  tap = (PhotoWidget.rotatePhoto ;; PhotoWidget.renderPhotoWidget).
Proof. reflexivity. Qed.

Lemma tap_shows_next (w : World) (d : WidgetData) :
  writeFails w = false ->
  store w = Some d ->
  0 <= currentIndex d < jsLength (photos d) ->
  exists w' d' es,
    tap w = (Ok tt, w')
    /\ writeFails w' = false /\ readBase64 w' = readBase64 w
    /\ store w' = Some d' /\ photos d' = photos d
    /\ currentIndex d' = (currentIndex d + 1) mod jsLength (photos d)
    /\ trace w' = (trace w ++ es)%list
    /\ map Some (rendered es) = [elementAt w (photos d) (currentIndex d')].
Proof.
  intros Hwf Hs Hr.
  destruct (rotatePhoto_next w Hwf Hs Hr)
    as (w1 & d1 & es & Hrot & Hwf1 & Hrb1 & Hs1 & Hp1 & Hi1 & Ht1 & Hre1).
  assert (Hr1 : 0 <= currentIndex d1 < jsLength (photos d1)).
  { rewrite Hp1, Hi1. apply Z.mod_pos_bound. lia. }
  assert (Hne : photos d1 <> []).
  { intros E. rewrite E in Hr1. unfold jsLength in Hr1. simpl in Hr1. lia. }
  destruct (@jsIndex_in_range _ (photos d1) (currentIndex d1) Hr1) as (p & Hp).
  assert (Hc : PhotoWidget.currentPhoto d1 = Some p).
  { unfold PhotoWidget.currentPhoto. rewrite Hp. reflexivity. }
  exists (log (EvRenderWidget (elementFor w1 p)) w1), d1,
    (es ++ [EvRenderWidget (elementFor w1 p)])%list.
  split.
  { rewrite tap_is_rotate_then_render. unfold bind. rewrite Hrot.
    apply (renderPhotoWidget_photo w1 Hs1 Hne Hc). }
  cbn [log writeFails readBase64 store trace].
  repeat split; auto.
  - rewrite Ht1, <- app_assoc. reflexivity.
  - rewrite rendered_app, Hre1. cbn [app rendered map].
    unfold elementAt. rewrite <- Hp1, Hp. cbn [option_map].
    rewrite (elementFor_reads_files_only w w1 p Hrb1). reflexivity.
Qed.

Lemma taps_show_in_turn (k : nat) : forall (w : World) (d : WidgetData),
  writeFails w = false ->
  store w = Some d ->
  0 <= currentIndex d < jsLength (photos d) ->
  exists w' es,
    repeatM k tap w = (Ok tt, w')
    /\ trace w' = (trace w ++ es)%list
    /\ map Some (rendered es)
       = map (fun j => elementAt w (photos d)
                         ((currentIndex d + Z.of_nat j) mod jsLength (photos d)))
             (seq 1 k).
Proof.
  induction k as [|k IH]; intros w d Hwf Hs Hr.
  - exists w, []. rewrite app_nil_r. repeat split.
  - destruct (tap_shows_next w Hwf Hs Hr)
      as (w1 & d1 & es1 & Htap & Hwf1 & Hrb1 & Hs1 & Hp1 & Hi1 & Ht1 & Hre1).
    assert (Hr1 : 0 <= currentIndex d1 < jsLength (photos d1)).
    { rewrite Hp1, Hi1. apply Z.mod_pos_bound. lia. }
    destruct (IH w1 d1 Hwf1 Hs1 Hr1) as (w2 & es2 & Hrun & Ht2 & Hre2).
    exists w2, (es1 ++ es2)%list. split; [|split].
    + cbn [repeatM]. unfold bind. rewrite Htap. exact Hrun.
    + rewrite Ht2, Ht1, <- app_assoc. reflexivity.
    + rewrite rendered_app, map_app, Hre1, Hre2. cbn [seq map app].
      f_equal; [rewrite Hi1; reflexivity|].
      rewrite <- (seq_shift k 1), map_map. apply map_ext. intros j.
      rewrite Hp1, Hi1, Z.add_mod_idemp_l by lia.
      replace (currentIndex d + 1 + Z.of_nat j)
        with (currentIndex d + Z.of_nat (S j)) by lia.
      unfold elementAt.
      destruct (jsIndex (photos d) _) as [p|]; [|reflexivity].
      cbn [option_map]. rewrite (elementFor_reads_files_only w w1 p Hrb1).
      reflexivity.
Qed.

(** X13.  The photos of the record the widget holds are shown one by one
    as the user taps the widget.  With a working store, a record of
    [N >= 1] photos and an index [i] in range, [k] taps return normally and
    hand exactly [k] elements to the widget host: the [j]-th tap shows the
    photo at index [(i + j) mod N] (its image, or the error placeholder
    when its file cannot be read), so the photos come in order and wrap
    around; the placeholder for an empty widget is never shown, and the
    index the widget then holds is [(i + k) mod N]. *)
Theorem taps_cycle_through_photos (k : nat) (w : World) (d : WidgetData) :
  store w = Some d ->
  writeFails w = false ->
  0 <= currentIndex d < jsLength (photos d) ->
  let w' := exec (repeatM k tap) w in
  let N := jsLength (photos d) in
  result (repeatM k tap) w = Ok tt
  /\ map Some (rendered (newEvents w w'))
     = map (fun j => elementAt w (photos d) ((currentIndex d + Z.of_nat j) mod N))
           (seq 1 k)
  /\ List.length (rendered (newEvents w w')) = k
  /\ ~ In TapToAddPhotos (rendered (newEvents w w'))
  /\ indexAfter tap k w = Some ((currentIndex d + Z.of_nat k) mod N).
Proof.
  intros Hs Hwf Hr.
  destruct (@taps_show_in_turn k w d Hwf Hs Hr) as (w2 & es & Hrun & Ht & Hre).
  assert (Hi : indexAfter tap k w
               = Some ((currentIndex d + Z.of_nat k) mod jsLength (photos d))).
  { destruct (@repeat_advance tap (photos d)
                (fun w => writeFails w = false)) with (k := k) (w := w) (d := d)
      as (w3 & d3 & Hrun3 & Hs3 & _ & Hi3); auto.
    - intros wa da Hwa Hsa Hpa Hra. rewrite <- Hpa in *.
      destruct (tap_shows_next wa Hwa Hsa Hra)
        as (wb & db & esb & Htap & Hwfb & _ & Hsb & Hpb & Hib & _).
      exists wb, db. repeat split; auto.
    - unfold indexAfter, exec. rewrite Hrun3. cbn [snd]. rewrite Hs3.
      cbn [option_map]. rewrite Hi3. reflexivity. }
  cbv zeta. unfold result, exec. rewrite Hrun. cbn [fst snd].
  rewrite (@newEvents_app w w2 es Ht).
  split; [reflexivity|]. split; [exact Hre|]. split; [|split; [|exact Hi]].
  - rewrite <- (length_map Some), Hre, length_map, length_seq. reflexivity.
  - intros Hin. apply (in_map Some) in Hin. rewrite Hre in Hin.
    apply in_map_iff in Hin. destruct Hin as (j & Hj & _).
    unfold elementAt in Hj.
    destruct (jsIndex (photos d) _) as [p|]; [|discriminate Hj].
    cbn [option_map] in Hj. injection Hj as Hj.
    unfold elementFor in Hj.
    destruct (result _ w) as [[image|]|]; discriminate Hj.
Qed.

Lemma taps_cycle_through_photos_witness :
  rendered
    (newEvents (deviceWith (Some (recordOf [photoA; photoB] 0 slideshow)))
       (exec (repeatM 3 tap)
          (deviceWith (Some (recordOf [photoA; photoB] 0 slideshow)))))
  = [UnableToLoad "Unable to load photo";
     PhotoImage "data:image/jpeg;base64,QUJD" "ROTATE_PHOTO";
     UnableToLoad "Unable to load photo"].
Proof.
  assert (Hr : 0 <= currentIndex (recordOf [photoA; photoB] 0 slideshow)
               < jsLength (photos (recordOf [photoA; photoB] 0 slideshow)))
    by (vm_compute; split; [discriminate | reflexivity]).
  pose proof (proj1 (proj2 (@taps_cycle_through_photos 3
                              (deviceWith (Some (recordOf [photoA; photoB] 0 slideshow)))
                              (recordOf [photoA; photoB] 0 slideshow)
                              eq_refl eq_refl Hr))) as H.
  apply (f_equal (fun l => match l with
                           | [Some a; Some b; Some c] => [a; b; c]
                           | _ => []
                           end)) in H.
  vm_compute in H. vm_compute. exact H.
Defined.

(** ** Bounds on a run of the picker workflow *)

Lemma statusRequests_downloadEvents (items : list MediaItem) :
  statusRequests (downloadEvents items) = 0%nat.
Proof.
  induction items as [|p items IH]; simpl; auto.
Qed.

Lemma sessionsCreated_app (a b : list Event) :
  sessionsCreated (a ++ b) = (sessionsCreated a + sessionsCreated b)%nat.
Proof.
  induction a as [|e a IH]; simpl; auto. destruct e; simpl; congruence.
Qed.

Lemma sessionsCreated_downloadEvents (items : list MediaItem) :
  sessionsCreated (downloadEvents items) = 0%nat.
Proof.
  induction items as [|p items IH]; simpl; auto.
Qed.

Ltac count_events :=
  repeat (rewrite ?statusRequests_app, ?deletions_app, ?saves_app, ?writes_app,
            ?sessionsCreated_app,
            ?statusRequests_downloadEvents, ?deletions_downloadEvents,
            ?saves_downloadEvents, ?writes_downloadEvents,
            ?sessionsCreated_downloadEvents, ?length_app;
          cbn [statusRequests deletions saves writes sessionsCreated app
               List.length Nat.add]).

Ltac trace_tail :=
  cbn [trace world]; repeat rewrite <- app_assoc; cbn [app]; reflexivity.

Lemma fetchSelectedPhotos_bounds (R : Remote) (sessId : string) (s : Picker) :
  exists s' es,
    fetchSelectedPhotos R sessId s = (Ok tt, s')
    /\ trace (world s') = (trace (world s) ++ es)%list
    /\ sessionsCreated es = 0%nat
    /\ withinBounds 0 es
    /\ finished (state s') = true
    /\ (writes es = [] -> store (world s') = store (world s)).
Proof.
  destruct s as [w st sid sel err prog mode].
  destruct w as [os t sto wf rb pl tr].
  run_picker.
  destruct (mediaItemsResp R) as [response|msg]; run_picker.
  2:{ eexists _, [_]. split; [reflexivity|]. split; [trace_tail|].
      unfold withinBounds. cbn. repeat split; auto; lia. }
  set (items := match response with Some items => items | None => [] end).
  destruct items as [|p items'] eqn:Hitems.
  - (* nothing was selected *)
    cbn [jsLength List.length Z.of_nat Z.ltb Z.compare]. run_picker.
    destruct (deleteSessionResp R) as [[]|msg]; run_picker;
      (eexists _, [_; _]; split; [reflexivity|]; split; [trace_tail|]);
      unfold withinBounds; cbn; repeat split; auto; lia.
  - assert (Hne : p :: items' <> []) by discriminate.
    rewrite (jsLength_pos Hne). run_picker.
    rewrite downloadLoop_spec by assumption. run_picker. cbn [app].
    destruct (map (toWidgetPhoto R) (succeededFrom R 0 (p :: items')))
      as [|q qs] eqn:Hok.
    + cbn [jsLength List.length Z.of_nat Z.ltb Z.compare]. run_picker.
      destruct (deleteSessionResp R) as [[]|msg]; run_picker;
        (eexists _, (_ :: downloadEvents (p :: items') ++ [_])%list;
         split; [reflexivity|]; split; [trace_tail|]);
        unfold withinBounds; count_events; repeat split; auto; lia.
    + assert (Hpos : (0 <? jsLength (q :: qs)) = true)
        by (apply jsLength_pos; discriminate).
      rewrite Hpos. run_picker.
      destruct os, wf; run_picker;
        try (destruct (deleteSessionResp R) as [[]|msg]; run_picker);
        (eexists _, (_ :: downloadEvents (p :: items') ++ _)%list;
         split; [reflexivity|]; split; [trace_tail|]);
        unfold withinBounds; count_events;
        repeat split; auto; try lia; try discriminate.
Qed.

Lemma withinBounds_app (n m : nat) (a b : list Event) :
  statusRequests a = n -> deletions a = 0%nat -> saves a = [] -> writes a = [] ->
  withinBounds m b -> withinBounds (n + m) (a ++ b).
Proof.
  intros Hn Hd Hs Hw (H1 & H2 & H3 & H4). unfold withinBounds.
  rewrite statusRequests_app, deletions_app, saves_app, writes_app, Hn, Hd, Hs, Hw.
  cbn [app Nat.add]. repeat split; lia.
Qed.

Lemma withinBounds_weaken (n m : nat) (es : list Event) :
  (n <= m)%nat -> withinBounds n es -> withinBounds m es.
Proof.
  intros Hle (H1 & H2 & H3 & H4). repeat split; lia.
Qed.

Lemma pollLoop_bounds (R : Remote) (sessId : string) : forall remaining s,
  exists returned s' es,
    pollLoop R sessId remaining s = (Ok returned, s')
    /\ trace (world s') = (trace (world s) ++ es)%list
    /\ sessionsCreated es = 0%nat
    /\ withinBounds remaining es
    /\ (returned = true -> finished (state s') = true)
    /\ (returned = false -> deletions es = 0%nat /\ writes es = [])
    /\ (writes es = [] -> store (world s') = store (world s)).
Proof.
  induction remaining as [|remaining IH]; intros s.
  - exists false, s, []. rewrite app_nil_r.
    repeat split; auto; try discriminate; cbn; lia.
  - cbn [pollLoop].
    unfold bind at 1, tryCatch at 1, bind at 1, liftW at 1,
      PhotosPickerApi.getPickerSession.
    unfold bind at 1, emit at 1, modify at 1.
    unfold bind at 1, gets at 1. cbn [polls log].
    unfold bind at 1, modify at 1, fromOutcome at 1.
    destruct (getSessionResp R (polls (world s))) as [session|msg].
    + destruct (mediaItemsSet session).
      * (* ready: the loop hands over *)
        unfold bind at 1.
        match goal with
        | |- context [fetchSelectedPhotos R sessId ?s1] =>
            destruct (fetchSelectedPhotos_bounds R sessId s1)
              as (s2 & es & Hf & Ht & Hc & Hb & Hfin & Hst)
        end.
        rewrite Hf. unfold ret at 1. unfold ret at 1.
        exists true, s2, (EvGetSession sessId :: es).
        split; [reflexivity|].
        split; [rewrite Ht; cbn [world setWorld countPoll log trace];
                rewrite <- app_assoc; reflexivity|].
        split; [exact Hc|].
        split; [apply (@withinBounds_app 1 remaining [EvGetSession sessId] es);
                auto; apply (@withinBounds_weaken 0); [lia | exact Hb]|].
        split; [intros _; exact Hfin|].
        split; [discriminate|].
        intros Hw. rewrite (Hst Hw). reflexivity.
      * (* not ready: wait, then poll again *)
        unfold bind at 1, liftW at 1, sleep, modify at 1, ret at 1.
        cbn [world setWorld].
        match goal with
        | |- context [pollLoop R sessId remaining ?s1] =>
            destruct (IH s1) as (b & s2 & es & Hp & Ht & Hc & Hb & Hfin & Hno & Hst)
        end.
        rewrite Hp.
        exists b, s2, ([EvGetSession sessId; EvSleep 5000] ++ es)%list.
        split; [destruct b; reflexivity|].
        split; [rewrite Ht; cbn [world setWorld countPoll log tick trace];
                repeat rewrite <- app_assoc; reflexivity|].
        split; [exact Hc|].
        split; [apply (@withinBounds_app 1 remaining); auto|].
        split; [exact Hfin|].
        split; [intros Hb'; rewrite deletions_app, writes_app;
                destruct (Hno Hb') as [-> ->]; split; reflexivity|].
        intros Hw. rewrite writes_app in Hw. cbn in Hw.
        rewrite (Hst Hw). reflexivity.
    + (* the status request failed: break *)
      unfold ret at 1.
      eexists false, _, [EvGetSession sessId].
      split; [reflexivity|].
      split; [cbn [world setWorld countPoll log trace]; reflexivity|].
      unfold withinBounds. cbn. repeat split; auto; try discriminate; lia.
Qed.

Lemma withinBounds_then_delete (n : nat) (es : list Event) (sessId : string) :
  withinBounds n es -> deletions es = 0%nat ->
  withinBounds n (es ++ [EvDeleteSession sessId]).
Proof.
  intros (H1 & H2 & H3 & H4) Hd. unfold withinBounds.
  rewrite statusRequests_app, deletions_app, saves_app, writes_app, Hd.
  cbn. rewrite !app_nil_r. repeat split; lia.
Qed.

Lemma pollForSelection_bounds (R : Remote) (sessId : string) (s : Picker) :
  exists s' es,
    pollForSelection R sessId s = (Ok tt, s')
    /\ trace (world s') = (trace (world s) ++ es)%list
    /\ sessionsCreated es = 0%nat
    /\ withinBounds 60 es
    /\ finished (state s') = true
    /\ (writes es = [] -> store (world s') = store (world s)).
Proof.
  unfold pollForSelection, maxAttempts. unfold bind at 1.
  destruct (pollLoop_bounds R sessId 60 s)
    as (b & s1 & es & Hp & Ht & Hc & Hb & Hfin & Hno & Hst).
  rewrite Hp. destruct b.
  - exists s1, es. repeat split; auto; apply Hb.
  - destruct (Hno eq_refl) as [Hd Hw].
    destruct s1 as [w1 st1 sid1 sel1 err1 prog1 mode1].
    destruct w1 as [os1 t1 sto1 wf1 rb1 pl1 tr1].
    cbn [world trace store] in *.
    destruct (String.eqb sessId EmptyString).
    + run_picker. eexists _, es. split; [reflexivity|].
      repeat split; auto; apply Hb.
    + run_picker.
      destruct (deleteSessionResp R) as [[]|msg];
        (eexists _, (es ++ [EvDeleteSession sessId])%list;
         split; [reflexivity|];
         split; [cbn [world trace]; rewrite Ht, <- app_assoc; reflexivity|];
         split; [rewrite sessionsCreated_app, Hc; reflexivity|];
         split; [apply withinBounds_then_delete; assumption|];
         split; [reflexivity|];
         intros Hw'; cbn [world store]; apply Hst; exact Hw).
Qed.

Lemma startPicker_returns (R : Remote) (s : Picker) :
  exists detached s0 es,
    startPicker R s = (Ok detached, s0)
    /\ trace (world s0) = (trace (world s) ++ es)%list
    /\ (sessionsCreated es <= 1)%nat
    /\ statusRequests es = 0%nat /\ deletions es = 0%nat
    /\ saves es = [] /\ writes es = []
    /\ store (world s0) = store (world s)
    /\ state s0 = match detached with Some _ => StPolling | None => StError end.
Proof.
  destruct s as [w st sid sel err prog mode].
  destruct w as [os t sto wf rb pl tr].
  run_picker.
  destruct (createSessionResp R) as [session|msg].
  2:{ run_picker. eexists None, _, [EvCreateSession].
      repeat split; reflexivity || (cbn; lia). }
  run_picker.
  destruct (openBrowserResp R) as [[]|msg].
  - run_picker.
    eexists (Some (ps_id session)), _,
      [EvCreateSession; EvOpenBrowser (pickerUri session)].
    split; [reflexivity|].
    split; [cbn [world trace]; rewrite <- app_assoc; reflexivity|].
    repeat split; reflexivity || (cbn; lia).
  - run_picker.
    eexists None, _, [EvCreateSession; EvOpenBrowser (pickerUri session)].
    split; [reflexivity|].
    split; [cbn [world trace]; rewrite <- app_assoc; reflexivity|].
    repeat split; reflexivity || (cbn; lia).
Qed.

Lemma pickerWorkflow_bounds (R : Remote) (s : Picker) :
  exists s' es,
    pickerWorkflow R s = (Ok tt, s')
    /\ trace (world s') = (trace (world s) ++ es)%list
    /\ (sessionsCreated es <= 1)%nat
    /\ withinBounds 60 es
    /\ finished (state s') = true
    /\ (writes es = [] -> store (world s') = store (world s)).
Proof.
  destruct (startPicker_returns R s)
    as (detached & s0 & es0 & Hrun & Ht0 & Hc0 & Hq0 & Hd0 & Hs0 & Hw0 & Hst0 & Hstate).
  unfold pickerWorkflow. unfold bind at 1. rewrite Hrun.
  destruct detached as [sessId|].
  - destruct (pollForSelection_bounds R sessId s0)
      as (s2 & es & Hp & Ht & Hc & Hb & Hfin & Hst).
    rewrite Hp.
    exists s2, (es0 ++ es)%list.
    split; [reflexivity|].
    split; [rewrite Ht, Ht0; rewrite <- app_assoc; reflexivity|].
    split; [rewrite sessionsCreated_app, Hc; lia|].
    split; [apply (@withinBounds_app 0 60); auto|].
    split; [exact Hfin|].
    rewrite writes_app, Hw0. cbn [app]. intros Hnone.
    rewrite (Hst Hnone). exact Hst0.
  - exists s0, es0.
    split; [reflexivity|]. split; [exact Ht0|]. split; [exact Hc0|].
    split; [unfold withinBounds; rewrite Hq0, Hd0, Hs0, Hw0; cbn; repeat split; lia|].
    split; [rewrite Hstate; reflexivity|].
    intros _. exact Hst0.
Qed.

(** X14.  Whatever the remote service, the browser and the downloads do,
    [startPicker] returns normally, having sent no status request and
    written nothing: in the error state when the session could not be
    created or the browser not opened, otherwise in the polling state with
    the polling left running.  The workflow it sets off ([startPicker],
    then the polling it started) comes to rest with the screen showing
    success or an error.  Up to that point it creates at most one session,
    sends at most 60 status requests, requests at most one session
    deletion, calls [saveWidgetPhotos] at most once and attempts at most
    one durable write, after that call.  When no write was attempted the
    stored record is the one found at the start. *)
Theorem startPicker_is_bounded (R : Remote) (s : Picker) :
  let s0 := exec (startPicker R) s in
  let s' := exec (pickerWorkflow R) s in
  let events := newEvents (world s) (world s') in
  (exists detached,
     result (startPicker R) s = Ok detached
     /\ state s0 = match detached with Some _ => StPolling | None => StError end)
  /\ statusRequests (newEvents (world s) (world s0)) = 0%nat
  /\ store (world s0) = store (world s)
  /\ result (pickerWorkflow R) s = Ok tt
  /\ finished (state s') = true
  /\ (sessionsCreated events <= 1)%nat
  /\ withinBounds 60 events
  /\ (writes events = [] -> store (world s') = store (world s)).
Proof.
  cbv zeta. unfold result, exec.
  destruct (startPicker_returns R s)
    as (detached & s0 & es0 & Hrun0 & Ht0 & _ & Hq0 & _ & _ & _ & Hst0 & Hstate).
  destruct (pickerWorkflow_bounds R s) as (s' & es & Hrun & Ht & Hc & Hb & Hfin & Hst).
  rewrite Hrun0, Hrun. cbn [fst snd].
  rewrite (@newEvents_app _ _ es Ht), (@newEvents_app _ _ es0 Ht0).
  split; [exists detached; split; [reflexivity | exact Hstate]|].
  repeat split; auto; apply Hb.
Qed.

Lemma startPicker_is_bounded_witness :
  store (world (exec (pickerWorkflow unreachable)
                  (idleScreen (deviceWith (Some indexPastEnd)))))
  = Some indexPastEnd.
Proof.
  apply (proj2 (proj2 (proj2 (proj2 (proj2 (proj2 (proj2
           (@startPicker_is_bounded unreachable
              (idleScreen (deviceWith (Some indexPastEnd))))))))))).
  vm_compute. reflexivity.
Defined.

(** ** Paths of the picker workflow *)

(** X15.  An empty selection is an error of its own.  When the media-item
    answer has no [mediaItems] field or an empty list, [fetchSelectedPhotos]
    downloads nothing, does not call [saveWidgetPhotos], leaves the stored
    record alone, requests the deletion of the session, and ends in the
    error state; the message is "No photos were selected" (or the message of
    the deletion request, when that throws). *)
Theorem empty_selection_is_an_error (R : Remote) (sessId : string) (s : Picker) :
  (mediaItemsResp R = Ok None \/ mediaItemsResp R = Ok (Some [])) ->
  let s' := exec (fetchSelectedPhotos R sessId) s in
  newEvents (world s) (world s')
  = [EvFetchMediaItems sessId; EvDeleteSession sessId]
  /\ state s' = StError
  /\ selectedPhotos s' = []
  /\ store (world s') = store (world s)
  /\ error s' = Some (match deleteSessionResp R with
                      | Ok _ => "No photos were selected"
                      | Throw message => message
                      end).
Proof.
  intros Hresp s'. subst s'.
  destruct s as [w st sid sel err prog mode].
  destruct w as [os t sto wf rb pl tr].
  run_picker.
  destruct Hresp as [-> | ->]; run_picker;
    cbn [jsLength List.length Z.of_nat Z.ltb Z.compare]; run_picker;
    destruct (deleteSessionResp R) as [[]|msg]; run_picker;
    (split; [unfold newEvents; cbn [trace]; rewrite <- app_assoc;
             rewrite skipn_prefix; reflexivity|]);
    repeat split; reflexivity.
Qed.

Lemma empty_selection_is_an_error_witness :
  shown (exec (fetchSelectedPhotos nothingSelected "s1")
           (idleScreen (deviceWith (Some indexPastEnd))))
  = (StError, Some "No photos were selected")
  /\ store (world (exec (fetchSelectedPhotos nothingSelected "s1")
                     (idleScreen (deviceWith (Some indexPastEnd)))))
     = Some indexPastEnd.
Proof.
  pose proof (@empty_selection_is_an_error nothingSelected "s1"
                (idleScreen (deviceWith (Some indexPastEnd)))
                (or_introl eq_refl)) as H.
  cbv zeta in H. destruct H as (_ & Hstate & _ & Hstore & Herror).
  split; [|exact Hstore].
  unfold shown. rewrite Hstate, Herror. reflexivity.
Defined.

(** X16.  A status request that fails in transport ends the polling at
    once.  When the first [j - 1] requests find the selection not ready
    and the [j]-th throws (1 <= j <= 60), [pollForSelection] has sent exactly
    [j] status requests and slept [(j - 1) * 5000] milliseconds; it asks
    for no media items, requests the deletion of the session once, leaves
    the stored record alone and shows the time-out message.
    [waitForPhotoSelection] returns [false] after the same [j] requests. *)
Theorem status_failure_on_attempt
    (R : Remote) (sessId message : string) (s : Picker) (j : nat) :
  sessId <> EmptyString ->
  (1 <= j <= 60)%nat ->
  unreadyFor R (polls (world s)) (j - 1) ->
  getSessionResp R (polls (world s) + (j - 1)) = Throw message ->
  let s' := exec (pollForSelection R sessId) s in
  let new := newEvents (world s) (world s') in
  new = (unreadyEvents sessId (j - 1)
         ++ [EvGetSession sessId; EvDeleteSession sessId])%list
  /\ statusRequests new = j
  /\ sleptMs new = (Z.of_nat j - 1) * 5000
  /\ deletions new = 1%nat
  /\ shown s' = (StError, Some "No photos were selected or the session timed out")
  /\ store (world s') = store (world s)
  /\ PhotosPickerApi.waitForPhotoSelection R sessId (world s)
     = (Ok false, readyAt sessId j (world s)).
Proof.
  intros Hid Hj Hun Hthrow s' new.
  assert (Hsplit : (60 = (j - 1) + S (60 - j))%nat) by lia.
  assert (Hpolls : polls (afterUnready sessId (j - 1) (world s))
                   = (polls (world s) + (j - 1))%nat).
  { rewrite afterUnready_spec. reflexivity. }
  assert (Hend : s' = {| world := log (EvDeleteSession sessId)
                                    (readyAt sessId j (world s));
                         state := StError; sessionId := sessionId s;
                         selectedPhotos := selectedPhotos s;
                         error := Some "No photos were selected or the session timed out";
                         downloadProgress := downloadProgress s;
                         pickerDisplayMode := pickerDisplayMode s |}).
  { subst s'. unfold exec, pollForSelection, maxAttempts. unfold bind at 1.
    rewrite Hsplit at 1.
    rewrite (@pollLoop_unready R sessId (j - 1) (S (60 - j)) s Hun).
    cbn [pollLoop].
    unfold bind at 1, tryCatch at 1, bind at 1, liftW at 1,
      PhotosPickerApi.getPickerSession.
    unfold bind at 1, emit at 1, modify at 1.
    unfold bind at 1, gets at 1. cbn [world setWorld].
    unfold bind at 1, modify at 1, fromOutcome at 1.
    cbn [polls log]. rewrite Hpolls, Hthrow.
    unfold ret at 1. unfold ret at 1.
    apply String.eqb_neq in Hid. rewrite Hid.
    unfold readyAt. destruct s as [w st sid sel err prog mode].
    run_picker. destruct (deleteSessionResp R); reflexivity. }
  assert (Hnew : new = (unreadyEvents sessId (j - 1)
                        ++ [EvGetSession sessId; EvDeleteSession sessId])%list).
  { subst new. rewrite Hend. cbn [world]. apply newEvents_app.
    unfold readyAt. rewrite afterUnready_spec. cbn [countPoll log trace].
    repeat rewrite <- app_assoc. reflexivity. }
  clearbody s' new. subst s' new.
  rewrite statusRequests_app, sleptMs_app, deletions_app,
    statusRequests_unready, sleptMs_unready, deletions_unready.
  unfold shown, readyAt. rewrite afterUnready_spec.
  cbn [world state error log countPoll store statusRequests sleptMs deletions].
  repeat split; try lia.
  unfold PhotosPickerApi.waitForPhotoSelection, PhotosPickerApi.maxAttempts.
  rewrite Hsplit at 1.
  rewrite (@waitLoop_unready R sessId (j - 1) (S (60 - j)) _ Hun).
  cbn [PhotosPickerApi.waitLoop].
  unfold bind at 1, tryCatch at 1, bind at 1,
    PhotosPickerApi.getPickerSession.
  unfold bind at 1, emit at 1, modify at 1.
  unfold bind at 1, gets at 1.
  unfold bind at 1, modify at 1, fromOutcome at 1.
  cbn [polls log]. rewrite Hpolls, Hthrow.
  rewrite afterUnready_spec. reflexivity.
Qed.

Lemma status_failure_on_attempt_witness :
  newEvents (deviceWith None)
    (world (exec (pollForSelection thirdStatusFails "s1")
              (idleScreen (deviceWith None))))
  = [EvGetSession "s1"; EvSleep 5000; EvGetSession "s1"; EvSleep 5000;
     EvGetSession "s1"; EvDeleteSession "s1"].
Proof.
  assert (Hid : "s1" <> EmptyString) by discriminate.
  assert (Hj : (1 <= 3 <= 60)%nat) by lia.
  assert (Hun : unreadyFor thirdStatusFails
                  (polls (world (idleScreen (deviceWith None)))) (3 - 1)).
  { intros j Hj'. exists (sessionOf false).
    destruct j as [|[|j]];
      [split; reflexivity | split; reflexivity | simpl in Hj'; lia]. }
  exact (proj1 (@status_failure_on_attempt thirdStatusFails "s1"
                  "Failed to get picker session: 503"
                  (idleScreen (deviceWith None)) 3 Hid Hj Hun eq_refl)).
Defined.

(** X17.  A failure before polling starts is shown with its own message,
    and nothing is cleaned up.  When the session cannot be created,
    [startPicker] stops after that one request.  When the session is
    created and the browser cannot be opened, it stops after the attempt to
    open it: the screen keeps the session id, no status request is sent and
    the deletion of the session is not requested. *)
Theorem startPicker_early_failure (R : Remote) (s : Picker) (message : string) :
  let s' := exec (startPicker R) s in
  (createSessionResp R = Throw message ->
   newEvents (world s) (world s') = [EvCreateSession]
   /\ shown s' = (StError, Some message)
   /\ sessionId s' = sessionId s)
  /\ (forall session,
        createSessionResp R = Ok session ->
        openBrowserResp R = Throw message ->
        newEvents (world s) (world s')
        = [EvCreateSession; EvOpenBrowser (pickerUri session)]
        /\ shown s' = (StError, Some message)
        /\ sessionId s' = Some (ps_id session)).
Proof.
  intros s'. subst s'.
  destruct s as [w st sid sel err prog mode].
  destruct w as [os t sto wf rb pl tr].
  split.
  - intros Hc. run_picker. rewrite Hc. run_picker.
    split; [unfold newEvents; cbn [trace]; rewrite skipn_prefix; reflexivity|].
    split; reflexivity.
  - intros session Hc Hb. run_picker. rewrite Hc. run_picker.
    rewrite Hb. run_picker.
    split; [unfold newEvents; cbn [trace]; rewrite <- app_assoc;
            rewrite skipn_prefix; reflexivity|].
    split; reflexivity.
Qed.

Lemma startPicker_early_failure_witness :
  newEvents (deviceWith None)
    (world (exec (startPicker browserFails) (idleScreen (deviceWith None))))
  = [EvCreateSession; EvOpenBrowser "https://picker.example/s1"]
  /\ sessionId (exec (startPicker browserFails) (idleScreen (deviceWith None)))
     = Some "s1".
Proof.
  destruct (proj2 (@startPicker_early_failure browserFails
                     (idleScreen (deviceWith None)) "No browser available")
              (sessionOf false) eq_refl eq_refl) as (Hnew & _ & Hid).
  split; [exact Hnew | exact Hid].
Defined.

(** ** [pickPhotos] *)

Lemma openPhotoPicker_opens (R : Remote) (w : World) (session : PickerSession) :
  createSessionResp R = Ok session ->
  openBrowserResp R = Ok tt ->
  PhotosPickerApi.openPhotoPicker R w
  = (Ok (ps_id session),
     log (EvOpenBrowser (pickerUri session)) (log EvCreateSession w)).
Proof.
  intros Hc Hb.
  unfold PhotosPickerApi.openPhotoPicker, tryCatch, bind,
    PhotosPickerApi.createPickerSession, PhotosPickerApi.openBrowserAsync,
    emit, modify, fromOutcome, ret.
  rewrite Hc, Hb. reflexivity.
Qed.

Lemma waitLoop_ready (R : Remote) (sessId : string) (k : nat) (w : World) :
  (1 <= k <= 60)%nat ->
  unreadyFor R (polls w) (k - 1) ->
  (exists session, getSessionResp R (polls w + (k - 1)) = Ok session
                   /\ mediaItemsSet session = true) ->
  PhotosPickerApi.waitForPhotoSelection R sessId w = (Ok true, readyAt sessId k w).
Proof.
  intros Hk Hun (session & Hresp & Hset).
  assert (Hsplit : (60 = (k - 1) + S (60 - k))%nat) by lia.
  unfold PhotosPickerApi.waitForPhotoSelection, PhotosPickerApi.maxAttempts.
  rewrite Hsplit at 1.
  rewrite (@waitLoop_unready R sessId (k - 1) (S (60 - k)) _ Hun).
  cbn [PhotosPickerApi.waitLoop].
  unfold bind at 1, tryCatch at 1, bind at 1,
    PhotosPickerApi.getPickerSession.
  unfold bind at 1, emit at 1, modify at 1.
  unfold bind at 1, gets at 1.
  unfold bind at 1, modify at 1, fromOutcome at 1.
  cbn [polls log].
  replace (polls (afterUnready sessId (k - 1) w)) with (polls w + (k - 1))%nat
    by (rewrite afterUnready_spec; reflexivity).
  rewrite Hresp, Hset. reflexivity.
Qed.

Lemma readyAt_trace (sessId : string) (k : nat) (w : World) :
  trace (readyAt sessId k w)
  = (trace w ++ unreadyEvents sessId (k - 1) ++ [EvGetSession sessId])%list.
Proof.
  unfold readyAt. rewrite afterUnready_spec. cbn [countPoll log trace].
  rewrite <- app_assoc. reflexivity.
Qed.

(** X18.  [pickPhotos], when the selection becomes ready on the [k]-th
    status request (1 <= k <= 60): it creates the session, opens the
    browser, waits two seconds, sends exactly [k] status requests, asks for
    the media items and then requests the deletion of the session.  When
    that deletion returns, [pickPhotos] returns the selected items, or an
    empty list when the answer carries none; when the deletion throws,
    which no [try] guards, [pickPhotos] throws the deletion's error and the
    selection is lost.  When the media-item request throws, [pickPhotos]
    throws the same error and the deletion of the session is not
    requested. *)
Theorem pickPhotos_returns_selection
    (R : Remote) (w : World) (session : PickerSession) (k : nat) :
  createSessionResp R = Ok session ->
  openBrowserResp R = Ok tt ->
  ps_id session <> EmptyString ->
  (1 <= k <= 60)%nat ->
  unreadyFor R (polls w) (k - 1) ->
  (exists ready, getSessionResp R (polls w + (k - 1)) = Ok ready
                 /\ mediaItemsSet ready = true) ->
  let new := newEvents w (exec (PhotosPickerApi.pickPhotos R) w) in
  (forall response,
     mediaItemsResp R = Ok response ->
     new = ([EvCreateSession; EvOpenBrowser (pickerUri session); EvSleep 2000]
            ++ unreadyEvents (ps_id session) (k - 1)
            ++ [EvGetSession (ps_id session); EvFetchMediaItems (ps_id session);
                EvDeleteSession (ps_id session)])%list
     /\ (deleteSessionResp R = Ok tt ->
         result (PhotosPickerApi.pickPhotos R) w
         = Ok (match response with Some items => items | None => [] end))
     /\ (forall message,
           deleteSessionResp R = Throw message ->
           result (PhotosPickerApi.pickPhotos R) w = Throw message))
  /\ (forall message,
        mediaItemsResp R = Throw message ->
        result (PhotosPickerApi.pickPhotos R) w = Throw message
        /\ statusRequests new = k
        /\ deletions new = 0%nat).
Proof.
  intros Hc Hb Hid Hk Hun Hready new.
  apply String.eqb_neq in Hid.
  set (w2 := pickerDismissed session w).
  set (w3 := readyAt (ps_id session) k w2).
  assert (Hrun : PhotosPickerApi.pickPhotos R w
                 = bind (PhotosPickerApi.fetchPickerMediaItems R (ps_id session))
                     (fun response =>
                        bind (PhotosPickerApi.deletePickerSession R (ps_id session))
                          (fun _ => ret (match response with
                                         | Some items => items
                                         | None => []
                                         end))) w3).
  { unfold PhotosPickerApi.pickPhotos. unfold bind at 1.
    rewrite (openPhotoPicker_opens R w Hc Hb), Hid.
    unfold bind at 1, sleep at 1, modify at 1.
    unfold bind at 1.
    change (tick 2000 (log (EvSleep 2000)
              (log (EvOpenBrowser (pickerUri session)) (log EvCreateSession w))))
      with w2.
    rewrite (@waitLoop_ready R (ps_id session) k w2 Hk Hun Hready).
    reflexivity. }
  assert (Ht3 : trace w3
                = (trace w ++ [EvCreateSession; EvOpenBrowser (pickerUri session);
                               EvSleep 2000]
                   ++ unreadyEvents (ps_id session) (k - 1)
                   ++ [EvGetSession (ps_id session)])%list).
  { subst w3. rewrite readyAt_trace. subst w2. unfold pickerDismissed.
    cbn [tick log trace]. repeat rewrite <- app_assoc. reflexivity. }
  clearbody w3. clear w2.
  subst new. unfold exec, result. rewrite Hrun.
  cbv beta iota delta [bind PhotosPickerApi.fetchPickerMediaItems
                       PhotosPickerApi.deletePickerSession emit modify
                       fromOutcome ret].
  split.
  - intros response Hm. rewrite Hm.
    split.
    + apply newEvents_app.
      destruct (deleteSessionResp R) as [[]|msg]; cbn [snd log trace];
        rewrite Ht3; repeat rewrite <- app_assoc; reflexivity.
    + split; [intros Hd | intros message Hd]; rewrite Hd; reflexivity.
  - intros message Hm. rewrite Hm. cbn [fst snd].
    split; [reflexivity|].
    rewrite (@newEvents_app w _
               ([EvCreateSession; EvOpenBrowser (pickerUri session); EvSleep 2000]
                ++ unreadyEvents (ps_id session) (k - 1)
                ++ [EvGetSession (ps_id session);
                    EvFetchMediaItems (ps_id session)])%list)
      by (cbn [log trace]; rewrite Ht3; repeat rewrite <- app_assoc; reflexivity).
    rewrite !statusRequests_app, !deletions_app, statusRequests_unready,
      deletions_unready.
    cbn. split; lia.
Qed.

Lemma pickPhotos_returns_selection_witness :
  result (PhotosPickerApi.pickPhotos (readyOnAttempt 3)) (deviceWith None)
  = Ok fiveItems.
Proof.
  assert (Hid : ps_id (sessionOf false) <> EmptyString) by discriminate.
  assert (Hk : (1 <= 3 <= 60)%nat) by lia.
  assert (Hun : unreadyFor (readyOnAttempt 3) (polls (deviceWith None)) (3 - 1)).
  { intros j Hj. exists (sessionOf false).
    destruct j as [|[|j]];
      [split; reflexivity | split; reflexivity | simpl in Hj; lia]. }
  assert (Hready : exists ready,
             getSessionResp (readyOnAttempt 3) (polls (deviceWith None) + (3 - 1))
             = Ok ready /\ mediaItemsSet ready = true).
  { exists (sessionOf true). split; reflexivity. }
  exact (proj1 (proj2 (proj1 (@pickPhotos_returns_selection (readyOnAttempt 3)
                                (deviceWith None) (sessionOf false) 3
                                eq_refl eq_refl Hid Hk Hun Hready)
                         (Some fiveItems) eq_refl)) eq_refl).
Defined.

(** ** The workflow from start to success *)

Lemma pollForSelection_ready (R : Remote) (sessId : string) (s : Picker) (k : nat) :
  (1 <= k <= 60)%nat ->
  unreadyFor R (polls (world s)) (k - 1) ->
  (exists session, getSessionResp R (polls (world s) + (k - 1)) = Ok session
                   /\ mediaItemsSet session = true) ->
  pollForSelection R sessId s
  = fetchSelectedPhotos R sessId (setWorld (readyAt sessId k (world s)) s).
Proof.
  intros Hk Hun (session & Hresp & Hset).
  assert (Hsplit : (60 = (k - 1) + S (60 - k))%nat) by lia.
  assert (Hpolls : polls (afterUnready sessId (k - 1) (world s))
                   = (polls (world s) + (k - 1))%nat).
  { rewrite afterUnready_spec. reflexivity. }
  unfold pollForSelection, maxAttempts. unfold bind at 1.
  rewrite Hsplit at 1.
  rewrite (@pollLoop_unready R sessId (k - 1) (S (60 - k)) s Hun).
  cbn [pollLoop].
  unfold bind at 1, tryCatch at 1, bind at 1, liftW at 1,
    PhotosPickerApi.getPickerSession.
  unfold bind at 1, emit at 1, modify at 1.
  unfold bind at 1, gets at 1. cbn [world setWorld].
  unfold bind at 1, modify at 1, fromOutcome at 1.
  cbn [polls log]. rewrite Hpolls, Hresp, Hset.
  unfold bind at 1.
  replace (setWorld _ (setWorld _ s))
    with (setWorld (readyAt sessId k (world s)) s)
    by (destruct s; reflexivity).
  destruct (fetchSelectedPhotos_returns R sessId
              (setWorld (readyAt sessId k (world s)) s)) as (s2 & Hf).
  rewrite Hf. reflexivity.
Qed.

Lemma fetchSelectedPhotos_success
    (R : Remote) (sessId : string) (s : Picker) (items : list MediaItem) :
  mediaItemsResp R = Ok (Some items) ->
  succeededFrom R 0 items <> [] ->
  deleteSessionResp R = Ok tt ->
  platformOS (world s) = android ->
  writeFails (world s) = false ->
  let ps := map (toWidgetPhoto R) (succeededFrom R 0 items) in
  let record := committed ps (pickerDisplayMode s) (now (world s)) in
  fetchSelectedPhotos R sessId s
  = (Ok tt,
     {| world :=
          setStore (Some record)
            (appendTrace
               ([EvFetchMediaItems sessId] ++ downloadEvents items
                ++ [EvSaveWidgetPhotos ps (pickerDisplayMode s); EvWrite record;
                    EvRequestWidgetUpdate;
                    EvAlert "Photos Selected!"
                      (savedMessage (jsLength ps) (pickerDisplayMode s));
                    EvDeleteSession sessId])
               (world s));
        state := StDone;
        sessionId := sessionId s;
        selectedPhotos := items;
        error := error s;
        downloadProgress := (jsLength items, jsLength items);
        pickerDisplayMode := pickerDisplayMode s |}).
Proof.
  intros HR Hok Hd Hos Hwf ps record. subst record ps.
  assert (Hne : items <> []).
  { intros E. apply Hok. rewrite E. reflexivity. }
  destruct s as [w st sid sel err prog mode].
  destruct w as [os t sto wf rb pl tr].
  cbn [world platformOS writeFails pickerDisplayMode] in *. subst os wf.
  run_picker. rewrite HR. run_picker. rewrite (jsLength_pos Hne).
  rewrite downloadLoop_spec by assumption. run_picker. cbn [app].
  assert (Hpos : (0 <? jsLength (map (toWidgetPhoto R) (succeededFrom R 0 items)))
                 = true).
  { apply jsLength_pos. intros E. apply map_eq_nil in E. exact (Hok E). }
  rewrite Hpos. run_picker. rewrite Hd. run_picker.
  unfold committed. cbn [Z.of_nat Z.add].
  repeat rewrite <- app_assoc. reflexivity.
Qed.

(** X19.  The workflow from start to success.  When the session is
    created, the browser is dismissed, the selection becomes ready on the
    [k]-th status request (1 <= k <= 60), at least one of the selected
    items downloads with status 200, the store accepts the write (on
    Android) and the session deletion succeeds: [startPicker] itself
    returns in the polling state after the create and open requests, with
    the polling of the new session left running; when that polling has
    come to rest the screen is in the done state with the session id and
    the selection on it and the progress indicator at the number of items.
    The store then holds the photos of the downloaded items with index 0
    and the display mode of the screen; and the events are, in this order:
    create, open, the [k] status requests with their waits, the media-item
    request, one download per item, the save and its write, one redraw
    request, the success alert and the deletion of the session. *)
Theorem startPicker_success
    (R : Remote) (s : Picker) (session : PickerSession)
    (items : list MediaItem) (k : nat) :
  createSessionResp R = Ok session ->
  openBrowserResp R = Ok tt ->
  (1 <= k <= 60)%nat ->
  unreadyFor R (polls (world s)) (k - 1) ->
  (exists ready, getSessionResp R (polls (world s) + (k - 1)) = Ok ready
                 /\ mediaItemsSet ready = true) ->
  mediaItemsResp R = Ok (Some items) ->
  succeededFrom R 0 items <> [] ->
  deleteSessionResp R = Ok tt ->
  platformOS (world s) = android ->
  writeFails (world s) = false ->
  let s0 := exec (startPicker R) s in
  let s' := exec (pickerWorkflow R) s in
  let ps := map (toWidgetPhoto R) (succeededFrom R 0 items) in
  result (startPicker R) s = Ok (Some (ps_id session))
  /\ state s0 = StPolling
  /\ newEvents (world s) (world s0)
     = [EvCreateSession; EvOpenBrowser (pickerUri session)]
  /\ result (pickerWorkflow R) s = Ok tt
  /\ state s' = StDone
  /\ sessionId s' = Some (ps_id session)
  /\ selectedPhotos s' = items
  /\ downloadProgress s' = (jsLength items, jsLength items)
  /\ error s' = error s
  /\ exists t,
       store (world s') = Some (committed ps (pickerDisplayMode s) t)
       /\ newEvents (world s) (world s')
          = ([EvCreateSession; EvOpenBrowser (pickerUri session)]
             ++ unreadyEvents (ps_id session) (k - 1)
             ++ [EvGetSession (ps_id session); EvFetchMediaItems (ps_id session)]
             ++ downloadEvents items
             ++ [EvSaveWidgetPhotos ps (pickerDisplayMode s);
                 EvWrite (committed ps (pickerDisplayMode s) t);
                 EvRequestWidgetUpdate;
                 EvAlert "Photos Selected!"
                   (savedMessage (jsLength ps) (pickerDisplayMode s));
                 EvDeleteSession (ps_id session)])%list.
Proof.
  intros Hc Hb Hk Hun Hready HR Hok Hd Hos Hwf s0 s' ps.
  set (s1 := {| world := log (EvOpenBrowser (pickerUri session))
                           (log EvCreateSession (world s));
                state := StPolling; sessionId := Some (ps_id session);
                selectedPhotos := selectedPhotos s; error := error s;
                downloadProgress := downloadProgress s;
                pickerDisplayMode := pickerDisplayMode s |}).
  set (w1 := readyAt (ps_id session) k (world s1)).
  assert (Hw1 : platformOS w1 = android /\ writeFails w1 = false
                /\ trace w1 = (trace (world s)
                               ++ [EvCreateSession; EvOpenBrowser (pickerUri session)]
                               ++ unreadyEvents (ps_id session) (k - 1)
                               ++ [EvGetSession (ps_id session)])%list).
  { subst w1 s1. unfold readyAt. rewrite afterUnready_spec.
    cbn [world countPoll log platformOS writeFails now trace].
    repeat split; auto. repeat rewrite <- app_assoc. reflexivity. }
  destruct Hw1 as (Hos1 & Hwf1 & Ht1).
  assert (Hstart : startPicker R s = (Ok (Some (ps_id session)), s1)).
  { destruct s as [w st sid sel err prog mode].
    run_picker. rewrite Hc. run_picker. rewrite Hb. reflexivity. }
  assert (Hrun : pickerWorkflow R s
                 = fetchSelectedPhotos R (ps_id session) (setWorld w1 s1)).
  { unfold pickerWorkflow. unfold bind at 1. rewrite Hstart.
    apply (@pollForSelection_ready R (ps_id session) s1 k Hk Hun Hready). }
  subst s0 s'. unfold result, exec. rewrite Hstart, Hrun.
  rewrite (@fetchSelectedPhotos_success R (ps_id session) (setWorld w1 s1) items
             HR Hok Hd Hos1 Hwf1).
  cbn [fst snd world setWorld state sessionId selectedPhotos error
       downloadProgress pickerDisplayMode s1 store setStore].
  fold ps.
  split; [reflexivity|]. split; [reflexivity|].
  split; [apply newEvents_app; cbn [log trace]; rewrite <- app_assoc; reflexivity|].
  split; [reflexivity|]. split; [reflexivity|]. split; [reflexivity|].
  split; [reflexivity|]. split; [reflexivity|]. split; [reflexivity|].
  exists (now w1). split; [reflexivity|].
  apply newEvents_app. cbn [trace appendTrace setStore]. rewrite Ht1.
  repeat rewrite <- app_assoc. reflexivity.
Qed.

Lemma startPicker_success_witness :
  state (exec (startPicker (readyOnAttempt 2)) (idleScreen (deviceWith None)))
  = StPolling
  /\ state (exec (pickerWorkflow (readyOnAttempt 2)) (idleScreen (deviceWith None)))
     = StDone
  /\ selectedPhotos (exec (pickerWorkflow (readyOnAttempt 2))
                       (idleScreen (deviceWith None)))
     = fiveItems.
Proof.
  assert (Hk : (1 <= 2 <= 60)%nat) by lia.
  assert (Hun : unreadyFor (readyOnAttempt 2)
                  (polls (world (idleScreen (deviceWith None)))) (2 - 1)).
  { intros j Hj. exists (sessionOf false).
    destruct j as [|j]; [split; reflexivity | simpl in Hj; lia]. }
  assert (Hready : exists ready,
             getSessionResp (readyOnAttempt 2)
               (polls (world (idleScreen (deviceWith None))) + (2 - 1)) = Ok ready
             /\ mediaItemsSet ready = true).
  { exists (sessionOf true). split; reflexivity. }
  assert (Hok : succeededFrom (readyOnAttempt 2) 0 fiveItems <> [])
    by (vm_compute; discriminate).
  pose proof (@startPicker_success (readyOnAttempt 2)
                (idleScreen (deviceWith None)) (sessionOf false) fiveItems 2
                eq_refl eq_refl Hk Hun Hready eq_refl Hok eq_refl eq_refl eq_refl)
    as H.
  cbv zeta in H.
  destruct H as (_ & Hpolling & _ & _ & Hstate & _ & Hsel & _).
  split; [exact Hpolling | split; [exact Hstate | exact Hsel]].
Defined.

(** ** Deleting photos on the photos tab *)

Ltac run_photos :=
  cbv beta iota zeta delta
    [exec result PhotosTab.handleDeletePhoto PhotosTab.handleClearAll
     bind ret gets modify emit log setStore tryCatch throw
     PhotosScreen.liftW PhotosScreen.setWorld PhotosScreen.loadWidgetData
     PhotosScreen.setWidgetData PhotosScreen.world PhotosScreen.widgetData
     WidgetStorage.saveWidgetPhotos WidgetStorage.saveWidgetData
     WidgetStorage.requestWidgetUpdate WidgetStorage.getWidgetData
     platformOS now store writeFails readBase64 polls trace
     fst snd negb isAndroid].

Lemma filter_otherThan_ids (photoId : string) (ps : list WidgetPhoto) :
  ~ In photoId (map wp_id (filter (PhotosTab.otherThan photoId) ps)).
Proof.
  intros H. apply in_map_iff in H. destruct H as (p & Hid & Hp).
  apply filter_In in Hp. destruct Hp as [_ Hp].
  unfold PhotosTab.otherThan in Hp. apply negb_true_iff in Hp.
  apply String.eqb_neq in Hp. contradiction.
Qed.

Lemma filter_otherThan_absent (photoId : string) (ps : list WidgetPhoto) :
  ~ In photoId (map wp_id ps) -> filter (PhotosTab.otherThan photoId) ps = ps.
Proof.
  induction ps as [|p ps IH]; intros H; [reflexivity|].
  cbn [filter]. unfold PhotosTab.otherThan at 1.
  destruct (String.eqb (wp_id p) photoId) eqn:E.
  - apply String.eqb_eq in E. exfalso. apply H. left. exact E.
  - cbn [negb]. f_equal. apply IH. intros Hin. apply H. right. exact Hin.
Qed.

Lemma handleDeletePhoto_confirmed (photoId : string) (s : PhotosScreen.Photos) :
  platformOS (PhotosScreen.world s) = android ->
  writeFails (PhotosScreen.world s) = false ->
  let remaining := filter (PhotosTab.otherThan photoId) (loadedPhotos s) in
  let record := committed remaining (modeFor remaining)
                  (now (PhotosScreen.world s)) in
  PhotosTab.handleDeletePhoto photoId PhotosTab.Confirm s
  = (Ok tt,
     {| PhotosScreen.world :=
          setStore (Some record)
            (appendTrace
               [EvAlert "Delete Photo" "Remove this photo from the widget?";
                EvSaveWidgetPhotos remaining (modeFor remaining);
                EvWrite record; EvRequestWidgetUpdate]
               (PhotosScreen.world s));
        PhotosScreen.widgetData := Some record |}).
Proof.
  intros Hos Hwf remaining record. subst record remaining.
  destruct s as [w current]. destruct w as [os t sto wf rb pl tr].
  cbn [PhotosScreen.world platformOS writeFails] in Hos, Hwf. subst os wf.
  unfold loadedPhotos, modeFor, committed, appendTrace.
  destruct current as [d|]; run_photos; repeat rewrite <- app_assoc;
    reflexivity.
Qed.

(** X20.  Deleting a photo on the photos tab (confirmed, on Android, with
    a working store) works from the record the tab last loaded, whatever
    the store holds by then: the stored record becomes that photo list
    without every entry carrying the id, the others in their order, with
    index 0, no album and no rotation interval, and the display mode chosen
    by the number of photos left; the tab reloads that record.  No entry
    with the id is left, even if several carried it; an id carried by no
    loaded photo leaves the list as loaded.  Cancelling changes nothing. *)
Theorem delete_photo_removes_every_match
    (photoId : string) (s : PhotosScreen.Photos) :
  platformOS (PhotosScreen.world s) = android ->
  writeFails (PhotosScreen.world s) = false ->
  let s' := exec (PhotosTab.handleDeletePhoto photoId PhotosTab.Confirm) s in
  let remaining := filter (PhotosTab.otherThan photoId) (loadedPhotos s) in
  store (PhotosScreen.world s')
  = Some (committed remaining (modeFor remaining) (now (PhotosScreen.world s)))
  /\ PhotosScreen.widgetData s' = store (PhotosScreen.world s')
  /\ ~ In photoId (storedIds (PhotosScreen.world s'))
  /\ (~ In photoId (map wp_id (loadedPhotos s)) -> remaining = loadedPhotos s)
  /\ saves (newEvents (PhotosScreen.world s) (PhotosScreen.world s'))
     = [(remaining, modeFor remaining)]
  /\ exec (PhotosTab.handleDeletePhoto photoId PhotosTab.Cancel) s
     = PhotosScreen.setWorld
         (log (EvAlert "Delete Photo" "Remove this photo from the widget?")
            (PhotosScreen.world s)) s.
Proof.
  intros Hos Hwf s' remaining. subst s'.
  unfold exec. rewrite (handleDeletePhoto_confirmed photoId s Hos Hwf).
  cbn [snd PhotosScreen.world PhotosScreen.widgetData store setStore].
  fold remaining.
  split; [reflexivity|]. split; [reflexivity|].
  split; [unfold storedIds; cbn [store committed photos];
          apply filter_otherThan_ids|].
  split; [apply filter_otherThan_absent|].
  split; [|reflexivity].
  rewrite (@newEvents_app (PhotosScreen.world s) _
             [EvAlert "Delete Photo" "Remove this photo from the widget?";
              EvSaveWidgetPhotos remaining (modeFor remaining);
              EvWrite (committed remaining (modeFor remaining)
                         (now (PhotosScreen.world s)));
              EvRequestWidgetUpdate]) by reflexivity.
  reflexivity.
Qed.

Lemma delete_photo_removes_every_match_witness :
  option_map (fun d => (map wp_id (photos d), currentIndex d, displayMode d))
    (store (PhotosScreen.world
              (exec (PhotosTab.handleDeletePhoto "a.jpg" PhotosTab.Confirm)
                 (staleTab (recordOf [photoA; photoB; photoA] 2 slideshow)
                    (deviceWith (Some (recordOf [photoC] 0 single)))))))
  = Some (["b.jpg"], 0, single).
Proof.
  pose proof (proj1 (@delete_photo_removes_every_match "a.jpg"
                       (staleTab (recordOf [photoA; photoB; photoA] 2 slideshow)
                          (deviceWith (Some (recordOf [photoC] 0 single))))
                       eq_refl eq_refl)) as H.
  exact (f_equal (option_map (fun d => (map wp_id (photos d), currentIndex d,
                                        displayMode d))) H).
Defined.

Lemma handleClearAll_confirmed (s : PhotosScreen.Photos) :
  platformOS (PhotosScreen.world s) = android ->
  writeFails (PhotosScreen.world s) = false ->
  let record := committed [] single (now (PhotosScreen.world s)) in
  PhotosTab.handleClearAll PhotosTab.Confirm s
  = (Ok tt,
     {| PhotosScreen.world :=
          setStore (Some record)
            (appendTrace
               [EvAlert "Clear All Photos" "Remove all photos from the widget?";
                EvSaveWidgetPhotos [] single; EvWrite record;
                EvRequestWidgetUpdate]
               (PhotosScreen.world s));
        PhotosScreen.widgetData := Some record |}).
Proof.
  intros Hos Hwf record. subst record.
  destruct s as [w current]. destruct w as [os t sto wf rb pl tr].
  cbn [PhotosScreen.world platformOS writeFails] in Hos, Hwf. subst os wf.
  unfold committed, appendTrace.
  run_photos. repeat rewrite <- app_assoc. reflexivity.
Qed.

(** X21.  "Clear all" never throws, whatever the platform and the store
    do, and cancelling it changes nothing.  Confirmed on Android with a
    working store, it calls [saveWidgetPhotos] once, with no photos, and
    leaves a record without photos (not an absent one) where the
    application keeps it; the photos tab then shows no photos.  From then
    on, on the application's side, [rotateToNextPhoto] writes nothing and
    a firing of the background task, of the widget-update task or of
    [rotateAndUpdate] advances nothing and requests no redraw. *)
Theorem clear_all_empties_the_widget
    (choice : PhotosTab.Choice) (s : PhotosScreen.Photos) :
  let s' := exec (PhotosTab.handleClearAll PhotosTab.Confirm) s in
  let w' := PhotosScreen.world s' in
  result (PhotosTab.handleClearAll choice) s = Ok tt
  /\ exec (PhotosTab.handleClearAll PhotosTab.Cancel) s
     = PhotosScreen.setWorld
         (log (EvAlert "Clear All Photos" "Remove all photos from the widget?")
            (PhotosScreen.world s)) s
  /\ (platformOS (PhotosScreen.world s) = android ->
      writeFails (PhotosScreen.world s) = false ->
      (exists t, store w' = Some (committed [] single t))
      /\ loadedPhotos s' = []
      /\ saves (newEvents (PhotosScreen.world s) w') = [([], single)]
      /\ writes (newEvents w' (exec WidgetStorage.rotateToNextPhoto w')) = []
      /\ firing BackgroundFetch.backgroundFetchTask w' = []
      /\ result BackgroundFetch.backgroundFetchTask w' = Ok BackgroundFetch.NoData
      /\ firing WidgetUpdater.widgetUpdateTask w' = []
      /\ firing WidgetUpdater.rotateAndUpdate w' = []).
Proof.
  cbv zeta. split; [|split].
  - destruct s as [w current]. destruct w as [os t sto wf rb pl tr].
    destruct choice; [reflexivity|]. destruct os, wf; reflexivity.
  - reflexivity.
  - intros Hos Hwf.
    set (record := committed [] single (now (PhotosScreen.world s))).
    pose proof (handleClearAll_confirmed s Hos Hwf) as Hrun. cbv zeta in Hrun.
    fold record in Hrun.
    unfold exec. rewrite Hrun. cbn [snd PhotosScreen.world].
    set (w' := setStore (Some record) _).
    assert (Hs : store w' = Some record) by reflexivity.
    assert (Hos' : platformOS w' = android) by exact Hos.
    assert (Hnew : newEvents (PhotosScreen.world s) w'
                   = [EvAlert "Clear All Photos" "Remove all photos from the widget?";
                      EvSaveWidgetPhotos [] single; EvWrite record;
                      EvRequestWidgetUpdate]).
    { apply newEvents_app. reflexivity. }
    assert (Hp : photos record = []) by reflexivity.
    clearbody w'.
    split; [exists (now (PhotosScreen.world s)); exact Hs|].
    split; [reflexivity|].
    split; [rewrite Hnew; reflexivity|].
    assert (Hrot : WidgetStorage.rotateToNextPhoto w'
                   = (Ok tt, log EvRotateToNextPhoto w')).
    { apply rotateToNextPhoto_without_photos. right. right. eauto. }
    rewrite Hrot. cbn [fst snd].
    rewrite !(fun e => @newEvents_app w' (log e w') [e] eq_refl).
    rewrite backgroundFetchTask_firing, widgetUpdateTask_firing,
      rotateAndUpdate_firing.
    unfold slideshowOfSeveral, somePhotos, severalPhotos.
    rewrite Hs, Hp, Hos'. cbn.
    repeat split.
    destruct w' as [os t sto wf rb pl tr]. cbn [store platformOS] in Hs, Hos'.
    subst sto os. reflexivity.
Qed.

Lemma clear_all_empties_the_widget_witness :
  loadedPhotos
    (exec (PhotosTab.handleClearAll PhotosTab.Confirm)
       (photosTab (deviceWith (Some (recordOf [photoA; photoB] 1 slideshow)))))
  = [].
Proof.
  exact (proj1 (proj2 (proj2 (proj2 (@clear_all_empties_the_widget PhotosTab.Confirm
                  (photosTab (deviceWith (Some (recordOf [photoA; photoB] 1 slideshow))))))
                 eq_refl eq_refl))).
Defined.

(** ** Adding, then deleting *)

Lemma handleAddLocalPhotos_adds (L : PhotosScreen.Library) (s : PhotosScreen.Photos) :
  PhotosScreen.permissionGranted L = true ->
  PhotosScreen.canceled L = false ->
  platformOS (PhotosScreen.world s) = android ->
  writeFails (PhotosScreen.world s) = false ->
  let added := addedPhotos L (now (PhotosScreen.world s)) (PhotosScreen.assets L) in
  let all := (loadedPhotos s ++ added)%list in
  let record := committed all (modeFor all) (now (PhotosScreen.world s)) in
  added <> [] ->
  exists w',
    PhotosScreen.handleAddLocalPhotos L s
    = (Ok tt, {| PhotosScreen.world := w'; PhotosScreen.widgetData := Some record |})
    /\ store w' = Some record
    /\ platformOS w' = android /\ writeFails w' = false
    /\ now w' = now (PhotosScreen.world s).
Proof.
  intros Hperm Hcancel Hos Hwf added all record Hadded.
  destruct s as [w current]. destruct w as [os t sto wf rb pl tr].
  cbn [PhotosScreen.world PhotosScreen.widgetData platformOS writeFails now] in *.
  subst os wf.
  assert (Hassets : (jsLength (PhotosScreen.assets L) =? 0) = false).
  { destruct (PhotosScreen.assets L) as [|a l] eqn:E; [|reflexivity].
    exfalso. apply Hadded. subst added. rewrite ?E. reflexivity. }
  unfold PhotosScreen.handleAddLocalPhotos.
  unfold tryCatch at 1. rewrite Hperm, Hcancel, Hassets. cbn [negb orb].
  unfold bind at 1. rewrite copyLoop_spec. cbn [app now].
  fold added. rewrite (jsLength_pos Hadded).
  unfold bind at 1, gets at 1. cbn [PhotosScreen.widgetData].
  subst record all. unfold loadedPhotos, modeFor, committed.
  cbn [PhotosScreen.widgetData].
  cbv beta iota zeta delta
    [bind ret gets modify emit log setStore tryCatch appendTrace
     PhotosScreen.liftW PhotosScreen.setWorld PhotosScreen.loadWidgetData
     PhotosScreen.setWidgetData PhotosScreen.world PhotosScreen.widgetData
     WidgetStorage.saveWidgetPhotos WidgetStorage.saveWidgetData
     WidgetStorage.requestWidgetUpdate WidgetStorage.getWidgetData
     platformOS now store writeFails readBase64 polls trace
     fst snd negb isAndroid].
  eexists. repeat split; reflexivity.
Qed.

(** X22.  Adding local photos and then deleting by id, both on the photos
    tab (Android, working store, at least one copy succeeds).  The stored
    list is the merged list without every entry carrying the id.  So when
    one picture was added and its id was new, deleting it restores the
    photo list the tab had loaded before; when its file name was already the
    id of loaded photos, deleting it removes those older photos as well. *)
Theorem add_then_delete_by_id
    (L : PhotosScreen.Library) (photoId : string) (s : PhotosScreen.Photos) :
  PhotosScreen.permissionGranted L = true ->
  PhotosScreen.canceled L = false ->
  platformOS (PhotosScreen.world s) = android ->
  writeFails (PhotosScreen.world s) = false ->
  let t := now (PhotosScreen.world s) in
  let added := addedPhotos L t (PhotosScreen.assets L) in
  let s' := exec (PhotosScreen.handleAddLocalPhotos L ;;
                  PhotosTab.handleDeletePhoto photoId PhotosTab.Confirm) s in
  added <> [] ->
  option_map photos (store (PhotosScreen.world s'))
  = Some (filter (PhotosTab.otherThan photoId) (loadedPhotos s)
          ++ filter (PhotosTab.otherThan photoId) added)%list
  /\ (forall p, added = [p] -> photoId = wp_id p ->
      option_map photos (store (PhotosScreen.world s'))
      = Some (filter (PhotosTab.otherThan photoId) (loadedPhotos s))
      /\ (~ In photoId (map wp_id (loadedPhotos s)) ->
          option_map photos (store (PhotosScreen.world s'))
          = Some (loadedPhotos s))).
Proof.
  intros Hperm Hcancel Hos Hwf t added s' Hadded.
  destruct (@handleAddLocalPhotos_adds L s Hperm Hcancel Hos Hwf Hadded)
    as (w1 & Hadd & Hs1 & Hos1 & Hwf1 & Hnow1).
  fold t in Hadd, Hs1, Hnow1. fold added in Hadd, Hs1.
  assert (Hstore : option_map photos (store (PhotosScreen.world s'))
                   = Some (filter (PhotosTab.otherThan photoId) (loadedPhotos s)
                           ++ filter (PhotosTab.otherThan photoId) added)%list).
  { subst s'. unfold exec, bind. rewrite Hadd.
    rewrite (@handleDeletePhoto_confirmed photoId
               {| PhotosScreen.world := w1;
                  PhotosScreen.widgetData :=
                    Some (committed (loadedPhotos s ++ added)
                            (modeFor (loadedPhotos s ++ added)) t) |}
               Hos1 Hwf1).
    cbn [snd PhotosScreen.world PhotosScreen.widgetData store setStore
         option_map committed photos loadedPhotos].
    rewrite filter_app. reflexivity. }
  split; [exact Hstore|].
  intros p Hp Hid.
  assert (Hgone : filter (PhotosTab.otherThan photoId) added = []).
  { rewrite Hp. cbn [filter]. unfold PhotosTab.otherThan.
    rewrite Hid, String.eqb_refl. reflexivity. }
  rewrite Hstore, Hgone, app_nil_r. split; [reflexivity|].
  intros Hfresh. rewrite filter_otherThan_absent by exact Hfresh.
  reflexivity.
Qed.

Lemma add_then_delete_by_id_witness :
  option_map photos
    (store (PhotosScreen.world
              (exec (PhotosScreen.handleAddLocalPhotos pickOneNamedA ;;
                     PhotosTab.handleDeletePhoto "a.jpg" PhotosTab.Confirm)
                 (photosTab (deviceWith (Some (recordOf [photoB; photoC] 1 slideshow)))))))
  = Some [photoB; photoC].
Proof.
  assert (Hadded : addedPhotos pickOneNamedA
                     (now (PhotosScreen.world
                             (photosTab (deviceWith
                                (Some (recordOf [photoB; photoC] 1 slideshow))))))
                     (PhotosScreen.assets pickOneNamedA) <> [])
    by (vm_compute; discriminate).
  pose proof (@add_then_delete_by_id pickOneNamedA "a.jpg"
                (photosTab (deviceWith (Some (recordOf [photoB; photoC] 1 slideshow))))
                eq_refl eq_refl eq_refl eq_refl) as H.
  cbv zeta in H. destruct (H Hadded) as (_ & Hone).
  destruct (Hone _ eq_refl eq_refl) as (_ & Hfresh).
  apply Hfresh. vm_compute. intros [E|[E|[]]]; discriminate E.
Defined.

(** ** Selecting local photos on the home screen *)

Lemma alerts_app (a b : list Event) :
  alerts (a ++ b) = (alerts a ++ alerts b)%list.
Proof.
  induction a as [|e a IH]; simpl; auto. destruct e; simpl; congruence.
Qed.

Lemma saves_copyEvents (assets : list PhotosScreen.Asset) :
  saves (copyEvents assets) = [].
Proof.
  induction assets as [|a l IH]; simpl; auto.
Qed.

Lemma alerts_copyEvents (assets : list PhotosScreen.Asset) :
  alerts (copyEvents assets) = [].
Proof.
  induction assets as [|a l IH]; simpl; auto.
Qed.

Lemma home_copyLoop_spec (L : PhotosScreen.Library) : forall rest acc w,
  HomeScreen.copyLoop L rest acc w
  = (Ok (acc ++ addedPhotos L (now w) rest)%list,
     appendTrace (copyEvents rest) w).
Proof.
  induction rest as [|a rest IH]; intros acc w.
  - cbn [HomeScreen.copyLoop]. unfold ret, addedPhotos, appendTrace.
    simpl. rewrite !app_nil_r. destruct w; reflexivity.
  - cbn [HomeScreen.copyLoop].
    unfold bind at 1, tryCatch at 1, HomeScreen.copyOne.
    unfold bind at 1, gets at 1.
    unfold bind at 1, emit at 1, modify at 1.
    unfold addedPhotos, copied. cbn [filter].
    destruct (PhotosScreen.copyFails L (PhotosScreen.uri a)); cbn [negb];
      cbv beta iota delta [throw ret];
      rewrite IH; cbn [now log]; rewrite appendTrace_log;
      unfold addedPhotos, copied; cbn [map]; rewrite <- ?app_assoc; reflexivity.
Qed.

Lemma appendTrace_nil (w : World) : appendTrace [] w = w.
Proof.
  destruct w. unfold appendTrace. cbn. rewrite app_nil_r. reflexivity.
Qed.

Ltac run_home :=
  cbv beta iota zeta delta
    [bind ret gets modify emit log setStore tryCatch appendTrace
     WidgetStorage.saveWidgetPhotos WidgetStorage.saveWidgetData
     WidgetStorage.requestWidgetUpdate
     platformOS now store writeFails readBase64 polls trace
     fst snd negb isAndroid].

Lemma handleSelectLocalPhotos_run (L : PhotosScreen.Library) (w : World) :
  PhotosScreen.permissionGranted L = true ->
  PhotosScreen.canceled L = false ->
  let assets := PhotosScreen.assets L in
  let added := addedPhotos L (now w) assets in
  let record := committed added (modeFor added) (now w) in
  (added = [] ->
   HomeScreen.handleSelectLocalPhotos L w
   = (Ok tt, appendTrace (copyEvents assets) w))
  /\ (added <> [] -> platformOS w = android ->
      (writeFails w = false ->
       HomeScreen.handleSelectLocalPhotos L w
       = (Ok tt,
          setStore (Some record)
            (appendTrace
               (copyEvents assets
                ++ [EvSaveWidgetPhotos added (modeFor added); EvWrite record;
                    EvRequestWidgetUpdate;
                    EvAlert "Photos Added!"
                      (HomeScreen.addedMessage (jsLength added))]) w)))
      /\ (writeFails w = true ->
          HomeScreen.handleSelectLocalPhotos L w
          = (Ok tt,
             appendTrace
               (copyEvents assets
                ++ [EvSaveWidgetPhotos added (modeFor added); EvWrite record;
                    EvAlert "Error" "Failed to select photos"]) w))).
Proof.
  intros Hperm Hcancel. destruct w as [os t sto wf rb pl tr].
  cbv beta iota delta [now].
  intros assets added record.
  unfold HomeScreen.handleSelectLocalPhotos. rewrite Hperm, Hcancel.
  cbn [negb orb]. fold assets.
  destruct assets as [|a rest] eqn:Hassets.
  - split; [|intros C; exfalso; apply C; reflexivity].
    intros _. cbn [copyEvents map]. rewrite appendTrace_nil. reflexivity.
  - assert (Hlen : (jsLength (a :: rest) =? 0) = false) by reflexivity.
    rewrite Hlen. cbn [platformOS writeFails].
    assert (Hcopy : forall k : list WidgetPhoto -> M World unit,
              bind (HomeScreen.copyLoop L (a :: rest) []) k
                {| platformOS := os; now := t; store := sto; writeFails := wf;
                   readBase64 := rb; polls := pl; trace := tr |}
              = k added
                  (appendTrace (copyEvents (a :: rest))
                     {| platformOS := os; now := t; store := sto;
                        writeFails := wf; readBase64 := rb; polls := pl;
                        trace := tr |})).
    { intros k. unfold bind. rewrite home_copyLoop_spec. reflexivity. }
    unfold tryCatch. rewrite !Hcopy.
    split.
    + intros Hnone. rewrite Hnone. reflexivity.
    + intros Hsome Hos. subst os. rewrite (jsLength_pos Hsome).
      subst record. unfold modeFor, committed.
      split; intros Hwf; subst wf; run_home;
        repeat rewrite <- app_assoc; reflexivity.
Qed.

(** X23.  Selecting local photos on the home screen replaces the widget
    set; it never throws.  With permission and a selection, the photos
    built from the assets whose copy succeeded, in order, become the stored
    set (index 0, slideshow when more than one), whatever the store held
    before: nothing of the previous set is kept, unlike on the photos tab.
    When every copy fails nothing is saved, the stored record stays and no
    alert is shown.  When the durable write fails the stored record stays
    and the alert is "Failed to select photos". *)
Theorem select_local_photos_replaces_set (L : PhotosScreen.Library) (w : World) :
  let added := addedPhotos L (now w) (PhotosScreen.assets L) in
  let w' := exec (HomeScreen.handleSelectLocalPhotos L) w in
  let new := newEvents w w' in
  result (HomeScreen.handleSelectLocalPhotos L) w = Ok tt
  /\ (PhotosScreen.permissionGranted L = true ->
      PhotosScreen.canceled L = false ->
      (added = [] -> store w' = store w /\ saves new = [] /\ alerts new = [])
      /\ (added <> [] -> platformOS w = android ->
          (writeFails w = false ->
           store w' = Some (committed added (modeFor added) (now w))
           /\ saves new = [(added, modeFor added)]
           /\ alerts new
              = [("Photos Added!", HomeScreen.addedMessage (jsLength added))])
          /\ (writeFails w = true ->
              store w' = store w
              /\ alerts new = [("Error", "Failed to select photos")]))).
Proof.
  intros added w' new. split.
  - unfold result, HomeScreen.handleSelectLocalPhotos, tryCatch.
    match goal with
    | |- context [match ?m w with _ => _ end] => destruct (m w) as [[[]|msg] w1]
    end; reflexivity.
  - intros Hperm Hcancel.
    destruct (@handleSelectLocalPhotos_run L w Hperm Hcancel) as [Hnone Hsome].
    fold added in Hnone, Hsome. subst new w'. unfold exec.
    split.
    + intros Hadded. rewrite (Hnone Hadded). cbn [snd].
      rewrite (@newEvents_app w _ (copyEvents (PhotosScreen.assets L)))
        by reflexivity.
      rewrite saves_copyEvents, alerts_copyEvents. repeat split.
    + intros Hadded Hos. destruct (Hsome Hadded Hos) as [Hok Hfail].
      split; intros Hwf.
      * rewrite (Hok Hwf). cbn [snd].
        rewrite (@newEvents_app w _
                   (copyEvents (PhotosScreen.assets L)
                    ++ [EvSaveWidgetPhotos added (modeFor added);
                        EvWrite (committed added (modeFor added) (now w));
                        EvRequestWidgetUpdate;
                        EvAlert "Photos Added!"
                          (HomeScreen.addedMessage (jsLength added))]))
          by reflexivity.
        rewrite saves_app, alerts_app, saves_copyEvents, alerts_copyEvents.
        repeat split.
      * rewrite (Hfail Hwf). cbn [snd].
        rewrite (@newEvents_app w _
                   (copyEvents (PhotosScreen.assets L)
                    ++ [EvSaveWidgetPhotos added (modeFor added);
                        EvWrite (committed added (modeFor added) (now w));
                        EvAlert "Error" "Failed to select photos"]))
          by reflexivity.
        rewrite alerts_app, alerts_copyEvents. repeat split.
Qed.

Lemma select_local_photos_replaces_set_witness :
  option_map (fun d => map wp_id (photos d))
    (store (exec (HomeScreen.handleSelectLocalPhotos pickOneNamedA)
              (deviceWith (Some (recordOf [photoB; photoC] 1 slideshow)))))
  = Some ["a.jpg"]
  /\ store (exec (HomeScreen.handleSelectLocalPhotos copiesFail)
              (deviceWith (Some (recordOf [photoB; photoC] 1 slideshow))))
     = Some (recordOf [photoB; photoC] 1 slideshow).
Proof.
  split.
  - pose proof (proj2 (@select_local_photos_replaces_set pickOneNamedA
                         (deviceWith (Some (recordOf [photoB; photoC] 1 slideshow))))
                  eq_refl eq_refl) as H.
    assert (Hsome : addedPhotos pickOneNamedA
                      (now (deviceWith (Some (recordOf [photoB; photoC] 1 slideshow))))
                      (PhotosScreen.assets pickOneNamedA) <> [])
      by (vm_compute; discriminate).
    destruct (proj1 (proj2 H Hsome eq_refl) eq_refl) as (Hstore & _).
    exact (f_equal (option_map (fun d => map wp_id (photos d))) Hstore).
  - pose proof (proj2 (@select_local_photos_replaces_set copiesFail
                         (deviceWith (Some (recordOf [photoB; photoC] 1 slideshow))))
                  eq_refl eq_refl) as H.
    exact (proj1 (proj1 H eq_refl)).
Defined.

(** ** The widget preview *)

Ltac run_preview :=
  cbv beta iota zeta delta
    [exec result WidgetPreview.handleNextPhoto WidgetPreview.loadWidgetData
     WidgetPreview.setWidgetData WidgetPreview.liftW
     WidgetPreview.world WidgetPreview.widgetData
     bind ret gets modify emit log setStore tryCatch throw
     WidgetStorage.rotateToNextPhoto WidgetStorage.updateCurrentPhotoIndex
     WidgetStorage.saveWidgetData
     WidgetStorage.requestWidgetUpdate WidgetStorage.getWidgetData
     platformOS now store writeFails readBase64 polls trace
     fst snd negb isAndroid].

(** X24.  The preview and the widget pick the same photo exactly when the
    index points at one.  For a record whose index is in range both show
    [photos[currentIndex]].  For a non-empty record whose index is out of
    range the widget falls back to the first photo, while the preview has
    no fallback and shows its "no photo" placeholder. *)
Theorem preview_has_no_fallback
    (d : WidgetData) (p0 : WidgetPhoto) (rest : list WidgetPhoto) :
  photos d = p0 :: rest ->
  (indexInRange d = true ->
   WidgetPreview.currentPhoto (Some d) = PhotoWidget.currentPhoto d
   /\ WidgetPreview.currentPhoto (Some d) <> None)
  /\ (indexInRange d = false ->
      WidgetPreview.currentPhoto (Some d) = None
      /\ PhotoWidget.currentPhoto d = Some p0).
Proof.
  intros Hp. unfold WidgetPreview.currentPhoto, PhotoWidget.currentPhoto.
  split; intros Hr.
  - apply indexInRange_iff in Hr.
    destruct (@jsIndex_in_range _ (photos d) (currentIndex d) Hr) as (p & Hq).
    rewrite Hq. split; [reflexivity | discriminate].
  - assert (Hout : ~ (0 <= currentIndex d < jsLength (photos d))).
    { intros Hin. apply indexInRange_iff in Hin. congruence. }
    rewrite (@jsIndex_out_of_range _ (photos d) (currentIndex d) Hout).
    split; [reflexivity|]. rewrite Hp. reflexivity.
Qed.

Lemma preview_has_no_fallback_witness :
  WidgetPreview.currentPhoto (Some indexPastEnd) = None
  /\ PhotoWidget.currentPhoto indexPastEnd = Some photoA.
Proof.
  exact (proj2 (@preview_has_no_fallback indexPastEnd photoA [photoB] eq_refl)
           eq_refl).
Defined.

(** X25.  "Next photo" in the preview never throws.  It does nothing at
    all when the preview has loaded no record or one with at most one
    photo, whatever the store holds.  Otherwise, on Android with a working
    store holding a non-empty record with an index from -1 up to 2^53 - 1
    (where [currentIndex + 1] is exact in JavaScript), it advances the
    stored record (not the loaded one) by one, requests one redraw, and
    reloads: the preview then holds the advanced record and has a photo to
    show, the one at the new index. *)
Theorem preview_next_photo (s : WidgetPreview.Preview) :
  let s' := exec WidgetPreview.handleNextPhoto s in
  result WidgetPreview.handleNextPhoto s = Ok tt
  /\ (match WidgetPreview.widgetData s with
      | Some loaded => jsLength (photos loaded) <= 1
      | None => True
      end -> s' = s)
  /\ (forall loaded stored,
        WidgetPreview.widgetData s = Some loaded ->
        1 < jsLength (photos loaded) ->
        platformOS (WidgetPreview.world s) = android ->
        writeFails (WidgetPreview.world s) = false ->
        store (WidgetPreview.world s) = Some stored ->
        photos stored <> [] ->
        -1 <= currentIndex stored < 2 ^ 53 ->
        let next := (currentIndex stored + 1) mod jsLength (photos stored) in
        (exists t,
           store (WidgetPreview.world s') = Some (withIndex stored next t)
           /\ WidgetPreview.widgetData s' = Some (withIndex stored next t))
        /\ calls (newEvents (WidgetPreview.world s) (WidgetPreview.world s'))
           = [Advance; ReRender]
        /\ WidgetPreview.currentPhoto (WidgetPreview.widgetData s')
           = nth_error (photos stored) (Z.to_nat next)
        /\ WidgetPreview.currentPhoto (WidgetPreview.widgetData s') <> None).
Proof.
  cbv zeta. destruct s as [w loaded]. destruct w as [os t sto wf rb pl tr].
  cbn [WidgetPreview.widgetData WidgetPreview.world platformOS writeFails store now].
  split; [|split].
  - run_preview. destruct loaded as [d|]; [|reflexivity].
    destruct (jsLength (photos d) <=? 1); [reflexivity|].
    destruct os; [|reflexivity].
    destruct sto as [d0|]; [|reflexivity].
    destruct (jsLength (photos d0) =? 0); [reflexivity|].
    destruct wf; reflexivity.
  - destruct loaded as [d|]; [|reflexivity].
    intros Hle. apply Z.leb_le in Hle. run_preview. rewrite Hle. reflexivity.
  - intros d stored [= ->] Hlen Hos Hwf [= ->] Hne [Hidx _]. subst os wf.
    apply Z.leb_gt in Hlen.
    assert (Hpos : (jsLength (photos stored) =? 0) = false)
      by (apply jsLength_nonempty; exact Hne).
    assert (HN : 0 < jsLength (photos stored))
      by (apply jsLength_pos_of_nonempty; exact Hpos).
    assert (Hrem : jsRem (currentIndex stored + 1) (jsLength (photos stored))
                   = (currentIndex stored + 1) mod jsLength (photos stored)).
    { unfold jsRem. apply Z.rem_mod_nonneg; lia. }
    assert (Hin : 0 <= (currentIndex stored + 1) mod jsLength (photos stored)
                  < jsLength (photos stored)).
    { apply Z.mod_pos_bound. exact HN. }
    run_preview. rewrite Hlen, Hpos. run_preview. rewrite Hrem.
    split; [exists t; split; reflexivity|].
    split; [unfold newEvents; cbn [trace]; repeat rewrite <- app_assoc;
            rewrite skipn_prefix; reflexivity|].
    unfold WidgetPreview.currentPhoto, withIndex.
    cbn [photos currentIndex]. unfold jsIndex.
    destruct (_ <? 0) eqn:E0; [apply Z.ltb_lt in E0; lia|].
    split; [reflexivity|].
    intros Hnone. apply nth_error_None in Hnone. unfold jsLength in *. lia.
Qed.

Lemma preview_next_photo_witness :
  WidgetPreview.currentPhoto
    (WidgetPreview.widgetData
       (exec WidgetPreview.handleNextPhoto
          (previewOf (Some (recordOf [photoA; photoB] 0 slideshow))
             (deviceWith (Some (recordOf [photoA; photoB; photoC] 1 slideshow))))))
  = Some photoC.
Proof.
  assert (Hlen : 1 < jsLength (photos (recordOf [photoA; photoB] 0 slideshow)))
    by (vm_compute; reflexivity).
  assert (Hne : photos (recordOf [photoA; photoB; photoC] 1 slideshow) <> [])
    by discriminate.
  assert (Hidx : -1 <= currentIndex (recordOf [photoA; photoB; photoC] 1 slideshow)
                 < 2 ^ 53)
    by (vm_compute; split; [discriminate | reflexivity]).
  pose proof (proj2 (proj2 (@preview_next_photo
                (previewOf (Some (recordOf [photoA; photoB] 0 slideshow))
                   (deviceWith (Some (recordOf [photoA; photoB; photoC] 1 slideshow))))))
                (recordOf [photoA; photoB] 0 slideshow)
                (recordOf [photoA; photoB; photoC] 1 slideshow)
                eq_refl Hlen eq_refl eq_refl eq_refl Hne Hidx) as H.
  cbv zeta in H. destruct H as (_ & _ & Hshown & _).
  exact Hshown.
Defined.

(** ** Image URLs *)





(** ** Clearing the widget data *)

(** X27.  [clearWidgetData] never throws and records no call of its own.
    Off Android, and when the deletion is rejected, it changes nothing.
    Otherwise the stored record is gone and no file under the photo cache
    directory can be read any more, while every other file reads as before;
    from then on the application reads no record, both render functions
    draw the "tap to add photos" placeholder and neither advance operation
    writes anything.  Clearing again changes nothing further. *)
Theorem clearWidgetData_forgets_everything (cacheDirectory : string) (w : World) :
  let clear := WidgetStorageFiles.clearWidgetData cacheDirectory in
  let w' := exec clear w in
  result clear w = Ok tt
  /\ trace w' = trace w
  /\ (platformOS w = ios \/ writeFails w = true -> w' = w)
  /\ (platformOS w = android -> writeFails w = false ->
      store w' = None
      /\ (forall path,
            readBase64 w' path
            = if String.prefix (cacheDirectory ++ "widget-photos/") path
              then None else readBase64 w path)
      /\ result WidgetStorage.getWidgetData w' = Ok None
      /\ result PhotoWidget.renderWidgetForUpdate w' = Ok TapToAddPhotos
      /\ rendered (newEvents w' (exec PhotoWidget.renderPhotoWidget w'))
         = [TapToAddPhotos]
      /\ writes (newEvents w' (exec WidgetStorage.rotateToNextPhoto w')) = []
      /\ writes (newEvents w' (exec PhotoWidget.rotatePhoto w')) = []
      /\ store (exec clear w') = None
      /\ (forall path, readBase64 (exec clear w') path = readBase64 w' path)).
Proof.
  cbv zeta. destruct w as [os t sto wf rb pl tr].
  cbn [platformOS writeFails trace].
  split; [destruct os, wf; reflexivity|].
  split; [destruct os, wf; reflexivity|].
  split; [intros [-> | ->]; [reflexivity | destruct os; reflexivity]|].
  intros -> ->.
  split; [reflexivity|]. split; [reflexivity|]. split; [reflexivity|].
  split; [reflexivity|].
  split; [unfold newEvents; cbn; rewrite skipn_prefix; reflexivity|].
  split; [unfold newEvents; cbn; rewrite skipn_prefix; reflexivity|].
  split; [unfold newEvents; cbn; rewrite skipn_prefix; reflexivity|].
  split; [reflexivity|].
  intros path. cbn.
  destruct (String.prefix (WidgetStorageFiles.getWidgetCacheDir cacheDirectory)
              path); reflexivity.
Qed.

Lemma clearWidgetData_forgets_everything_witness :
  store (exec (WidgetStorageFiles.clearWidgetData "/cache/")
           (deviceWith (Some (recordOf [photoA] 0 single)))) = None
  /\ readBase64 (exec (WidgetStorageFiles.clearWidgetData "/cache/")
                   (deviceWith (Some (recordOf [photoA] 0 single))))
       "/cache/widget-photos/a.jpg" = None.
Proof.
  destruct (proj2 (proj2 (proj2 (@clearWidgetData_forgets_everything "/cache/"
              (deviceWith (Some (recordOf [photoA] 0 single))))))
              eq_refl eq_refl) as (Hstore & Hfiles & _).
  split; [exact Hstore | exact (Hfiles "/cache/widget-photos/a.jpg")].
Defined.

(** ** The widget task handler and the two render functions *)

Lemma renderPhotoWidget_keeps_store (w : World) :
  store (exec PhotoWidget.renderPhotoWidget w) = store w.
Proof.
  destruct (renderPhotoWidget_renders_once w) as (element & H).
  unfold exec. rewrite H. reflexivity.
Qed.

(** X28.  Only a tap advances the widget.  For every widget action and
    every world the task handler returns normally.  A tap makes one advance
    call and then one render; the added, update and resized actions render
    once and leave the stored record as it is; a deleted or unknown action
    does nothing. *)
Theorem only_a_tap_advances
    (action : PhotoWidget.WidgetAction) (clickAction : option string) (w : World) :
  let handler := PhotoWidget.widgetTaskHandler action clickAction in
  result handler w = Ok tt
  /\ firing handler w
     = match action with
       | PhotoWidget.WIDGET_CLICK => [Advance; ReRender]
       | PhotoWidget.WIDGET_ADDED | PhotoWidget.WIDGET_UPDATE
       | PhotoWidget.WIDGET_RESIZED => [ReRender]
       | PhotoWidget.WIDGET_DELETED | PhotoWidget.WIDGET_OTHER => []
       end
  /\ match action with
     | PhotoWidget.WIDGET_CLICK => True
     | _ => store (exec handler w) = store w
     end.
Proof.
  cbv zeta.
  assert (Hrender : result PhotoWidget.renderPhotoWidget w = Ok tt
                    /\ firing PhotoWidget.renderPhotoWidget w = [ReRender]).
  { destruct (renderPhotoWidget_renders_once w) as (element & H).
    unfold result, firing, exec. rewrite H. cbn [fst snd].
    rewrite (@newEvents_app w _ [EvRenderWidget element]) by reflexivity.
    split; reflexivity. }
  assert (Htap : result (PhotoWidget.rotatePhoto ;; PhotoWidget.renderPhotoWidget) w
                 = Ok tt).
  { destruct (rotatePhoto_total w) as (w1 & Hrot).
    destruct (renderPhotoWidget_renders_once w1) as (element & H).
    unfold result, bind. rewrite Hrot, H. reflexivity. }
  destruct action; cbn [PhotoWidget.widgetTaskHandler];
    try (split; [apply Hrender|];
         split; [apply Hrender | apply renderPhotoWidget_keeps_store]);
    try (split; [reflexivity|]; split; [|reflexivity];
         unfold firing, exec, ret; cbn [snd];
         rewrite newEvents_same by reflexivity; reflexivity).
  split; [|split; [apply (tap_fires_once clickAction w) | exact I]].
  destruct clickAction as [s|]; [|exact Htap].
  repeat (match goal with
          | |- context [match ?x with _ => _ end] => destruct x
          end; try exact Htap).
Qed.

(** X29.  The two render functions draw the same thing.  In every world
    both return normally: [renderPhotoWidget] hands one element to the
    widget host, [renderWidgetForUpdate] returns one, and the two are the
    same placeholder or the same image with the same click action, except
    that the placeholder for an unreadable image carries the text "Unable
    to load photo" in the first and "Unable to load" in the second. *)
Theorem render_functions_agree (w : World) :
  exists handed returned,
    PhotoWidget.renderPhotoWidget w = (Ok tt, log (EvRenderWidget handed) w)
    /\ PhotoWidget.renderWidgetForUpdate w = (Ok returned, w)
    /\ (handed = returned
        \/ (handed = UnableToLoad "Unable to load photo"
            /\ returned = UnableToLoad "Unable to load")).
Proof.
  unfold PhotoWidget.renderPhotoWidget, PhotoWidget.renderWidgetForUpdate,
    PhotoWidget.getWidgetData, PhotoWidget.renderWidget, bind, gets.
  destruct (store w) as [d|] eqn:Hs;
    [|eexists _, _; split; [reflexivity|]; split; [reflexivity|]; left; reflexivity].
  destruct (photos d) as [|p0 rest] eqn:Hp.
  - cbn [jsLength List.length Z.of_nat Z.eqb].
    eexists _, _. split; [reflexivity|]. split; [reflexivity|]. left; reflexivity.
  - assert (Hne : (jsLength (p0 :: rest) =? 0) = false) by reflexivity.
    rewrite Hne.
    destruct (currentPhoto_exists d Hp) as (p & Hc & _). rewrite Hc.
    destruct (getImageAsBase64_pure (PhotoWidget.imagePath p) w) as (r & Hr & Ht).
    rewrite Hr, Ht.
    destruct r as [image|]; eexists _, _;
      (split; [reflexivity|]; split; [reflexivity|]);
      [left; reflexivity | right; split; reflexivity].
Qed.

(** ** The OAuth callback *)

Lemma tokensOf_with_user_info (json : string) (l : list (string * string)) :
  tokensOf ((USER_INFO, json) :: remove USER_INFO l) = tokensOf l.
Proof.
  unfold tokensOf. lookup_keys. reflexivity.
Qed.

Lemma handleOAuthCallback_saves
    (userInfoResp : string -> outcome string)
    (params : OAuthCallback.CallbackParams) (s : Secure) (a : string) :
  unavailable s = false ->
  OAuthCallback.cb_access_token params = Some a ->
  a <> EmptyString ->
  let t := {| accessToken := a;
              refreshToken := jsOrOpt (OAuthCallback.cb_refresh_token params)
                                EmptyString;
              expiresAt := OAuthCallback.expiryFrom (clock s)
                             (parseInt10
                                (jsOrOpt (OAuthCallback.cb_expires_in params)
                                   "3600")) |} in
  exists s',
    OAuthCallback.handleOAuthCallback userInfoResp params s = (Ok (Some t), s')
    /\ unavailable s' = false
    /\ tokensOf (items s')
       = if (String.eqb (accessToken t) EmptyString
             || String.eqb (refreshToken t) EmptyString)%bool
         then None else Some t.
Proof.
  intros Hu Ha Hne t.
  unfold OAuthCallback.handleOAuthCallback. rewrite Ha. cbn [missing].
  apply String.eqb_neq in Hne. rewrite Hne.
  unfold bind at 1, gets at 1. fold t.
  unfold bind at 1. rewrite (saveTokens_items t s Hu).
  destruct s as [l u c n]. cbn [unavailable] in Hu. subst u.
  cbn [items setItems unavailable clock refreshCalls].
  unfold bind at 1, tryCatch at 1, bind at 1, OAuthCallback.fetchUserInfo,
    fromOutcome.
  destruct (userInfoResp a) as [json|msg].
  - cbv beta iota delta [OAuthCallback.saveUserInfo tryCatch setItemAsync
                         unavailable items setItems clock refreshCalls ret].
    eexists. split; [reflexivity|]. split; [reflexivity|].
    cbn [items]. rewrite tokensOf_with_user_info. apply tokensOf_saved.
  - cbv beta iota delta [ret].
    eexists. split; [reflexivity|]. split; [reflexivity|].
    cbn [items]. apply tokensOf_saved.
Qed.

Lemma jsOrOpt_missing (o : option string) (fallback : string) :
  missing o = true -> jsOrOpt o fallback = fallback.
Proof.
  destruct o as [v|]; cbn [missing jsOrOpt]; [|reflexivity].
  intros H. unfold jsOr. rewrite H. reflexivity.
Qed.

Lemma jsOrOpt_present (o : option string) :
  missing o = false -> String.eqb (jsOrOpt o EmptyString) EmptyString = false.
Proof.
  destruct o as [v|]; cbn [missing jsOrOpt]; [|discriminate].
  intros H. unfold jsOr. rewrite H. exact H.
Qed.

(** X30.  The OAuth callback.  Without an access token in the URL
    nothing is stored and the callback answers [null].  With one (and a
    working secure store) it returns the tokens it built, whether or not
    the user-info request succeeds; an absent [expires_in] counts as one
    hour.  With a refresh token in the URL the stored tokens read back as
    returned and the user is authenticated.  Without one the empty string
    is stored as refresh token, so the tokens just returned cannot be read
    back: the user is not authenticated and no access token is handed out.
    An [expires_in] that [parseInt] does not read as a number gives tokens
    that are never reported expired.  When [expires_in] is a number, the
    lifetime in milliseconds and the expiry are taken within 2^53 in
    magnitude, where the arithmetic of JavaScript is exact and the expiry
    is printed in decimal notation. *)
Theorem oauth_callback_signs_in
    (userInfoResp : string -> outcome string)
    (backend : nat -> outcome GoogleAuth.RefreshData)
    (params : OAuthCallback.CallbackParams) (s : Secure) :
  unavailable s = false ->
  exactExpiry (clock s)
    (parseInt10 (jsOrOpt (OAuthCallback.cb_expires_in params) "3600")) ->
  let run := OAuthCallback.handleOAuthCallback userInfoResp params in
  let s' := exec run s in
  (missing (OAuthCallback.cb_access_token params) = true ->
   run s = (Ok None, s))
  /\ (missing (OAuthCallback.cb_access_token params) = false ->
      exists t,
        result run s = Ok (Some t)
        /\ OAuthCallback.cb_access_token params = Some (accessToken t)
        /\ (missing (OAuthCallback.cb_expires_in params) = true ->
            expiresAt t = Some (clock s + 3600 * 1000))
        /\ (missing (OAuthCallback.cb_refresh_token params) = false ->
            result getTokens s' = Ok (Some t)
            /\ result GoogleAuth.isAuthenticated s' = Ok true)
        /\ (missing (OAuthCallback.cb_refresh_token params) = true ->
            refreshToken t = EmptyString
            /\ result getTokens s' = Ok None
            /\ result GoogleAuth.isAuthenticated s' = Ok false
            /\ result (GoogleAuth.getValidAccessToken backend) s' = Ok None)
        /\ (missing (OAuthCallback.cb_refresh_token params) = false ->
            parseInt10 (jsOrOpt (OAuthCallback.cb_expires_in params) "3600")
            = None ->
            forall later, result isTokenExpired (atTime later s') = Ok false)).
Proof.
  intros Hu _ run s'. split.
  - intros Hmiss. subst run. unfold OAuthCallback.handleOAuthCallback.
    rewrite Hmiss. reflexivity.
  - intros Hpresent.
    destruct (OAuthCallback.cb_access_token params) as [a|] eqn:Ha;
      [|discriminate].
    cbn [missing] in Hpresent.
    assert (Hne : a <> EmptyString) by (apply String.eqb_neq; exact Hpresent).
    destruct (@handleOAuthCallback_saves userInfoResp params s a Hu Ha Hne)
      as (s1 & Hrun & Hu1 & Htok).
    cbv zeta in Hrun, Htok.
    set (t := {| accessToken := a;
                 refreshToken := jsOrOpt (OAuthCallback.cb_refresh_token params)
                                   EmptyString;
                 expiresAt := OAuthCallback.expiryFrom (clock s)
                                (parseInt10
                                   (jsOrOpt (OAuthCallback.cb_expires_in params)
                                      "3600")) |}) in *.
    cbn [accessToken refreshToken t] in Htok. rewrite Hpresent in Htok.
    cbn [orb] in Htok.
    assert (Hs' : s' = s1) by (subst s' run; unfold exec; rewrite Hrun; reflexivity).
    exists t. subst run. unfold result at 1. rewrite Hrun, Hs'.
    clearbody s'. clear Hs' s'.
    split; [reflexivity|]. split; [reflexivity|].
    unfold result, GoogleAuth.isAuthenticated, bind.
    rewrite getValidAccessToken_cases, getTokens_spec, Hu1.
    split; [|split; [|split]].
    + intros He. cbn [t expiresAt]. rewrite (@jsOrOpt_missing _ "3600" He). reflexivity.
    + intros Hr. rewrite (@jsOrOpt_present _ Hr) in Htok. rewrite Htok.
      split; reflexivity.
    + intros Hr. cbn [t refreshToken]. rewrite (@jsOrOpt_missing _ EmptyString Hr) in *.
      cbn [String.eqb] in Htok. rewrite Htok. repeat split.
    + intros Hr Hnan later. rewrite (@jsOrOpt_present _ Hr) in Htok.
      rewrite isTokenExpired_spec. cbn [atTime unavailable items clock].
      rewrite Hu1, Htok. cbn [t expiresAt]. rewrite Hnan. reflexivity.
Qed.

Lemma oauth_callback_signs_in_witness :
  result GoogleAuth.isAuthenticated
    (exec (OAuthCallback.handleOAuthCallback userIsAda (callbackWith (Some "rt-9")))
       (secureWith [])) = Ok true
  /\ result GoogleAuth.isAuthenticated
       (exec (OAuthCallback.handleOAuthCallback userIsAda (callbackWith None))
          (secureWith [])) = Ok false.
Proof.
  assert (Hexact : exactExpiry 1700000000000 (Some 3600))
    by (vm_compute; split; discriminate).
  split.
  - destruct (proj2 (@oauth_callback_signs_in userIsAda grantsAt2
                       (callbackWith (Some "rt-9")) (secureWith []) eq_refl
                       Hexact)
                eq_refl) as (t & _ & _ & _ & Hwith & _).
    exact (proj2 (Hwith eq_refl)).
  - destruct (proj2 (@oauth_callback_signs_in userIsAda grantsAt2
                       (callbackWith None) (secureWith []) eq_refl Hexact)
                eq_refl) as (t & _ & _ & _ & _ & Hwithout & _).
    exact (proj1 (proj2 (proj2 (Hwithout eq_refl)))).
Defined.
